(** * A shallow embedding of testfm's RBM recommender (theano_models.py)

    The Python class [RBM] builds Theano graphs and runs them on numpy
    arrays.  A graph is embedded here as the function it computes: a shared
    variable is read from an argument and its new value is returned in an
    [updates] record, exceptions are the [Raise] branch of [result], and the
    numeric primitives that belong to Theano and numpy (floating point
    arithmetic, the random streams, symbolic differentiation) are the
    operations of two interfaces, [Numeric] and [Theano].

    Shapes are checked where Theano and numpy check them: a product or an
    elementwise operation on operands of the wrong shapes raises, an index
    out of range raises.  Every matrix the program builds is tabulated from
    its shape, so that its rows have as many entries as it has columns.

    A method that builds a graph ([get_cost_updates],
    [get_pseudo_likelihood_cost], [get_reconstruction_cost]) returns
    without evaluating anything; the function of the same name here is one
    run of the function compiled from that graph, on the minibatch and the
    values of the shared variables it is given.  A part of the graph that
    no output and no update needs is not evaluated, so that it neither
    draws from the random stream nor raises.

    Left out: the elapsed time that [train_rbm] prints, and the state of an
    object after an exception inside [fit]. *)

From Stdlib Require Import String ZArith QArith Lia Bool Arith List.
From Stdlib Require Import DecimalString DecimalNat.
Import ListNotations.
Close Scope Q_scope.
Open Scope nat_scope.

(** ** Exceptions *)

Inductive exn : Type :=
| KeyError | IndexError | ZeroDivisionError | ValueError | AttributeError
| NotImplementedError.

Inductive result (A : Type) : Type :=
| Ok (a : A)
| Raise (e : exn).

Arguments Ok {A} a.
Arguments Raise {A} e.

Definition bind {A B : Type} (c : result A) (k : A -> result B) : result B :=
  match c with
  | Ok a => k a
  | Raise e => Raise e
  end.

Declare Scope result_scope.
Delimit Scope result_scope with result.
Notation "x <- c ;; k" := (bind c (fun x => k))
  (at level 61, c at next level, right associativity) : result_scope.
Notation "' p <- c ;; k" := (bind c (fun x => match x with p => k end))
  (at level 61, p pattern, c at next level, right associativity) : result_scope.
Open Scope result_scope.

(** A [for] loop whose body may raise. *)
Fixpoint foldM {A B : Type} (f : A -> B -> result A) (a : A) (l : list B)
  : result A :=
  match l with
  | [] => Ok a
  | b :: l' => a' <- f a b ;; foldM f a' l'
  end.

(** [l[-1]]: the last element, [IndexError] on an empty sequence. *)
Fixpoint last_of {A : Type} (l : list A) : result A :=
  match l with
  | [] => Raise IndexError
  | [a] => Ok a
  | _ :: l' => last_of l'
  end.

(** An attribute that exists only once it has been assigned. *)
Definition attr {A : Type} (o : option A) : result A :=
  match o with
  | Some a => Ok a
  | None => Raise AttributeError
  end.

(** ** Python dicts with string keys, in insertion order *)

Definition dict (V : Type) : Type := list (string * V).

Fixpoint dict_find {V : Type} (d : dict V) (k : string) : option V :=
  match d with
  | [] => None
  | (k', v) :: d' => if String.eqb k' k then Some v else dict_find d' k
  end.

(** [d[k]] *)
Definition dict_get {V : Type} (d : dict V) (k : string) : result V :=
  match dict_find d k with
  | Some v => Ok v
  | None => Raise KeyError
  end.

(** ** Scalars

    [floatX] values with the operations the program applies to them.
    [rconst] reads a Python numeric literal or integer as a scalar. *)

Class Numeric (R : Type) : Type := {
  rconst : Q -> R;
  radd : R -> R -> R;
  rsub : R -> R -> R;
  rmul : R -> R -> R;
  rdiv : R -> R -> R;
  rneg : R -> R;
  rexp : R -> R;
  rlog : R -> R;
  rsigmoid : R -> R;
  rround : R -> R
}.

Definition rzero {R : Type} `{Numeric R} : R := rconst (0 # 1).
Definition rone {R : Type} `{Numeric R} : R := rconst (1 # 1).
Definition rnat {R : Type} `{Numeric R} (n : nat) : R :=
  rconst (Z.of_nat n # 1).

(** ** Tensors

    A vector is a list; a matrix carries its column count next to its rows,
    as a numpy array of shape (n, 0) or (0, m) does. *)

Record matrix (R : Type) : Type := Matrix {
  ncols : nat;
  rows : list (list R)
}.

Arguments Matrix {R} ncols rows.
Arguments ncols {R} m.
Arguments rows {R} m.

Definition nrows {R : Type} (M : matrix R) : nat := length (rows M).

Definition shape {R : Type} (M : matrix R) : nat * nat := (nrows M, ncols M).

Section Tensor.

Context {R : Type} `{Numeric R}.

Definition vget (v : list R) (i : nat) : R := nth i v rzero.

Definition get (M : matrix R) (i j : nat) : R :=
  vget (nth i (rows M) []) j.

Definition vtabulate (n : nat) (f : nat -> R) : list R :=
  map f (seq 0 n).

Definition tabulate (n m : nat) (f : nat -> nat -> R) : matrix R :=
  Matrix m (map (fun i => vtabulate m (f i)) (seq 0 n)).

(** [numpy.zeros(n)] and [numpy.zeros((n, m))] *)
Definition vzeros (n : nat) : list R := vtabulate n (fun _ => rzero).
Definition zeros (n m : nat) : matrix R := tabulate n m (fun _ _ => rzero).

Definition rsum (l : list R) : R := fold_left radd l rzero.

(** [T.dot(A, B)] for two matrices *)
Definition dot (A B : matrix R) : result (matrix R) :=
  if ncols A =? nrows B
  then Ok (tabulate (nrows A) (ncols B) (fun i j =>
             rsum (map (fun k => rmul (get A i k) (get B k j))
                       (seq 0 (ncols A)))))
  else Raise ValueError.

(** [T.dot(A, v)] for a matrix and a vector *)
Definition dot_vec (A : matrix R) (v : list R) : result (list R) :=
  if ncols A =? length v
  then Ok (vtabulate (nrows A) (fun i =>
             rsum (map (fun k => rmul (get A i k) (vget v k))
                       (seq 0 (ncols A)))))
  else Raise ValueError.

(** [M.T] *)
Definition transpose (M : matrix R) : matrix R :=
  tabulate (ncols M) (nrows M) (fun i j => get M j i).

(** [M + v], the vector broadcast over the rows *)
Definition add_row (M : matrix R) (v : list R) : result (matrix R) :=
  if ncols M =? length v
  then Ok (tabulate (nrows M) (ncols M) (fun i j =>
             radd (get M i j) (vget v j)))
  else Raise ValueError.

(** An elementwise operation on one matrix, on two matrices of one shape,
    on two vectors of one length. *)
Definition mmap (f : R -> R) (M : matrix R) : matrix R :=
  tabulate (nrows M) (ncols M) (fun i j => f (get M i j)).

Definition mmap2 (f : R -> R -> R) (A B : matrix R) : result (matrix R) :=
  if (nrows A =? nrows B) && (ncols A =? ncols B)
  then Ok (tabulate (nrows A) (ncols A) (fun i j =>
             f (get A i j) (get B i j)))
  else Raise ValueError.

Definition vmap2 (f : R -> R -> R) (u v : list R) : result (list R) :=
  if length u =? length v
  then Ok (vtabulate (length u) (fun i => f (vget u i) (vget v i)))
  else Raise ValueError.

(** [T.sum(M, axis=1)] *)
Definition sum_axis1 (M : matrix R) : list R :=
  vtabulate (nrows M) (fun i =>
    rsum (map (fun j => get M i j) (seq 0 (ncols M)))).

(** [T.mean(v)] and [numpy.mean(l)] *)
Definition mean (v : list R) : R := rdiv (rsum v) (rnat (length v)).

(** [M[i, j] = x] *)
Definition set_entry (M : matrix R) (i j : nat) (x : R)
  : result (matrix R) :=
  if (i <? nrows M) && (j <? ncols M)
  then Ok (tabulate (nrows M) (ncols M) (fun a b =>
             if (a =? i) && (b =? j) then x else get M a b))
  else Raise IndexError.

(** [M[i, j]] *)
Definition get_entry (M : matrix R) (i j : nat) : result R :=
  if (i <? nrows M) && (j <? ncols M)
  then Ok (get M i j)
  else Raise IndexError.

(** [M[:, j]] *)
Definition column (M : matrix R) (j : nat) : result (list R) :=
  if j <? ncols M
  then Ok (vtabulate (nrows M) (fun a => get M a j))
  else Raise IndexError.

(** [T.set_subtensor(M[:, j], v)]: a copy of M with column j set to v *)
Definition set_column (M : matrix R) (j : nat) (v : list R)
  : result (matrix R) :=
  if j <? ncols M
  then if length v =? nrows M
       then Ok (tabulate (nrows M) (ncols M) (fun a b =>
                  if b =? j then vget v a else get M a b))
       else Raise ValueError
  else Raise IndexError.

(** [M[a:b]], rows a to b-1, clipped to the rows there are *)
Definition slice_rows (M : matrix R) (a b : nat) : matrix R :=
  Matrix (ncols M) (firstn (b - a) (skipn a (rows M))).

End Tensor.

(** ** The Theano and numpy primitives

    [params] is the list [self.params] = [W, hbias, vbias]. *)

Record params (R : Type) : Type := Params {
  p_W : matrix R;
  p_hbias : list R;
  p_vbias : list R
}.

Arguments Params {R} p_W p_hbias p_vbias.
Arguments p_W {R} p.
Arguments p_hbias {R} p.
Arguments p_vbias {R} p.

Definition params_shape {R : Type} (p : params R) : nat * nat * nat * nat :=
  (nrows (p_W p), ncols (p_W p), length (p_hbias p), length (p_vbias p)).

(** A [numpy.random.RandomState] as this program uses one: the seed it
    was made with and how many [randint(2 ** 30)] it has drawn since.
    Nothing else is drawn from a generator before the initial W. *)
Record RandomState : Type := mkRandomState {
  rs_seed : Z;
  rs_randints : nat
}.

(** [numpy.random.RandomState(seed)], and the generator after one more
    [randint]. *)
Definition numpy_RandomState (seed : Z) : RandomState :=
  mkRandomState seed 0.

Definition after_randint (numpy_rng : RandomState) : RandomState :=
  mkRandomState (rs_seed numpy_rng) (S (rs_randints numpy_rng)).

(** [bernoulli] is one draw of [theano_rng.binomial(n=1, p=p)] and the
    stream after it.  [T_grad cost p] is [T.grad] of a scalar cost with
    respect to the parameters, at p; each gradient has the shape of its
    parameter.  [numpy_uniform numpy_rng n m i j] is entry (i, j) of the
    n x m matrix that [numpy_rng.uniform(low, high, size=(n, m))] draws
    from a generator in that state, and [randint_streams numpy_rng] is
    [RandomStreams(numpy_rng.randint(2 ** 30))] for a generator in that
    state. *)
Class Theano (R : Type) {NumR : Numeric R} (Rng : Type) : Type := {
  bernoulli : Rng -> R -> R * Rng;
  T_grad : (params R -> result R) -> params R -> params R;
  numpy_uniform : RandomState -> nat -> nat -> nat -> nat -> R;
  randint_streams : RandomState -> Rng;
  T_grad_shape : forall cost p, params_shape (T_grad cost p) = params_shape p
}.

(** The two draws as each construction of this program makes them, from
    a new generator: [RandomStreams seed] is
    [RandomStreams(RandomState(seed).randint(2 ** 30))], and
    [uniform seed n m] the matrix the generator draws after that one
    [randint]. *)
Definition RandomStreams {R : Type} {NumR : Numeric R} {Rng : Type}
           {Th : Theano R Rng} (seed : Z) : Rng :=
  randint_streams (numpy_RandomState seed).

Definition uniform {R : Type} {NumR : Numeric R} {Rng : Type}
           {Th : Theano R Rng} (seed : Z) : nat -> nat -> nat -> nat -> R :=
  numpy_uniform (after_randint (numpy_RandomState seed)).

(** ** The RBM object

    The attributes [__init__] assigns.  [input] is passed to the methods
    that read [self.input]; [self.params] is [rbm_params]. *)

Record RBM (R Rng : Type) : Type := mkRBM {
  n_visible : nat;
  n_hidden : nat;
  learning_rate : Q;
  training_epochs : Z;
  W : matrix R;
  hbias : list R;
  vbias : list R;
  theano_rng : Rng
}.

Arguments mkRBM {R Rng}.
Arguments n_visible {R Rng} r.
Arguments n_hidden {R Rng} r.
Arguments learning_rate {R Rng} r.
Arguments training_epochs {R Rng} r.
Arguments W {R Rng} r.
Arguments hbias {R Rng} r.
Arguments vbias {R Rng} r.
Arguments theano_rng {R Rng} r.

(** The six outputs of one Gibbs step, by name. *)
Record gibbs (R : Type) : Type := Gibbs {
  pre_sigmoid_v1 : matrix R;
  v1_mean : matrix R;
  v1_sample : matrix R;
  pre_sigmoid_h1 : matrix R;
  h1_mean : matrix R;
  h1_sample : matrix R
}.

Arguments Gibbs {R}.
Arguments pre_sigmoid_v1 {R} g.
Arguments v1_mean {R} g.
Arguments v1_sample {R} g.
Arguments pre_sigmoid_h1 {R} g.
Arguments h1_mean {R} g.
Arguments h1_sample {R} g.

(** The update dictionary of [get_cost_updates]: the new value of each shared
    variable it names.  The persistent chain and the bit index are there
    only under PCD. *)
Record updates (R Rng : Type) : Type := Updates {
  upd_W : matrix R;
  upd_hbias : list R;
  upd_vbias : list R;
  upd_persistent : option (matrix R);
  upd_bit_i_idx : option nat;
  upd_rng : Rng
}.

Arguments Updates {R Rng}.
Arguments upd_W {R Rng} u.
Arguments upd_hbias {R Rng} u.
Arguments upd_vbias {R Rng} u.
Arguments upd_persistent {R Rng} u.
Arguments upd_bit_i_idx {R Rng} u.
Arguments upd_rng {R Rng} u.

Section Core.

Context {R : Type} {NumR : Numeric R} {Rng : Type} {Th : Theano R Rng}.

Definition rbm_params (self : RBM R Rng) : params R :=
  Params (W self) (hbias self) (vbias self).

Definition with_params (self : RBM R Rng) (p : params R) : RBM R Rng :=
  mkRBM (n_visible self) (n_hidden self) (learning_rate self)
        (training_epochs self) (p_W p) (p_hbias p) (p_vbias p)
        (theano_rng self).

Definition with_rng (self : RBM R Rng) (g : Rng) : RBM R Rng :=
  mkRBM (n_visible self) (n_hidden self) (learning_rate self)
        (training_epochs self) (W self) (hbias self) (vbias self) g.

(** [theano_rng.binomial(size=p.shape, n=1, p=p)]: one draw per entry. *)
Fixpoint binomial_row (g : Rng) (ps : list R) : list R * Rng :=
  match ps with
  | [] => ([], g)
  | p :: ps' =>
      let (x, g1) := bernoulli g p in
      let (xs, g2) := binomial_row g1 ps' in
      (x :: xs, g2)
  end.

Fixpoint binomial_rows (g : Rng) (rs : list (list R))
  : list (list R) * Rng :=
  match rs with
  | [] => ([], g)
  | r :: rs' =>
      let (x, g1) := binomial_row g r in
      let (xs, g2) := binomial_rows g1 rs' in
      (x :: xs, g2)
  end.

Definition binomial (g : Rng) (p : matrix R) : matrix R * Rng :=
  let (rs, g') := binomial_rows g (rows p) in
  (Matrix (ncols p) rs, g').

Definition free_energy (self : RBM R Rng) (v_sample : matrix R)
  : result (list R) :=
  d <- dot v_sample (W self) ;;
  wx_b <- add_row d (hbias self) ;;
  vbias_term <- dot_vec v_sample (vbias self) ;;
  let hidden_term :=
    sum_axis1 (mmap (fun x => rlog (radd rone (rexp x))) wx_b) in
  vmap2 rsub (map rneg hidden_term) vbias_term.

Definition propup (self : RBM R Rng) (vis : matrix R)
  : result (matrix R * matrix R) :=
  d <- dot vis (W self) ;;
  pre_sigmoid_activation <- add_row d (hbias self) ;;
  Ok (pre_sigmoid_activation, mmap rsigmoid pre_sigmoid_activation).

Definition sample_h_given_v (self : RBM R Rng) (v0_sample : matrix R)
           (g : Rng) : result (matrix R * matrix R * matrix R * Rng) :=
  '(pre_sigmoid_h1, h1_mean) <- propup self v0_sample ;;
  let (h1_sample, g') := binomial g h1_mean in
  Ok (pre_sigmoid_h1, h1_mean, h1_sample, g').

Definition propdown (self : RBM R Rng) (hid : matrix R)
  : result (matrix R * matrix R) :=
  d <- dot hid (transpose (W self)) ;;
  pre_sigmoid_activation <- add_row d (vbias self) ;;
  Ok (pre_sigmoid_activation, mmap rsigmoid pre_sigmoid_activation).

Definition sample_v_given_h (self : RBM R Rng) (h0_sample : matrix R)
           (g : Rng) : result (matrix R * matrix R * matrix R * Rng) :=
  '(pre_sigmoid_v1, v1_mean) <- propdown self h0_sample ;;
  let (v1_sample, g') := binomial g v1_mean in
  Ok (pre_sigmoid_v1, v1_mean, v1_sample, g').

Definition gibbs_hvh (self : RBM R Rng) (h0_sample : matrix R) (g : Rng)
  : result (gibbs R * Rng) :=
  '(pre_sigmoid_v1, v1_mean, v1_sample, g1) <-
    sample_v_given_h self h0_sample g ;;
  '(pre_sigmoid_h1, h1_mean, h1_sample, g2) <-
    sample_h_given_v self v1_sample g1 ;;
  Ok (Gibbs pre_sigmoid_v1 v1_mean v1_sample
            pre_sigmoid_h1 h1_mean h1_sample, g2).

Definition gibbs_vhv (self : RBM R Rng) (v0_sample : matrix R) (g : Rng)
  : result (gibbs R * Rng) :=
  '(pre_sigmoid_h1, h1_mean, h1_sample, g1) <-
    sample_h_given_v self v0_sample g ;;
  '(pre_sigmoid_v1, v1_mean, v1_sample, g2) <-
    sample_v_given_h self h1_sample g1 ;;
  Ok (Gibbs pre_sigmoid_v1 v1_mean v1_sample
            pre_sigmoid_h1 h1_mean h1_sample, g2).

(** The steps of a scan: the hidden sample of each step is the state of
    the next one, and the outputs of every step are collected. *)
Fixpoint scan_steps (fn : matrix R -> Rng -> result (gibbs R * Rng))
         (chain_start : matrix R) (n_steps : nat) (g : Rng)
  : result (list (gibbs R) * Rng) :=
  match n_steps with
  | 0 => Ok ([], g)
  | S n =>
      '(o, g1) <- fn chain_start g ;;
      '(os, g2) <- scan_steps fn (h1_sample o) n g1 ;;
      Ok (o :: os, g2)
  end.

(** [theano.scan(fn, outputs_info=[None]*5 + [chain_start], n_steps)],
    when the compiled function runs it.  The scan of Theano does not
    implement a run of no iteration: it raises NotImplementedError. *)
Definition scan (fn : matrix R -> Rng -> result (gibbs R * Rng))
           (chain_start : matrix R) (n_steps : nat) (g : Rng)
  : result (list (gibbs R) * Rng) :=
  if n_steps =? 0 then Raise NotImplementedError
  else scan_steps fn chain_start n_steps g.

(** The remainder of a Theano integer by a Python integer n: with n = 0
    the compiled function raises ZeroDivisionError. *)
Definition int_mod (a n : nat) : result nat :=
  if n =? 0 then Raise ZeroDivisionError else Ok (a mod n).

(** Returns the cost and the new value of the shared [bit_i_idx], which
    the Python code writes to [updates].  The new index reads the shared
    index and [n_visible] only: with no visible unit its remainder
    raises, whatever the input is. *)
Definition get_pseudo_likelihood_cost (self : RBM R Rng) (input : matrix R)
           (bit_i_idx : nat) : result (R * nat) :=
  next <- int_mod (bit_i_idx + 1) (n_visible self) ;;
  let xi := mmap rround input in
  fe_xi <- free_energy self xi ;;
  col <- column xi bit_i_idx ;;
  xi_flip <- set_column xi bit_i_idx (map (fun x => rsub rone x) col) ;;
  fe_xi_flip <- free_energy self xi_flip ;;
  d <- vmap2 rsub fe_xi_flip fe_xi ;;
  let cost :=
    mean (map (fun x => rmul (rnat (n_visible self)) (rlog (rsigmoid x)))
              d) in
  Ok (cost, next).

Definition get_reconstruction_cost (input pre_sigmoid_nv : matrix R)
  : result R :=
  a <- mmap2 rmul input
             (mmap (fun x => rlog (rsigmoid x)) pre_sigmoid_nv) ;;
  b <- mmap2 rmul (mmap (fun x => rsub rone x) input)
             (mmap (fun x => rlog (rsub rone (rsigmoid x)))
                   pre_sigmoid_nv) ;;
  s <- mmap2 radd a b ;;
  Ok (mean (sum_axis1 s)).

(** The CD cost as a function of the parameters, the end of the chain
    held constant. *)
Definition cd_cost (self : RBM R Rng) (input chain_end : matrix R)
           (p : params R) : result R :=
  fe_input <- free_energy (with_params self p) input ;;
  fe_end <- free_energy (with_params self p) chain_end ;;
  Ok (rsub (mean fe_input) (mean fe_end)).

(** A Theano variable is always true as a condition, [None] never. *)
Definition truthy {A : Type} (persistent : option A) : bool :=
  match persistent with
  | Some _ => true
  | None => false
  end.

(** One run of the function compiled from the cost and the updates that
    [get_cost_updates(lr, persistent, k)] returns.  The graph of the
    positive phase is built in both modes; with a persistent chain no
    output and no update needs [ph_sample], and the run neither computes
    it nor draws for it. *)
Definition get_cost_updates (self : RBM R Rng) (input : matrix R) (lr : Q)
           (persistent : option (matrix R)) (k : nat) (bit_i_idx : nat)
           (g : Rng) : result (R * updates R Rng) :=
  '(chain_start, g1) <-
    match persistent with
    | None =>
        '(pre_sigmoid_ph, ph_mean, ph_sample, g1) <-
          sample_h_given_v self input g ;;
        Ok (ph_sample, g1)
    | Some p => Ok (p, g)
    end ;;
  '(chain, g2) <- scan (gibbs_hvh self) chain_start k g1 ;;
  let pre_sigmoid_nvs := map pre_sigmoid_v1 chain in
  let nv_samples := map v1_sample chain in
  let nh_samples := map h1_sample chain in
  chain_end <- last_of nv_samples ;;
  _ <- cd_cost self input chain_end (rbm_params self) ;;
  let gparams := T_grad (cd_cost self input chain_end) (rbm_params self) in
  let step := fun x => rmul x (rconst lr) in
  new_W <- mmap2 rsub (W self) (mmap step (p_W gparams)) ;;
  new_hbias <- vmap2 rsub (hbias self) (map step (p_hbias gparams)) ;;
  new_vbias <- vmap2 rsub (vbias self) (map step (p_vbias gparams)) ;;
  if truthy persistent
  then
    nh_last <- last_of nh_samples ;;
    '(monitoring_cost, next) <-
      get_pseudo_likelihood_cost self input bit_i_idx ;;
    Ok (monitoring_cost,
        Updates new_W new_hbias new_vbias (Some nh_last) (Some next) g2)
  else
    pre_last <- last_of pre_sigmoid_nvs ;;
    monitoring_cost <- get_reconstruction_cost input pre_last ;;
    Ok (monitoring_cost,
        Updates new_W new_hbias new_vbias None None g2).

End Core.

(** ** The recommender: training data, the fitted object, the cache *)

(** One row of the training frame: its [user] and [item] fields. *)
Record interaction : Type := Interaction {
  user : string;
  item : string
}.

(** [Series.unique()]: the distinct values in order of first appearance.
    It stands for [set(entries)] too: the loops over a set only assign
    ones, so that the order of the set does not show. *)
Fixpoint unique (l : list string) : list string :=
  match l with
  | [] => []
  | x :: l' => x :: filter (fun y => negb (String.eqb x y)) (unique l')
  end.

(** [{x: id for id, x in enumerate(l)}] *)
Definition enumerate_map (l : list string) : dict nat :=
  combine l (seq 0 (length l)).

(** [{user: set(entries) for user, entries in data.groupby('user')['item']}] *)
Definition groupby_user (training_data : list interaction)
  : dict (list string) :=
  map (fun u =>
         (u, unique (map item
                         (filter (fun r => String.eqb (user r) u)
                                 training_data))))
      (unique (map user training_data)).

(** The Python object: [id(self)], the attributes of [__init__], and the
    attributes that exist once [fit] has assigned them. *)
Record RBM_object (R Rng : Type) : Type := mkObject {
  obj_id : nat;
  base : RBM R Rng;
  user_data : option (dict (list string));
  uid_map : option (dict nat);
  iid_map : option (dict nat);
  input : option (matrix R);
  rbm : option (RBM R Rng)
}.

Arguments mkObject {R Rng}.
Arguments obj_id {R Rng} r.
Arguments base {R Rng} r.
Arguments user_data {R Rng} r.
Arguments uid_map {R Rng} r.
Arguments iid_map {R Rng} r.
Arguments input {R Rng} r.
Arguments rbm {R Rng} r.

(** What [print] writes during training; the elapsed time is left out. *)
Inductive output (R : Type) : Type :=
| EpochCost (epoch : nat) (mean_cost : R)
| TrainingTook.

Arguments EpochCost {R} epoch mean_cost.
Arguments TrainingTook {R}.

(** The shared variables one call of the compiled [train_rbm] function
    reads and updates: the parameters and random stream of [self.rbm], the
    persistent chain and the bit index. *)
Record train_state (R Rng : Type) : Type := TrainState {
  ts_rbm : RBM R Rng;
  ts_persistent : matrix R;
  ts_bit_i_idx : nat
}.

Arguments TrainState {R Rng}.
Arguments ts_rbm {R Rng} t.
Arguments ts_persistent {R Rng} t.
Arguments ts_bit_i_idx {R Rng} t.

(** The cache of [lru_cache]: the key is the argument tuple (self, user),
    the entries are kept most recently used first.  [events] is a ghost
    log, newest first: a hit of the cache, or a run of [gibbs_vhv]. *)
Definition lru_key : Type := nat * string.

Inductive cache_event : Type :=
| Hit (key : lru_key)
| Run (key : lru_key).

Record world (R : Type) : Type := World {
  cache : list (lru_key * matrix R);
  events : list cache_event
}.

Arguments World {R} cache events.
Arguments cache {R} w.
Arguments events {R} w.

Definition key_eqb (a b : lru_key) : bool :=
  (fst a =? fst b) && String.eqb (snd a) (snd b).

Definition maxsize : nat := 1000.

Fixpoint cache_find {V : Type} (c : list (lru_key * V)) (key : lru_key)
  : option V :=
  match c with
  | [] => None
  | (k, v) :: c' => if key_eqb k key then Some v else cache_find c' key
  end.

Definition cache_remove {V : Type} (key : lru_key) (c : list (lru_key * V))
  : list (lru_key * V) :=
  filter (fun e => negb (key_eqb (fst e) key)) c.

(** A hit moves the entry to the front. *)
Definition lru_touch {V : Type} (key : lru_key) (v : V)
           (c : list (lru_key * V)) : list (lru_key * V) :=
  (key, v) :: cache_remove key c.

(** A new entry goes to the front; a full cache first drops its last,
    least recently used, entry. *)
Definition lru_insert {V : Type} (key : lru_key) (v : V)
           (c : list (lru_key * V)) : list (lru_key * V) :=
  (key, v) :: (if maxsize <=? length c then removelast c else c).

(** The defaults of [__init__]. *)
Definition default_n_hidden : nat := 100.
Definition default_learning_rate : Q := 0.1%Q.
Definition default_training_epochs : Z := 5%Z.

(** [param_details()]: name to (min, max, step, default), as the interface
    of the models documents the tuple. *)
Definition param_details : dict (Q * Q * Q * Q) :=
  [ ("learning_rate"%string, (0.01, 0.05, 0.5, 0.1)%Q);
    ("training_epochs"%string, (1, 50, 5, 15)%Q);
    ("n_hidden"%string, (10, 1000, 10, 100)%Q) ].

Definition pd_min (t : Q * Q * Q * Q) : Q := fst (fst (fst t)).
Definition pd_max (t : Q * Q * Q * Q) : Q := snd (fst (fst t)).
Definition pd_step (t : Q * Q * Q * Q) : Q := snd (fst t).
Definition pd_default (t : Q * Q * Q * Q) : Q := snd t.

Section Recommender.

Context {R : Type} {NumR : Numeric R} {Rng : Type} {Th : Theano R Rng}.

(** [RBM(n_visible, n_hidden, learning_rate, training_epochs, W, hbias,
    vbias, numpy_rng, theano_rng)].  [numpy_rng] is the generator in the
    state the caller left it in.  Without a [theano_rng] the constructor
    draws one [randint] from it for the seed of the stream, and the
    initial W is drawn after that; with a [theano_rng] the generator is
    where the caller left it when W is drawn.  The bounds of that draw
    divide by [n_hidden + n_visible]. *)
Definition __init__ (n_visible : option nat) (n_hidden : nat)
           (learning_rate : Q) (training_epochs : Z)
           (W : option (matrix R)) (hbias vbias : option (list R))
           (numpy_rng : option RandomState) (theano_rng : option Rng)
  : result (RBM R Rng) :=
  let n_visible := match n_visible with None => 0 | Some n => n end in
  let numpy_rng :=
    match numpy_rng with
    | None => numpy_RandomState 1234%Z
    | Some s => s
    end in
  let (theano_rng, numpy_rng) :=
    match theano_rng with
    | None => (randint_streams numpy_rng, after_randint numpy_rng)
    | Some g => (g, numpy_rng)
    end in
  W <- match W with
       | None =>
           if n_hidden + n_visible =? 0 then Raise ZeroDivisionError
           else Ok (tabulate n_visible n_hidden
                             (numpy_uniform numpy_rng n_visible n_hidden))
       | Some W => Ok W
       end ;;
  let hbias := match hbias with None => vzeros n_hidden | Some b => b end in
  let vbias := match vbias with None => vzeros n_visible | Some b => b end in
  Ok (mkRBM n_visible n_hidden learning_rate training_epochs
            W hbias vbias theano_rng).

Definition _convert (training_data : list interaction)
  : result (matrix R * dict nat * dict nat * dict (list string)) :=
  let iid_map := enumerate_map (unique (map item training_data)) in
  let uid_map := enumerate_map (unique (map user training_data)) in
  let users := groupby_user training_data in
  train_set_x <-
    foldM (fun x (entry : string * list string) =>
             let (user, items) := entry in
             foldM (fun x i =>
                      u <- dict_get uid_map user ;;
                      c <- dict_get iid_map i ;;
                      set_entry x u c rone)
                   x items)
          (zeros (length uid_map) (length iid_map)) users ;;
  Ok (train_set_x, uid_map, iid_map, users).

(** Python 2 [/] on two integers *)
Definition int_div (a b : nat) : result nat :=
  if b =? 0 then Raise ZeroDivisionError else Ok (a / b).

Definition apply_updates (st : train_state R Rng) (u : updates R Rng)
  : train_state R Rng :=
  TrainState
    (mkRBM (n_visible (ts_rbm st)) (n_hidden (ts_rbm st))
           (learning_rate (ts_rbm st)) (training_epochs (ts_rbm st))
           (upd_W u) (upd_hbias u) (upd_vbias u) (upd_rng u))
    (match upd_persistent u with
     | Some p => p
     | None => ts_persistent st
     end)
    (match upd_bit_i_idx u with
     | Some i => i
     | None => ts_bit_i_idx st
     end).

(** The minibatch the [givens] of the compiled function substitute for
    x: [train_set_x[index * batch_size: (index + 1) * batch_size]]. *)
Definition minibatch (train_set_x : matrix R) (batch_size index : nat)
  : matrix R :=
  slice_rows train_set_x (index * batch_size) ((index + 1) * batch_size).

(** One call [train_rbm(index)] of the function compiled from
    [get_cost_updates(lr, persistent=persistent_chain, k)]. *)
Definition train_fn (lr : Q) (k : nat) (train_set_x : matrix R)
           (batch_size : nat) (st : train_state R Rng) (index : nat)
  : result (R * train_state R Rng) :=
  '(cost, u) <-
    get_cost_updates (ts_rbm st) (minibatch train_set_x batch_size index)
                     lr (Some (ts_persistent st)) k (ts_bit_i_idx st)
                     (theano_rng (ts_rbm st)) ;;
  Ok (cost, apply_updates st u).

(** The body of the loop over epochs: the loop over the minibatches and
    the line it prints. *)
Definition train_epoch (lr : Q) (k : nat) (train_set_x : matrix R)
           (batch_size n_train_batches : nat)
           (acc : train_state R Rng * list (output R)) (epoch : nat)
  : result (train_state R Rng * list (output R)) :=
  let (st, out) := acc in
  '(st', mean_cost) <-
    foldM (fun (a : train_state R Rng * list R) batch_index =>
             let (st, mean_cost) := a in
             '(c, st') <- train_fn lr k train_set_x batch_size st
                                   batch_index ;;
             Ok (st', mean_cost ++ [c]))
          (st, []) (seq 0 n_train_batches) ;;
  Ok (st', out ++ [EpochCost epoch (mean mean_cost)]).

(** [train_rbm] up to the end of its loops: the shared variables as the
    last call of the compiled function left them, and what was printed.
    The bit index is the shared variable that [get_pseudo_likelihood_cost]
    creates with value 0 when the graph is built.  [rng] has drawn the
    seed of [theano_rng] when the constructor gets it. *)
Definition train_rbm_state (self : RBM_object R Rng) (train_set_x : matrix R)
           (batch_size : nat)
  : result (train_state R Rng * list (output R)) :=
  n_train_batches <- int_div (nrows train_set_x) batch_size ;;
  let rng := numpy_RandomState 123%Z in
  let theano_rng := randint_streams rng in
  let rng := after_randint rng in
  let persistent_chain := zeros batch_size (n_hidden (base self)) in
  rbm <- __init__ (Some (ncols train_set_x)) (n_hidden (base self))
                  default_learning_rate default_training_epochs
                  None None None (Some rng) (Some theano_rng) ;;
  let bit_i_idx := 0 in
  foldM (train_epoch (learning_rate (base self))
                     (Z.to_nat (training_epochs (base self)))
                     train_set_x batch_size n_train_batches)
        (TrainState rbm persistent_chain bit_i_idx, [])
        (seq 0 (Z.to_nat (training_epochs (base self)))).

(** Returns the trained [self.rbm] and what was printed. *)
Definition train_rbm (self : RBM_object R Rng) (train_set_x : matrix R)
           (batch_size : nat) : result (RBM R Rng * list (output R)) :=
  '(st, out) <- train_rbm_state self train_set_x batch_size ;;
  Ok (ts_rbm st, out ++ [TrainingTook]).

Definition fit (self : RBM_object R Rng) (training_data : list interaction)
  : result (RBM_object R Rng * list (output R)) :=
  '(matrix, uids, iids, users) <- _convert training_data ;;
  let self1 :=
    mkObject (obj_id self) (base self) (Some users) (Some uids)
             (Some iids) (Some matrix) (rbm self) in
  '(r, out) <- train_rbm self1 matrix 20 ;;
  Ok (mkObject (obj_id self) (base self) (Some users) (Some uids)
               (Some iids) (Some matrix) (Some r),
      out).

(** [get_name]: ["RBM (n_hidden={0})".format(self.n_hidden)], the number
    in decimal digits. *)
Definition get_name (self : RBM_object R Rng) : string :=
  ("RBM (n_hidden="
     ++ NilEmpty.string_of_uint (Nat.to_uint (n_hidden (base self)))
     ++ ")")%string.

(** Lines 433 to 440 of [_get_user_predictions]: the one-row matrix of the
    items of the user. *)
Definition test_user (self : RBM_object R Rng) (user : string)
  : result (matrix R) :=
  data <- attr (user_data self) ;;
  user_items <- dict_get data user ;;
  iid_map <- attr (iid_map self) ;;
  foldM (fun matrix i =>
           c <- dict_get iid_map i ;;
           set_entry matrix 0 c rone)
        (zeros 1 (length iid_map)) user_items.

Definition store_rng (self : RBM_object R Rng) (r : RBM R Rng) (g : Rng)
  : RBM_object R Rng :=
  mkObject (obj_id self) (base self) (user_data self) (uid_map self)
           (iid_map self) (input self) (Some (with_rng r g)).

(** [_get_user_predictions] under [lru_cache(maxsize=1000)].  An exception
    leaves the cache as it was. *)
Definition _get_user_predictions (self : RBM_object R Rng) (user : string)
           (w : world R)
  : result (matrix R * RBM_object R Rng) * world R :=
  let key := (obj_id self, user) in
  match cache_find (cache w) key with
  | Some v =>
      (Ok (v, self), World (lru_touch key v (cache w)) (Hit key :: events w))
  | None =>
      match (test_x <- test_user self user ;;
             r <- attr (rbm self) ;;
             Ok (test_x, r)) with
      | Raise e => (Raise e, w)
      | Ok (test_x, r) =>
          let log := Run key :: events w in
          match gibbs_vhv r test_x (theano_rng r) with
          | Raise e => (Raise e, World (cache w) log)
          | Ok (o, g) =>
              (Ok (v1_mean o, store_rng self r g),
               World (lru_insert key (v1_mean o) (cache w)) log)
          end
      end
  end.

Definition get_score (self : RBM_object R Rng) (user item : string)
           (w : world R) : result (R * RBM_object R Rng) * world R :=
  match (m <- attr (iid_map self) ;; dict_get m item) with
  | Raise e => (Raise e, w)
  | Ok iid =>
      match _get_user_predictions self user w with
      | (Raise e, w') => (Raise e, w')
      | (Ok (user_pred, self'), w') =>
          (x <- get_entry user_pred 0 iid ;; Ok (x, self'), w')
      end
  end.

End Recommender.

(** ** Notions the statements use *)

Definition event_key (e : cache_event) : lru_key :=
  match e with
  | Hit k => k
  | Run k => k
  end.

(** The keys of a log in order of last use, most recent first. *)
Fixpoint recency (evs : list cache_event) : list lru_key :=
  match evs with
  | [] => []
  | e :: evs' =>
      event_key e
        :: filter (fun k => negb (key_eqb k (event_key e))) (recency evs')
  end.

(** How often [gibbs_vhv] ran for a key. *)
Fixpoint count_runs (key : lru_key) (evs : list cache_event) : nat :=
  match evs with
  | [] => 0
  | Hit _ :: evs' => count_runs key evs'
  | Run k :: evs' =>
      (if key_eqb k key then 1 else 0) + count_runs key evs'
  end.

Section Specification.

Context {R : Type} {NumR : Numeric R} {Rng : Type} {Th : Theano R Rng}.

Definition has_shape (M : matrix R) (n m : nat) : Prop :=
  nrows M = n /\ ncols M = m.

(** The parameters have the shapes [__init__] gives them. *)
Definition wf_rbm (self : RBM R Rng) : Prop :=
  has_shape (W self) (n_visible self) (n_hidden self) /\
  length (hbias self) = n_hidden self /\
  length (vbias self) = n_visible self.

(** The outputs of a Gibbs step on n rows: visible parts are n by
    [n_visible], hidden parts n by [n_hidden]. *)
Definition gibbs_shapes (self : RBM R Rng) (o : gibbs R) (n : nat) : Prop :=
  has_shape (pre_sigmoid_v1 o) n (n_visible self) /\
  has_shape (v1_mean o) n (n_visible self) /\
  has_shape (v1_sample o) n (n_visible self) /\
  has_shape (pre_sigmoid_h1 o) n (n_hidden self) /\
  has_shape (h1_mean o) n (n_hidden self) /\
  has_shape (h1_sample o) n (n_hidden self).

(** A Gibbs chain from a hidden state: each step is one [gibbs_hvh]
    transition from the hidden sample of the step before. *)
Inductive is_chain (self : RBM R Rng)
  : matrix R -> Rng -> list (gibbs R) -> Rng -> Prop :=
| chain_nil h g : is_chain self h g [] g
| chain_cons h g o g1 os g2 :
    gibbs_hvh self h g = Ok (o, g1) ->
    is_chain self (h1_sample o) g1 os g2 ->
    is_chain self h g (o :: os) g2.

(** The epoch numbers of the lines training printed. *)
Definition epochs_of (out : list (output R)) : list nat :=
  flat_map (fun o => match o with
                     | EpochCost e _ => [e]
                     | TrainingTook => []
                     end) out.

(** The training loop in the words of the specification: [epochs] passes
    over the minibatches in index order, each minibatch one invocation of
    the PCD trainer with chain depth k. *)
Definition trainer (lr : Q) (k : nat) (batch : matrix R)
           (st : train_state R Rng) : result (train_state R Rng) :=
  '(_, u) <- get_cost_updates (ts_rbm st) batch lr (Some (ts_persistent st))
                              k (ts_bit_i_idx st) (theano_rng (ts_rbm st)) ;;
  Ok (apply_updates st u).

Definition training_loop (epochs k : nat) (lr : Q) (X : matrix R)
           (batch_size : nat) (st : train_state R Rng)
  : result (train_state R Rng) :=
  foldM (fun st (_ : nat) =>
           foldM (fun st i => trainer lr k (minibatch X batch_size i) st)
                 st (seq 0 (nrows X / batch_size)))
        st (seq 0 epochs).

(** What every call of the compiled training function keeps: the shapes
    of the parameters and of the persistent chain of n rows, and the bit
    index inside the columns. *)
Definition train_inv (n nv nh : nat) (st : train_state R Rng) : Prop :=
  wf_rbm (ts_rbm st) /\
  n_visible (ts_rbm st) = nv /\
  n_hidden (ts_rbm st) = nh /\
  has_shape (ts_persistent st) n nh /\
  (0 < nv -> ts_bit_i_idx st < nv).

(** The state [train_rbm] starts its loops from. *)
Definition initial_train_state (nv nh batch_size : nat) : train_state R Rng :=
  TrainState
    (mkRBM nv nh default_learning_rate default_training_epochs
           (tabulate nv nh (uniform 123%Z nv nh)) (vzeros nh) (vzeros nv)
           (RandomStreams 123%Z))
    (zeros batch_size nh) 0.

(** An object as [fit] leaves it: the maps are there, every item of a
    user has a column, and [self.rbm] has one visible unit per column. *)
Definition consistent (self : RBM_object R Rng) : Prop :=
  exists data iids r,
    user_data self = Some data /\
    iid_map self = Some iids /\
    rbm self = Some r /\
    wf_rbm r /\
    n_visible r = length iids /\
    forall u items i,
      dict_find data u = Some items -> In i items ->
      exists c, dict_find iids i = Some c /\ c < length iids.

(** The states of the cache that calls of [get_score] on fitted objects
    lead to. *)
Inductive reachable : world R -> Prop :=
| reach_empty : reachable (World [] [])
| reach_get_score self user item w :
    reachable w -> consistent self ->
    reachable (snd (get_score self user item w)).

(** The states of the cache that further calls of [get_score] lead to
    from w, by any objects and for any users and items, each call made
    while the cache holds fewer than [maxsize] vectors. *)
Inductive later (w : world R) : world R -> Prop :=
| later_now : later w w
| later_get_score (self : RBM_object R Rng) user item w' :
    later w w' -> length (cache w') < maxsize ->
    later w (snd (get_score self user item w')).

(** The calls [train_rbm(batch_index)] of one epoch, in order: each
    starts from the shared variables the one before left, and the costs
    they return are collected. *)
Inductive batches_run (lr : Q) (k : nat) (X : matrix R) (bs : nat)
  : train_state R Rng -> list nat -> list R -> train_state R Rng -> Prop :=
| batches_nil st : batches_run lr k X bs st [] [] st
| batches_cons st i c st1 l cs st2 :
    train_fn lr k X bs st i = Ok (c, st1) ->
    batches_run lr k X bs st1 l cs st2 ->
    batches_run lr k X bs st (i :: l) (c :: cs) st2.

(** The epochs, in order: each runs the minibatches 0 to nb - 1 from the
    shared variables the epoch before left, and prints the mean of the
    costs its calls returned. *)
Inductive epochs_run (lr : Q) (k : nat) (X : matrix R) (bs nb : nat)
  : train_state R Rng -> list nat -> list (output R) -> train_state R Rng
    -> Prop :=
| epochs_nil st : epochs_run lr k X bs nb st [] [] st
| epochs_cons st e cs st1 es lines st2 :
    batches_run lr k X bs st (seq 0 nb) cs st1 ->
    epochs_run lr k X bs nb st1 es lines st2 ->
    epochs_run lr k X bs nb st (e :: es)
               (EpochCost e (mean cs) :: lines) st2.

End Specification.

(** ** A backend that computes: symbolic scalars

    Every operation is a constructor, as in the graph Theano builds: a
    draw is named by its position in the stream, an initial weight by the
    seed of its generator, the number of [randint] drawn before, and its
    place, a gradient by its cost, parameter and place. *)

Inductive expr : Type :=
| Const (q : Q)
| Add (a b : expr)
| Sub (a b : expr)
| Mul (a b : expr)
| Div (a b : expr)
| Neg (a : expr)
| Exp (a : expr)
| Log (a : expr)
| Sigmoid (a : expr)
| Round (a : expr)
| Sample (draw : nat) (p : expr)
| Uniform (seed : Z) (randints n m i j : nat)
| Grad (cost : expr) (param i j : nat).

#[export] Instance expr_numeric : Numeric expr := {
  rconst := Const;
  radd := Add;
  rsub := Sub;
  rmul := Mul;
  rdiv := Div;
  rneg := Neg;
  rexp := Exp;
  rlog := Log;
  rsigmoid := Sigmoid;
  rround := Round
}.

Definition expr_grad (cost : params expr -> result expr) (p : params expr)
  : params expr :=
  let c := match cost p with Ok c => c | Raise _ => Const 0 end in
  Params (tabulate (nrows (p_W p)) (ncols (p_W p)) (Grad c 0))
         (vtabulate (length (p_hbias p)) (Grad c 1 0))
         (vtabulate (length (p_vbias p)) (Grad c 2 0)).

#[export] Instance expr_theano : Theano expr nat.
Proof.
  refine {| bernoulli := fun g p => (Sample g p, S g);
            T_grad := expr_grad;
            numpy_uniform :=
              fun numpy_rng => Uniform (rs_seed numpy_rng)
                                       (rs_randints numpy_rng);
            randint_streams := fun _ => 0 |}.
  intros cost p. unfold expr_grad, params_shape, tabulate, vtabulate, nrows.
  simpl. rewrite !length_map, !length_seq. reflexivity.
Defined.

(** The object [RBM(n_hidden=n)] with [id] i, before any [fit]. *)
Definition new_object {R : Type} {NumR : Numeric R} {Rng : Type}
           {Th : Theano R Rng} (i n_hidden : nat)
  : result (RBM_object R Rng) :=
  b <- __init__ None n_hidden default_learning_rate default_training_epochs
                None None None None None ;;
  Ok (mkObject i b None None None None None).

Definition empty_world {R : Type} : world R := World [] [].

(** ** Concrete inputs *)

Open Scope string_scope.

(** [RBM(n_hidden=2)] with [id] 0: what [new_object 0 2] returns. *)
Definition example_object : RBM_object expr nat :=
  mkObject 0 (mkRBM 0 2 default_learning_rate default_training_epochs
                    (tabulate 0 2 (Uniform 1234 1 0 2)) (vzeros 2) (vzeros 0) 0)
           None None None None None.

(** [RBM(n_hidden=1, training_epochs=2)]. *)
Definition two_epoch_object : RBM_object expr nat :=
  mkObject 1 (mkRBM 0 1 default_learning_rate 2
                    (tabulate 0 1 (Uniform 1234 1 0 1)) (vzeros 1) (vzeros 0) 0)
           None None None None None.

(** One user with one item; then the same user with a second item that
    comes first. *)
Definition first_data : list interaction := [Interaction "u" "i"].

Definition second_data : list interaction :=
  [Interaction "u" "j"; Interaction "u" "i"].

(** Twenty users "A" to "T" with the one item "i": one full minibatch. *)
Definition twenty_users : list interaction :=
  map (fun n => Interaction (String (Ascii.ascii_of_nat (65 + n)) "") "i")
      (seq 0 20).

(** [example_object] after [fit(first_data)], and what that printed. *)
Definition fitted_example : RBM_object expr nat :=
  Eval vm_compute in
    match fit example_object first_data with
    | Ok (m, _) => m
    | Raise _ => example_object
    end.

Definition fitted_out : list (output expr) :=
  Eval vm_compute in
    match fit example_object first_data with
    | Ok (_, out) => out
    | Raise _ => []
    end.

(** The first score of user "u", for item "i", from an empty cache: the
    score, the object and the cache after the call. *)
Definition first_score : expr :=
  Eval vm_compute in
    match fst (get_score fitted_example "u" "i" empty_world) with
    | Ok (s, _) => s
    | Raise _ => Const 0
    end.

Definition scored_example : RBM_object expr nat :=
  Eval vm_compute in
    match fst (get_score fitted_example "u" "i" empty_world) with
    | Ok (_, m) => m
    | Raise _ => fitted_example
    end.

Definition first_world : world expr :=
  Eval vm_compute in snd (get_score fitted_example "u" "i" empty_world).

(** The cache after a second score of the same user by the same object. *)
Definition second_world : world expr :=
  Eval vm_compute in snd (get_score scored_example "u" "i" first_world).

(** The same object after a second [fit], on [second_data]. *)
Definition refitted_example : RBM_object expr nat :=
  Eval vm_compute in
    match fit scored_example second_data with
    | Ok (m, _) => m
    | Raise _ => scored_example
    end.

Definition refitted_out : list (output expr) :=
  Eval vm_compute in
    match fit scored_example second_data with
    | Ok (_, out) => out
    | Raise _ => []
    end.

(** The calls [get_score(user, item)] of a list, one after the other on
    the same object: the object and the cache after them. *)
Definition score_all {R : Type} {NumR : Numeric R} {Rng : Type}
           {Th : Theano R Rng} (calls : list (string * string))
           (start : RBM_object R Rng * world R)
  : RBM_object R Rng * world R :=
  fold_left (fun st call =>
               match get_score (fst st) (fst call) (snd call) (snd st) with
               | (Ok (_, self'), w') => (self', w')
               | (Raise _, w') => (fst st, w')
               end)
            calls start.

(** A thousand and one users, each with the item "i", and an object
    with their user data and the machine of the fitted example. *)
Definition user_name (n : nat) : string :=
  String (Ascii.ascii_of_nat (n / 256))
         (String (Ascii.ascii_of_nat (n mod 256)) EmptyString).

Definition many_users : list string := map user_name (seq 0 1001).

Definition many_users_object : RBM_object expr nat :=
  mkObject 0 (base fitted_example)
           (Some (map (fun u => (u, ["i"])) many_users))
           (Some (enumerate_map many_users))
           (iid_map fitted_example) (input fitted_example)
           (rbm fitted_example).

(** One score for each of the users, in order; then a second score for
    the second user. *)
Definition full_run : RBM_object expr nat * world expr :=
  score_all (map (fun u => (u, "i")) many_users)
            (many_users_object, empty_world).

Definition late_run : RBM_object expr nat * world expr :=
  score_all [(user_name 1, "i")] full_run.

(** A matrix of three rows and one column. *)
Definition three_rows : matrix expr :=
  Matrix 1 [[Const 1]; [Const 2]; [Const 3]].

(** An RBM of two visible units and one hidden unit, a batch of one row
    and a persistent chain for it. *)
Definition example_rbm : RBM expr nat :=
  mkRBM 2 1 default_learning_rate default_training_epochs
        (tabulate 2 1 (Uniform 123 1 2 1)) (vzeros 1) (vzeros 2) 0.

Definition example_batch : matrix expr := Matrix 2 [[Const 1; Const 0]].

Definition example_chain : matrix expr := zeros 1 1.

Close Scope string_scope.

(** * Facts *)

Set Implicit Arguments.

(** Splits the conjunctions that are written out, not those inside a
    definition. *)
Ltac split_all := repeat match goal with |- _ /\ _ => split end.

(** ** Loops and sequences *)

Lemma bind_ok_inv {A B : Type} (c : result A) (k : A -> result B) (b : B) :
  bind c k = Ok b -> exists a, c = Ok a /\ k a = Ok b.
Proof.
  destruct c as [a | e]; simpl; intros E; [eauto | discriminate].
Qed.

Lemma foldM_ext_in {A B : Type} (f f' : A -> B -> result A) (l : list B) :
  (forall a b, In b l -> f a b = f' a b) ->
  forall a, foldM f a l = foldM f' a l.
Proof.
  induction l as [| b l IH]; intros E a; simpl; [reflexivity |].
  rewrite (E a b) by (left; reflexivity).
  destruct (f' a b) as [a' | e]; simpl; [| reflexivity].
  apply IH. intros a0 b0 Hin. apply E. right. exact Hin.
Qed.

(** A loop whose body keeps an invariant and never raises under it ends,
    and the invariant holds at its end. *)
Lemma foldM_invariant {A B : Type} (P : A -> Prop) (f : A -> B -> result A)
      (l : list B) :
  (forall a b, P a -> In b l -> exists a', f a b = Ok a' /\ P a') ->
  forall a, P a -> exists a', foldM f a l = Ok a' /\ P a'.
Proof.
  induction l as [| b l IH]; intros Hf a Ha; simpl.
  - exists a. split; [reflexivity | exact Ha].
  - destruct (Hf a b Ha (or_introl eq_refl)) as (a1 & E1 & H1).
    rewrite E1. simpl. apply IH; [| exact H1].
    intros a0 b0 H0 Hin. apply Hf; [exact H0 | right; exact Hin].
Qed.

Lemma nth_map_seq {A : Type} (f : nat -> A) (n i : nat) (d : A) :
  i < n -> nth i (map f (seq 0 n)) d = f i.
Proof.
  intros Hi.
  rewrite (nth_indep _ d (f 0)) by (rewrite length_map, length_seq; exact Hi).
  rewrite map_nth, seq_nth by exact Hi. reflexivity.
Qed.

Lemma last_of_in {A : Type} (l : list A) (x : A) :
  last_of l = Ok x -> In x l.
Proof.
  induction l as [| a l IH]; simpl; [discriminate |].
  destruct l as [| b l'].
  - intros E. injection E as ->. left. reflexivity.
  - intros E. right. apply IH. exact E.
Qed.

Lemma last_of_nonempty {A : Type} (l : list A) :
  l <> [] -> exists x, last_of l = Ok x.
Proof.
  induction l as [| a l IH]; intros Hne; [congruence |].
  destruct l as [| b l'].
  - exists a. reflexivity.
  - destruct IH as (x & E); [discriminate |]. exists x. exact E.
Qed.

Lemma last_of_map {A B : Type} (f : A -> B) (l : list A) (x : A) :
  last_of l = Ok x -> last_of (map f l) = Ok (f x).
Proof.
  induction l as [| a l IH]; simpl; [discriminate |].
  destruct l as [| b l'].
  - intros E. injection E as ->. reflexivity.
  - intros E. simpl in *. apply IH. exact E.
Qed.

(** ** Shapes of tensors *)

Section TensorFacts.

Context {R : Type} {NumR : Numeric R}.

Lemma length_vtabulate (n : nat) (f : nat -> R) :
  length (vtabulate n f) = n.
Proof. unfold vtabulate. rewrite length_map, length_seq. reflexivity. Qed.

Lemma tabulate_shape (n m : nat) (f : nat -> nat -> R) :
  has_shape (tabulate n m f) n m.
Proof.
  unfold has_shape, nrows, tabulate. simpl.
  rewrite length_map, length_seq. split; reflexivity.
Qed.

Lemma vget_vtabulate (n : nat) (f : nat -> R) (i : nat) :
  i < n -> vget (vtabulate n f) i = f i.
Proof. intros Hi. unfold vget, vtabulate. apply nth_map_seq. exact Hi. Qed.

Lemma get_tabulate (n m : nat) (f : nat -> nat -> R) (i j : nat) :
  i < n -> j < m -> get (tabulate n m f) i j = f i j.
Proof.
  intros Hi Hj. unfold get, tabulate. simpl.
  rewrite nth_map_seq by exact Hi. apply vget_vtabulate. exact Hj.
Qed.

Lemma zeros_shape (n m : nat) : has_shape (zeros n m : matrix R) n m.
Proof. apply tabulate_shape. Qed.

Lemma mmap_shape (f : R -> R) (M : matrix R) (n m : nat) :
  has_shape M n m -> has_shape (mmap f M) n m.
Proof. intros [<- <-]. apply tabulate_shape. Qed.

Lemma transpose_shape (M : matrix R) (n m : nat) :
  has_shape M n m -> has_shape (transpose M) m n.
Proof. intros [<- <-]. apply tabulate_shape. Qed.

Lemma dot_ok (A B : matrix R) (n k m : nat) :
  has_shape A n k -> has_shape B k m ->
  exists M, dot A B = Ok M /\ has_shape M n m.
Proof.
  intros [<- <-] [EB <-]. unfold dot. rewrite EB, Nat.eqb_refl.
  eexists. split; [reflexivity | apply tabulate_shape].
Qed.

Lemma dot_vec_ok (A : matrix R) (v : list R) (n k : nat) :
  has_shape A n k -> length v = k ->
  exists u, dot_vec A v = Ok u /\ length u = n.
Proof.
  intros [<- <-] Ev. unfold dot_vec. rewrite Ev, Nat.eqb_refl.
  eexists. split; [reflexivity | apply length_vtabulate].
Qed.

Lemma add_row_ok (M : matrix R) (v : list R) (n m : nat) :
  has_shape M n m -> length v = m ->
  exists M', add_row M v = Ok M' /\ has_shape M' n m.
Proof.
  intros [<- <-] Ev. unfold add_row. rewrite Ev, Nat.eqb_refl.
  eexists. split; [reflexivity | apply tabulate_shape].
Qed.

Lemma mmap2_ok (f : R -> R -> R) (A B : matrix R) (n m : nat) :
  has_shape A n m -> has_shape B n m ->
  exists M, mmap2 f A B = Ok M /\ has_shape M n m.
Proof.
  intros [<- <-] [EB1 EB2]. unfold mmap2. rewrite EB1, EB2, !Nat.eqb_refl.
  eexists. split; [reflexivity | apply tabulate_shape].
Qed.

Lemma vmap2_ok (f : R -> R -> R) (u v : list R) (n : nat) :
  length u = n -> length v = n ->
  exists w, vmap2 f u v = Ok w /\ length w = n.
Proof.
  intros <- Ev. unfold vmap2. rewrite Ev, Nat.eqb_refl.
  eexists. split; [reflexivity | apply length_vtabulate].
Qed.

Lemma sum_axis1_length (M : matrix R) : length (sum_axis1 M) = nrows M.
Proof. apply length_vtabulate. Qed.

Lemma set_entry_ok (M : matrix R) (i j : nat) (x : R) (n m : nat) :
  has_shape M n m -> i < n -> j < m ->
  exists M', set_entry M i j x = Ok M' /\ has_shape M' n m /\
             forall a b, a < n -> b < m ->
               get M' a b = if (a =? i) && (b =? j) then x else get M a b.
Proof.
  intros [<- <-] Hi Hj. unfold set_entry.
  rewrite (proj2 (Nat.ltb_lt _ _) Hi), (proj2 (Nat.ltb_lt _ _) Hj). simpl.
  eexists. split; [reflexivity |]. split; [apply tabulate_shape |].
  intros a b Ha Hb. apply get_tabulate; assumption.
Qed.

Lemma column_ok (M : matrix R) (j : nat) (n m : nat) :
  has_shape M n m -> j < m ->
  column M j = Ok (vtabulate n (fun a => get M a j)).
Proof.
  intros [<- <-] Hj. unfold column.
  rewrite (proj2 (Nat.ltb_lt _ _) Hj). reflexivity.
Qed.

Lemma set_column_ok (M : matrix R) (j : nat) (v : list R) (n m : nat) :
  has_shape M n m -> j < m -> length v = n ->
  exists M', set_column M j v = Ok M' /\ has_shape M' n m /\
             forall a b, a < n -> b < m ->
               get M' a b = if b =? j then vget v a else get M a b.
Proof.
  intros [<- <-] Hj Ev. unfold set_column.
  rewrite (proj2 (Nat.ltb_lt _ _) Hj), Ev, Nat.eqb_refl.
  eexists. split; [reflexivity |]. split; [apply tabulate_shape |].
  intros a b Ha Hb. apply get_tabulate; assumption.
Qed.

End TensorFacts.

(** ** The Gibbs steps never fail on operands of the right shapes *)

Section CoreFacts.

Context {R : Type} {NumR : Numeric R} {Rng : Type} {Th : Theano R Rng}.

Ltac step L :=
  let x := fresh "x" in
  let E := fresh "E" in
  let S := fresh "S" in
  destruct L as (x & E & S); rewrite E; cbn [bind].

Lemma binomial_rows_length (g : Rng) (rs : list (list R)) :
  length (fst (binomial_rows g rs)) = length rs.
Proof.
  revert g. induction rs as [| r rs IH]; intros g; simpl; [reflexivity |].
  destruct (binomial_row g r) as [x g1].
  specialize (IH g1). destruct (binomial_rows g1 rs) as [xs g2].
  simpl in *. rewrite IH. reflexivity.
Qed.

Lemma binomial_shape (g : Rng) (p : matrix R) (n m : nat) :
  has_shape p n m -> has_shape (fst (binomial g p)) n m.
Proof.
  intros [<- <-]. unfold binomial, has_shape, nrows.
  pose proof (binomial_rows_length g (rows p)) as E.
  destruct (binomial_rows g (rows p)) as [rs g']. simpl in *.
  split; [exact E | reflexivity].
Qed.

Lemma with_params_self (self : RBM R Rng) :
  with_params self (rbm_params self) = self.
Proof. destruct self. reflexivity. Qed.

Lemma propup_ok (self : RBM R Rng) (vis : matrix R) (n : nat) :
  wf_rbm self -> has_shape vis n (n_visible self) ->
  exists pre, propup self vis = Ok (pre, mmap rsigmoid pre) /\
              has_shape pre n (n_hidden self).
Proof.
  intros (HW & Hh & Hv) Hvis. unfold propup.
  step (dot_ok Hvis HW). step (add_row_ok _ S Hh).
  eexists. split; [reflexivity | exact S0].
Qed.

Lemma propdown_ok (self : RBM R Rng) (hid : matrix R) (n : nat) :
  wf_rbm self -> has_shape hid n (n_hidden self) ->
  exists pre, propdown self hid = Ok (pre, mmap rsigmoid pre) /\
              has_shape pre n (n_visible self).
Proof.
  intros (HW & Hh & Hv) Hhid. unfold propdown.
  step (dot_ok Hhid (transpose_shape HW)). step (add_row_ok _ S Hv).
  eexists. split; [reflexivity | exact S0].
Qed.

Lemma sample_h_given_v_ok (self : RBM R Rng) (v0 : matrix R) (g : Rng)
      (n : nat) :
  wf_rbm self -> has_shape v0 n (n_visible self) ->
  exists pre h g',
    sample_h_given_v self v0 g = Ok (pre, mmap rsigmoid pre, h, g') /\
    propup self v0 = Ok (pre, mmap rsigmoid pre) /\
    has_shape pre n (n_hidden self) /\ has_shape h n (n_hidden self).
Proof.
  intros Hwf Hv. unfold sample_h_given_v.
  destruct (propup_ok Hwf Hv) as (pre & E & S). rewrite E. cbn [bind].
  pose proof (binomial_shape g (mmap_shape rsigmoid S)) as Hb.
  destruct (binomial g (mmap rsigmoid pre)) as [h g'].
  exists pre, h, g'. repeat split; try reflexivity; try apply S; apply Hb.
Qed.

Lemma sample_v_given_h_ok (self : RBM R Rng) (h0 : matrix R) (g : Rng)
      (n : nat) :
  wf_rbm self -> has_shape h0 n (n_hidden self) ->
  exists pre v g',
    sample_v_given_h self h0 g = Ok (pre, mmap rsigmoid pre, v, g') /\
    propdown self h0 = Ok (pre, mmap rsigmoid pre) /\
    has_shape pre n (n_visible self) /\ has_shape v n (n_visible self).
Proof.
  intros Hwf Hh. unfold sample_v_given_h.
  destruct (propdown_ok Hwf Hh) as (pre & E & S). rewrite E. cbn [bind].
  pose proof (binomial_shape g (mmap_shape rsigmoid S)) as Hb.
  destruct (binomial g (mmap rsigmoid pre)) as [v g'].
  exists pre, v, g'. repeat split; try reflexivity; try apply S; apply Hb.
Qed.

Lemma gibbs_hvh_ok (self : RBM R Rng) (h0 : matrix R) (g : Rng) (n : nat) :
  wf_rbm self -> has_shape h0 n (n_hidden self) ->
  exists o g', gibbs_hvh self h0 g = Ok (o, g') /\ gibbs_shapes self o n.
Proof.
  intros Hwf Hh. unfold gibbs_hvh.
  destruct (sample_v_given_h_ok g Hwf Hh) as (pv & v & g1 & E1 & _ & Spv & Sv).
  rewrite E1. cbn [bind].
  destruct (sample_h_given_v_ok g1 Hwf Sv) as (ph & h & g2 & E2 & _ & Sph & Sh).
  rewrite E2. cbn [bind].
  eexists. eexists. split; [reflexivity |].
  unfold gibbs_shapes. simpl.
  repeat match goal with |- _ /\ _ => split end;
    try assumption; apply mmap_shape; assumption.
Qed.

Lemma gibbs_vhv_ok (self : RBM R Rng) (v0 : matrix R) (g : Rng) (n : nat) :
  wf_rbm self -> has_shape v0 n (n_visible self) ->
  exists o g', gibbs_vhv self v0 g = Ok (o, g') /\ gibbs_shapes self o n.
Proof.
  intros Hwf Hv. unfold gibbs_vhv.
  destruct (sample_h_given_v_ok g Hwf Hv) as (ph & h & g1 & E1 & _ & Sph & Sh).
  rewrite E1. cbn [bind].
  destruct (sample_v_given_h_ok g1 Hwf Sh) as (pv & v & g2 & E2 & _ & Spv & Sv).
  rewrite E2. cbn [bind].
  eexists. eexists. split; [reflexivity |].
  unfold gibbs_shapes. simpl.
  repeat match goal with |- _ /\ _ => split end;
    try assumption; apply mmap_shape; assumption.
Qed.

(** The steps of a scan are a chain, and a chain is what they compute. *)
Lemma scan_steps_is_chain (self : RBM R Rng) (k : nat) :
  forall h g chain g',
    scan_steps (gibbs_hvh self) h k g = Ok (chain, g') <->
    is_chain self h g chain g' /\ length chain = k.
Proof.
  induction k as [| k IH]; intros h g chain g'; simpl.
  - split.
    + intros E. injection E as <- <-. split; [constructor | reflexivity].
    + intros [Hc Hl]. destruct chain; [| discriminate].
      inversion Hc. reflexivity.
  - split.
    + intros E. apply bind_ok_inv in E. destruct E as ([o g1] & E1 & E).
      apply bind_ok_inv in E. destruct E as ([os g2] & E2 & E).
      injection E as <- <-. apply IH in E2. destruct E2 as [Hc Hl].
      split; [econstructor; eassumption | simpl; rewrite Hl; reflexivity].
    + intros [Hc Hl]. inversion Hc as [| h1 g0 o g1 os g2 E1 Hc']; subst.
      * discriminate.
      * simpl in Hl. injection Hl as Hl.
        rewrite E1. cbn [bind].
        rewrite (proj2 (IH _ _ _ _) (conj Hc' Hl)). reflexivity.
Qed.

Lemma scan_steps_ok (self : RBM R Rng) (k n : nat) :
  wf_rbm self ->
  forall h g, has_shape h n (n_hidden self) ->
    exists chain g', scan_steps (gibbs_hvh self) h k g = Ok (chain, g') /\
                     length chain = k /\
                     Forall (fun o => gibbs_shapes self o n) chain.
Proof.
  intros Hwf. induction k as [| k IH]; intros h g Hh; simpl.
  - exists [], g. repeat split. constructor.
  - destruct (gibbs_hvh_ok g Hwf Hh) as (o & g1 & E1 & So). rewrite E1.
    cbn [bind].
    destruct (IH (h1_sample o) g1) as (os & g2 & E2 & Hl & Hall).
    { apply So. }
    rewrite E2. cbn [bind]. exists (o :: os), g2.
    repeat split; [simpl; rewrite Hl; reflexivity | constructor; assumption].
Qed.

(** A scan of at least one step is its steps. *)
Lemma scan_pos (fn : matrix R -> Rng -> result (gibbs R * Rng))
      (h : matrix R) (k : nat) (g : Rng) :
  0 < k -> scan fn h k g = scan_steps fn h k g.
Proof.
  intros Hk. unfold scan.
  destruct (Nat.eqb_spec k 0) as [Hz | _]; [lia | reflexivity].
Qed.

Lemma scan_is_chain (self : RBM R Rng) (k : nat) :
  0 < k ->
  forall h g chain g',
    scan (gibbs_hvh self) h k g = Ok (chain, g') <->
    is_chain self h g chain g' /\ length chain = k.
Proof.
  intros Hk h g chain g'. rewrite scan_pos by exact Hk.
  apply scan_steps_is_chain.
Qed.

Lemma scan_ok (self : RBM R Rng) (k n : nat) :
  0 < k -> wf_rbm self ->
  forall h g, has_shape h n (n_hidden self) ->
    exists chain g', scan (gibbs_hvh self) h k g = Ok (chain, g') /\
                     length chain = k /\
                     Forall (fun o => gibbs_shapes self o n) chain.
Proof.
  intros Hk Hwf h g Hh. rewrite scan_pos by exact Hk.
  apply scan_steps_ok; assumption.
Qed.

Lemma free_energy_ok (self : RBM R Rng) (v : matrix R) (n : nat) :
  wf_rbm self -> has_shape v n (n_visible self) ->
  exists fe, free_energy self v = Ok fe /\ length fe = n.
Proof.
  intros (HW & Hh & Hv) Hvis. unfold free_energy.
  step (dot_ok Hvis HW). step (add_row_ok _ S Hh). step (dot_vec_ok _ Hvis Hv).
  apply vmap2_ok; [| exact S1].
  rewrite length_map, sum_axis1_length.
  apply (mmap_shape (fun x => rlog (radd rone (rexp x))) S0).
Qed.

End CoreFacts.

(** ** One CD or PCD update *)

Section UpdateFacts.

Context {R : Type} {NumR : Numeric R} {Rng : Type} {Th : Theano R Rng}.

Ltac step L :=
  let x := fresh "x" in
  let E := fresh "E" in
  let S := fresh "S" in
  destruct L as (x & E & S); rewrite E; cbn [bind].

Lemma vget_map (f : R -> R) (l : list R) (a : nat) :
  a < length l -> vget (map f l) a = f (vget l a).
Proof.
  intros Ha. unfold vget.
  rewrite (nth_indep _ rzero (f rzero)) by (rewrite length_map; exact Ha).
  apply map_nth.
Qed.

Lemma int_mod_ok (a n : nat) : 0 < n -> int_mod a n = Ok (a mod n).
Proof.
  intros Hn. unfold int_mod. destruct (Nat.eqb_spec n 0); [lia | reflexivity].
Qed.

Lemma get_pseudo_likelihood_cost_ok (self : RBM R Rng) (input : matrix R)
      (bit n : nat) :
  wf_rbm self -> has_shape input n (n_visible self) ->
  bit < n_visible self ->
  exists fe_xi xi_flip fe_xi_flip d,
    free_energy self (mmap rround input) = Ok fe_xi /\
    has_shape xi_flip n (n_visible self) /\
    (forall a b, a < n -> b < n_visible self ->
       get xi_flip a b =
       if b =? bit then rsub rone (get (mmap rround input) a bit)
       else get (mmap rround input) a b) /\
    free_energy self xi_flip = Ok fe_xi_flip /\
    vmap2 rsub fe_xi_flip fe_xi = Ok d /\
    get_pseudo_likelihood_cost self input bit =
    Ok (mean (map (fun x => rmul (rnat (n_visible self))
                                   (rlog (rsigmoid x))) d),
        (bit + 1) mod n_visible self).
Proof.
  intros Hwf Hin Hbit. unfold get_pseudo_likelihood_cost.
  pose proof (mmap_shape rround Hin) as Hxi.
  destruct (free_energy_ok Hwf Hxi) as (fe_xi & E1 & L1). rewrite E1.
  cbn [bind].
  rewrite (column_ok Hxi Hbit). cbn [bind].
  destruct (set_column_ok
              (map (fun x => rsub rone x)
                   (vtabulate n (fun a => get (mmap rround input) a bit)))
              Hxi Hbit) as (xi_flip & E2 & S2 & G2).
  { rewrite length_map. apply length_vtabulate. }
  rewrite E2. cbn [bind].
  destruct (free_energy_ok Hwf S2) as (fe_flip & E3 & L3). rewrite E3.
  cbn [bind].
  destruct (vmap2_ok rsub fe_flip fe_xi L3 L1) as (d & E4 & L4). rewrite E4.
  cbn [bind].
  rewrite int_mod_ok by lia. cbn [bind].
  exists fe_xi, xi_flip, fe_flip, d.
  repeat match goal with |- _ /\ _ => split end; try reflexivity;
    try assumption.
  intros a b Ha Hb. rewrite (G2 a b Ha Hb).
  destruct (b =? bit); [| reflexivity].
  rewrite vget_map by (rewrite length_vtabulate; exact Ha).
  rewrite vget_vtabulate by exact Ha. reflexivity.
Qed.

Lemma get_reconstruction_cost_ok (input pre : matrix R) (n m : nat) :
  has_shape input n m -> has_shape pre n m ->
  exists c, get_reconstruction_cost input pre = Ok c.
Proof.
  intros Hin Hpre. unfold get_reconstruction_cost.
  step (mmap2_ok rmul Hin (mmap_shape (fun x => rlog (rsigmoid x)) Hpre)).
  step (mmap2_ok rmul (mmap_shape (fun x => rsub rone x) Hin)
                 (mmap_shape (fun x => rlog (rsub rone (rsigmoid x))) Hpre)).
  step (mmap2_ok radd S S0).
  eexists. reflexivity.
Qed.

Lemma cd_cost_ok (self : RBM R Rng) (input chain_end : matrix R) (n : nat) :
  wf_rbm self -> has_shape input n (n_visible self) ->
  has_shape chain_end n (n_visible self) ->
  exists c, cd_cost self input chain_end (rbm_params self) = Ok c.
Proof.
  intros Hwf Hin Hend. unfold cd_cost. rewrite with_params_self.
  destruct (free_energy_ok Hwf Hin) as (a & Ea & _). rewrite Ea. cbn [bind].
  destruct (free_energy_ok Hwf Hend) as (b & Eb & _). rewrite Eb. cbn [bind].
  eexists. reflexivity.
Qed.

(** The gradient step keeps the shapes of the parameters. *)
Lemma gradient_step_ok (self : RBM R Rng) (cost : params R -> result R)
      (step : R -> R) :
  wf_rbm self ->
  exists new_W new_hbias new_vbias,
    mmap2 rsub (W self) (mmap step (p_W (T_grad cost (rbm_params self))))
    = Ok new_W /\
    vmap2 rsub (hbias self) (map step (p_hbias (T_grad cost (rbm_params self))))
    = Ok new_hbias /\
    vmap2 rsub (vbias self) (map step (p_vbias (T_grad cost (rbm_params self))))
    = Ok new_vbias /\
    has_shape new_W (n_visible self) (n_hidden self) /\
    length new_hbias = n_hidden self /\
    length new_vbias = n_visible self.
Proof.
  intros (HW & Hh & Hv).
  pose proof (T_grad_shape cost (rbm_params self)) as Hg.
  unfold params_shape in Hg. simpl in Hg.
  injection Hg as Hg1 Hg2 Hg3 Hg4.
  destruct HW as [HW1 HW2].
  destruct (@mmap2_ok _ _ rsub (W self)
              (mmap step (p_W (T_grad cost (rbm_params self))))
              (n_visible self) (n_hidden self)) as (nW & EW & SW).
  { split; assumption. }
  { apply mmap_shape. split; congruence. }
  destruct (vmap2_ok rsub (hbias self)
              (map step (p_hbias (T_grad cost (rbm_params self)))) Hh)
    as (nh & Eh & Sh).
  { rewrite length_map. congruence. }
  destruct (vmap2_ok rsub (vbias self)
              (map step (p_vbias (T_grad cost (rbm_params self)))) Hv)
    as (nv & Ev & Sv).
  { rewrite length_map. congruence. }
  exists nW, nh, nv. tauto.
Qed.

Lemma Forall_last_of {A : Type} (P : A -> Prop) (l : list A) (x : A) :
  Forall P l -> last_of l = Ok x -> P x.
Proof.
  intros Hall E. apply last_of_in in E.
  rewrite Forall_forall in Hall. apply Hall. exact E.
Qed.

(** The whole update under PCD. *)
Lemma get_cost_updates_pcd (self : RBM R Rng) (input : matrix R) (lr : Q)
      (p : matrix R) (k bit : nat) (g : Rng) (n : nat) :
  wf_rbm self -> has_shape input n (n_visible self) ->
  has_shape p n (n_hidden self) -> 0 < k -> bit < n_visible self ->
  exists cost u chain last g2,
    get_cost_updates self input lr (Some p) k bit g = Ok (cost, u) /\
    is_chain self p g chain g2 /\ length chain = k /\
    last_of chain = Ok last /\
    upd_persistent u = Some (h1_sample last) /\
    has_shape (h1_sample last) n (n_hidden self) /\
    get_pseudo_likelihood_cost self input bit
    = Ok (cost, (bit + 1) mod n_visible self) /\
    upd_bit_i_idx u = Some ((bit + 1) mod n_visible self) /\
    upd_rng u = g2 /\
    has_shape (upd_W u) (n_visible self) (n_hidden self) /\
    length (upd_hbias u) = n_hidden self /\
    length (upd_vbias u) = n_visible self.
Proof.
  intros Hwf Hin Hp Hk Hbit. unfold get_cost_updates. cbn [bind].
  destruct (scan_ok Hk Hwf g Hp) as (chain & g2 & E2 & Hl & Hall).
  rewrite E2. cbn [bind].
  destruct (@last_of_nonempty _ chain) as (last & El).
  { destruct chain; [simpl in Hl; lia | discriminate]. }
  pose proof (Forall_last_of Hall El) as Sl. cbv beta in Sl.
  rewrite (last_of_map v1_sample _ El). cbn [bind].
  destruct (cd_cost_ok Hwf Hin (proj1 (proj2 (proj2 Sl)))) as (c & Ec).
  rewrite Ec. cbn [bind].
  destruct (gradient_step_ok (cd_cost self input (v1_sample last))
              (fun x => rmul x (rconst lr)) Hwf)
    as (nW & nh & nv & EW & Eh & Ev & SW & Sh & Sv).
  rewrite EW. cbn [bind]. rewrite Eh. cbn [bind]. rewrite Ev. cbn [bind].
  cbn [truthy]. rewrite (last_of_map h1_sample _ El). cbn [bind].
  destruct (get_pseudo_likelihood_cost_ok Hwf Hin Hbit)
    as (fe_xi & xi_flip & fe_flip & d & _ & _ & _ & _ & _ & Epl).
  rewrite Epl. cbn [bind].
  eexists. eexists. exists chain, last, g2.
  split; [reflexivity |]. simpl.
  apply (scan_is_chain self Hk) in E2. destruct E2 as [Hc _].
  repeat match goal with |- _ /\ _ => split end;
    try reflexivity; try assumption.
  apply Sl.
Qed.

(** The whole update under plain CD. *)
Lemma get_cost_updates_cd (self : RBM R Rng) (input : matrix R) (lr : Q)
      (k bit : nat) (g : Rng) (n : nat) :
  wf_rbm self -> has_shape input n (n_visible self) -> 0 < k ->
  exists cost u chain last pre_ph ph_sample g1 g2,
    get_cost_updates self input lr None k bit g = Ok (cost, u) /\
    sample_h_given_v self input g
    = Ok (pre_ph, mmap rsigmoid pre_ph, ph_sample, g1) /\
    is_chain self ph_sample g1 chain g2 /\ length chain = k /\
    last_of chain = Ok last /\
    get_reconstruction_cost input (pre_sigmoid_v1 last) = Ok cost /\
    upd_persistent u = None /\ upd_bit_i_idx u = None /\ upd_rng u = g2.
Proof.
  intros Hwf Hin Hk. unfold get_cost_updates.
  destruct (sample_h_given_v_ok g Hwf Hin) as (pre & ph & g1 & E1 & _ & _ & Sph).
  rewrite E1. cbn [bind].
  destruct (scan_ok Hk Hwf g1 Sph) as (chain & g2 & E2 & Hl & Hall).
  rewrite E2. cbn [bind].
  destruct (@last_of_nonempty _ chain) as (last & El).
  { destruct chain; [simpl in Hl; lia | discriminate]. }
  pose proof (Forall_last_of Hall El) as Sl. cbv beta in Sl.
  rewrite (last_of_map v1_sample _ El). cbn [bind].
  destruct (cd_cost_ok Hwf Hin (proj1 (proj2 (proj2 Sl)))) as (c & Ec).
  rewrite Ec. cbn [bind].
  destruct (gradient_step_ok (cd_cost self input (v1_sample last))
              (fun x => rmul x (rconst lr)) Hwf)
    as (nW & nh & nv & EW & Eh & Ev & SW & Sh & Sv).
  rewrite EW. cbn [bind]. rewrite Eh. cbn [bind]. rewrite Ev. cbn [bind].
  cbn [truthy]. rewrite (last_of_map pre_sigmoid_v1 _ El). cbn [bind].
  destruct (get_reconstruction_cost_ok Hin (proj1 Sl)) as (rc & Erc).
  rewrite Erc. cbn [bind].
  eexists. eexists. exists chain, last, pre, ph, g1, g2.
  split; [reflexivity |]. simpl.
  apply (scan_is_chain self Hk) in E2. destruct E2 as [Hc _].
  repeat match goal with |- _ /\ _ => split end;
    try reflexivity; assumption.
Qed.

(** The steps of [get_cost_updates] in either mode. *)
Lemma get_cost_updates_parts (self : RBM R Rng) (input : matrix R) (lr : Q)
      (persistent : option (matrix R)) (k bit : nat) (g : Rng) (n : nat) :
  wf_rbm self ->
  has_shape input n (n_visible self) ->
  (forall p, persistent = Some p ->
             has_shape p n (n_hidden self) /\ bit < n_visible self) ->
  0 < k ->
  exists cost u pre_ph ph_sample g1 chain g2 last,
    get_cost_updates self input lr persistent k bit g = Ok (cost, u) /\
    sample_h_given_v self input g
    = Ok (pre_ph, mmap rsigmoid pre_ph, ph_sample, g1) /\
    scan (gibbs_hvh self)
         (match persistent with
          | None => ph_sample
          | Some p => p
          end) k
         (match persistent with
          | None => g1
          | Some _ => g
          end) = Ok (chain, g2) /\
    last_of chain = Ok last /\
    gibbs_shapes self last n /\
    mmap2 rsub (W self)
          (mmap (fun x => rmul x (rconst lr))
                (p_W (T_grad (cd_cost self input (v1_sample last))
                             (rbm_params self))))
    = Ok (upd_W u) /\
    vmap2 rsub (hbias self)
          (map (fun x => rmul x (rconst lr))
               (p_hbias (T_grad (cd_cost self input (v1_sample last))
                                (rbm_params self))))
    = Ok (upd_hbias u) /\
    vmap2 rsub (vbias self)
          (map (fun x => rmul x (rconst lr))
               (p_vbias (T_grad (cd_cost self input (v1_sample last))
                                (rbm_params self))))
    = Ok (upd_vbias u) /\
    upd_rng u = g2 /\
    upd_persistent u
    = match persistent with
      | None => None
      | Some _ => Some (h1_sample last)
      end /\
    (persistent = None ->
     get_reconstruction_cost input (pre_sigmoid_v1 last) = Ok cost /\
     upd_bit_i_idx u = None).
Proof.
  intros Hwf Hin Hpers Hk. unfold get_cost_updates.
  destruct (sample_h_given_v_ok g Hwf Hin) as (pre & ph & g1 & E1 & _ & _ & Sph).
  assert (Hstart : has_shape (match persistent with
                              | None => ph
                              | Some p => p
                              end) n (n_hidden self)).
  { destruct persistent as [p |]; [apply (Hpers p eq_refl) | exact Sph]. }
  destruct (scan_ok Hk Hwf
                    (match persistent with
                     | None => g1
                     | Some _ => g
                     end) Hstart) as (chain & g2 & E2 & Hl & Hall).
  destruct (@last_of_nonempty _ chain) as (last & El).
  { destruct chain; [simpl in Hl; lia | discriminate]. }
  pose proof (Forall_last_of Hall El) as Sl. cbv beta in Sl.
  destruct (cd_cost_ok Hwf Hin (proj1 (proj2 (proj2 Sl)))) as (c & Ec).
  destruct (gradient_step_ok (cd_cost self input (v1_sample last))
              (fun x => rmul x (rconst lr)) Hwf)
    as (nW & nh & nv & EW & Eh & Ev & SW & Sh & Sv).
  destruct persistent as [p |]; cbn [truthy bind].
  - rewrite E2. cbn [bind].
    rewrite (last_of_map v1_sample _ El). cbn [bind].
    rewrite Ec. cbn [bind].
    rewrite EW. cbn [bind]. rewrite Eh. cbn [bind]. rewrite Ev. cbn [bind].
    rewrite (last_of_map h1_sample _ El). cbn [bind].
    destruct (get_pseudo_likelihood_cost_ok Hwf Hin (proj2 (Hpers p eq_refl)))
      as (fe_xi & xi_flip & fe_flip & d & _ & _ & _ & _ & _ & Epl).
    rewrite Epl. cbn [bind].
    eexists _, _, pre, ph, g1, chain, g2, last.
    split; [reflexivity |].
    cbn [upd_W upd_hbias upd_vbias upd_rng upd_persistent].
    split_all; try reflexivity; try assumption. discriminate.
  - rewrite E1. cbn [bind]. rewrite E2. cbn [bind].
    rewrite (last_of_map v1_sample _ El). cbn [bind].
    rewrite Ec. cbn [bind].
    rewrite EW. cbn [bind]. rewrite Eh. cbn [bind]. rewrite Ev. cbn [bind].
    rewrite (last_of_map pre_sigmoid_v1 _ El). cbn [bind].
    destruct (get_reconstruction_cost_ok Hin (proj1 Sl)) as (rc & Erc).
    rewrite Erc. cbn [bind].
    eexists _, _, pre, ph, g1, chain, g2, last.
    split; [reflexivity |].
    cbn [upd_W upd_hbias upd_vbias upd_rng upd_persistent upd_bit_i_idx].
    split_all; try reflexivity; try assumption.
    intros _. split; reflexivity || assumption.
Qed.

End UpdateFacts.

(** ** The training loop *)

Section TrainFacts.

Context {R : Type} {NumR : Numeric R} {Rng : Type} {Th : Theano R Rng}.

Lemma minibatch_rows (X : matrix R) (bs i : nat) :
  rows (minibatch X bs i) = firstn bs (skipn (i * bs) (rows X)).
Proof.
  unfold minibatch, slice_rows. simpl.
  replace ((i + 1) * bs - i * bs) with bs by lia. reflexivity.
Qed.

Lemma minibatch_shape (X : matrix R) (bs i : nat) :
  (i + 1) * bs <= nrows X -> has_shape (minibatch X bs i) bs (ncols X).
Proof.
  intros Hi. split; [| reflexivity].
  unfold nrows in *. rewrite minibatch_rows, length_firstn, length_skipn. lia.
Qed.

Lemma full_batches (n bs i : nat) :
  0 < bs -> i < n / bs -> (i + 1) * bs <= n.
Proof.
  intros Hbs Hi.
  pose proof (Nat.Div0.mul_div_le n bs) as Hle.
  assert ((i + 1) * bs <= bs * (n / bs)) by nia. lia.
Qed.

Lemma train_fn_ok (lr : Q) (k : nat) (X : matrix R) (bs i : nat)
      (st : train_state R Rng) (nh : nat) :
  train_inv bs (ncols X) nh st -> 0 < ncols X -> 0 < k ->
  (i + 1) * bs <= nrows X ->
  exists c st',
    train_fn lr k X bs st i = Ok (c, st') /\
    trainer lr k (minibatch X bs i) st = Ok st' /\
    train_inv bs (ncols X) nh st' /\
    ts_bit_i_idx st' = (ts_bit_i_idx st + 1) mod ncols X.
Proof.
  intros (Hwf & Hnv & Hnh & Hp & Hbit) Hpos Hk Hi.
  pose proof (minibatch_shape X bs i Hi) as Hin.
  rewrite <- Hnv in Hin. rewrite <- Hnh in Hp.
  assert (Hb : ts_bit_i_idx st < n_visible (ts_rbm st)) by (rewrite Hnv; auto).
  destruct (get_cost_updates_pcd lr (theano_rng (ts_rbm st)) Hwf Hin Hp Hk Hb)
    as (c & u & chain & last & g2 & E & _ & _ & _ & Ep & Sp & _ & Eb
        & _ & SW & Sh & Sv).
  unfold train_fn, trainer. rewrite E. cbn [bind].
  exists c, (apply_updates st u).
  split; [reflexivity |]. split; [reflexivity |].
  unfold apply_updates, train_inv, wf_rbm. simpl. rewrite Ep, Eb.
  rewrite Hnv in *. rewrite Hnh in *.
  split_all; try reflexivity;
    try assumption.
  intros _. apply Nat.mod_upper_bound. lia.
Qed.

(** The loop over the minibatches of one epoch. *)
Lemma train_batches_ok (lr : Q) (k : nat) (X : matrix R) (bs nh : nat)
      (l : list nat) :
  (l = [] \/ (0 < ncols X /\ 0 < k)) ->
  (forall i, In i l -> (i + 1) * bs <= nrows X) ->
  forall st costs,
    train_inv bs (ncols X) nh st ->
    exists st' costs',
      foldM (fun (a : train_state R Rng * list R) batch_index =>
               let (st, mean_cost) := a in
               '(c, st') <- train_fn lr k X bs st batch_index ;;
               Ok (st', mean_cost ++ [c]))
            (st, costs) l = Ok (st', costs') /\
      foldM (fun st i => trainer lr k (minibatch X bs i) st) st l = Ok st' /\
      train_inv bs (ncols X) nh st' /\
      ts_bit_i_idx st' = (ts_bit_i_idx st + length l) mod ncols X.
Proof.
  induction l as [| i l IH]; intros Hk Hl st costs Hinv.
  - exists st, costs. simpl. split_all; try assumption; try reflexivity.
    rewrite Nat.add_0_r. destruct Hinv as (_ & _ & _ & _ & Hb).
    destruct (ncols X) as [| m]; [reflexivity |].
    symmetry. apply Nat.mod_small. apply Hb. lia.
  - destruct Hk as [Hk | [Hpos Hk]]; [discriminate |].
    destruct (@train_fn_ok lr k X bs i st nh Hinv Hpos Hk
                          (Hl i (or_introl eq_refl)))
      as (c & st1 & E1 & T1 & Hinv1 & Hb1).
    destruct (IH (or_intror (conj Hpos Hk))
                 (fun j Hj => Hl j (or_intror Hj)) st1 (costs ++ [c]) Hinv1)
      as (st' & costs' & E2 & T2 & Hinv2 & Hb2).
    exists st', costs'. simpl. rewrite E1. cbn [bind]. rewrite T1. cbn [bind].
    split_all; try assumption.
    rewrite Hb2, Hb1, Nat.Div0.add_mod_idemp_l.
    f_equal. lia.
Qed.

(** The loop over the epochs. *)
Lemma train_epochs_ok (lr : Q) (k : nat) (X : matrix R) (bs nh : nat) :
  0 < bs ->
  forall e a st out,
    (e = 0 \/ nrows X / bs = 0 \/ (0 < ncols X /\ 0 < k)) ->
    train_inv bs (ncols X) nh st ->
    exists st' out',
      foldM (train_epoch lr k X bs (nrows X / bs)) (st, out) (seq a e)
      = Ok (st', out') /\
      foldM (fun st (_ : nat) =>
               foldM (fun st i => trainer lr k (minibatch X bs i) st)
                     st (seq 0 (nrows X / bs)))
            st (seq a e) = Ok st' /\
      train_inv bs (ncols X) nh st' /\
      ts_bit_i_idx st' = (ts_bit_i_idx st + e * (nrows X / bs)) mod ncols X /\
      epochs_of out' = epochs_of out ++ seq a e.
Proof.
  intros Hbs. induction e as [| e IH]; intros a st out Hk Hinv.
  - exists st, out. simpl. rewrite app_nil_r. split_all; try assumption; try reflexivity.
    rewrite Nat.add_0_r. destruct Hinv as (_ & _ & _ & _ & Hb).
    destruct (ncols X) as [| m]; [reflexivity |].
    symmetry. apply Nat.mod_small. apply Hb. lia.
  - assert (Hk' : seq 0 (nrows X / bs) = [] \/ (0 < ncols X /\ 0 < k)).
    { destruct Hk as [Hk | [Hk | Hk]]; [discriminate | | right; exact Hk].
      left. rewrite Hk. reflexivity. }
    destruct (@train_batches_ok lr k X bs nh (seq 0 (nrows X / bs)) Hk')
      with (st := st) (costs := @nil R)
      as (st1 & costs & E1 & T1 & Hinv1 & Hb1).
    { intros i Hi. apply in_seq in Hi. apply full_batches; lia. }
    { exact Hinv. }
    destruct (IH (S a) st1 (out ++ [EpochCost a (mean costs)]))
      as (st' & out' & E2 & T2 & Hinv2 & Hb2 & Ho2).
    { destruct Hk as [Hk | [Hk | Hk]]; [discriminate | auto | auto]. }
    { exact Hinv1. }
    exists st', out'. simpl seq. cbn [foldM].
    unfold train_epoch at 1. rewrite E1. cbn [bind]. rewrite T1. cbn [bind].
    split_all; try assumption.
    + rewrite Hb2, Hb1, length_seq, Nat.Div0.add_mod_idemp_l. f_equal. lia.
    + rewrite Ho2. unfold epochs_of. rewrite flat_map_app. simpl.
      rewrite <- app_assoc. reflexivity.
Qed.

End TrainFacts.

(** ** The data adapter *)

Lemma in_unique (l : list string) (x : string) : In x (unique l) <-> In x l.
Proof.
  induction l as [| a l IH]; simpl; [tauto |].
  rewrite filter_In, IH. destruct (String.eqb_spec a x) as [-> | Hne]; simpl.
  - split; intros _; left; reflexivity.
  - split.
    + intros [H | [H _]]; [contradiction | right; exact H].
    + intros [H | H]; [contradiction | right; split; [exact H | reflexivity]].
Qed.

Lemma unique_nil (l : list string) : unique l = [] -> l = [].
Proof. destruct l; simpl; [reflexivity | discriminate]. Qed.

Lemma length_enumerate_map (l : list string) :
  length (enumerate_map l) = length l.
Proof.
  unfold enumerate_map. rewrite length_combine, length_seq. lia.
Qed.

Lemma dict_find_enumerate (l : list string) (x : string) :
  In x l ->
  forall s, exists c, dict_find (combine l (seq s (length l))) x = Some c /\
                      c < s + length l.
Proof.
  induction l as [| a l IH]; intros Hin s; [contradiction |]. simpl.
  destruct (String.eqb_spec a x) as [-> | Hne].
  - exists s. split; [reflexivity | lia].
  - destruct Hin as [H | H]; [contradiction |].
    destruct (IH H (S s)) as (c & E & Hc). exists c. split; [exact E | lia].
Qed.

Lemma dict_get_enumerate (l : list string) (x : string) :
  In x l -> exists c, dict_get (enumerate_map l) x = Ok c /\ c < length l.
Proof.
  intros Hin. destruct (dict_find_enumerate l x Hin 0) as (c & E & Hc).
  exists c. unfold dict_get, enumerate_map. rewrite E. split; [reflexivity | lia].
Qed.

Lemma dict_find_map_in {V : Type} (F : string -> V) (us : list string)
      (u : string) :
  In u us -> dict_find (map (fun u => (u, F u)) us) u = Some (F u).
Proof.
  induction us as [| a us IH]; intros Hin; [contradiction |]. simpl.
  destruct (String.eqb_spec a u) as [-> | Hne]; [reflexivity |].
  destruct Hin as [H | H]; [contradiction | apply IH; exact H].
Qed.

Lemma dict_find_map_notin {V : Type} (F : string -> V) (us : list string)
      (u : string) :
  ~ In u us -> dict_find (map (fun u => (u, F u)) us) u = None.
Proof.
  induction us as [| a us IH]; intros Hin; [reflexivity |]. simpl.
  destruct (String.eqb_spec a u) as [-> | Hne].
  - exfalso. apply Hin. left. reflexivity.
  - apply IH. intros H. apply Hin. right. exact H.
Qed.

(** The items of a user in the grouped data are the items of the rows of
    that user. *)
Lemma in_items_of (training_data : list interaction) (u i : string) :
  In i (unique (map item (filter (fun r => String.eqb (user r) u)
                                 training_data)))
  <-> In (Interaction u i) training_data.
Proof.
  rewrite in_unique, in_map_iff. split.
  - intros (r & Ei & Hr). apply filter_In in Hr. destruct Hr as [Hr Eu].
    apply String.eqb_eq in Eu. destruct r as [ru ri]. simpl in *. subst.
    exact Hr.
  - intros Hin. exists (Interaction u i). split; [reflexivity |].
    apply filter_In. split; [exact Hin | apply String.eqb_refl].
Qed.

Lemma groupby_user_find (training_data : list interaction) (u : string)
      (items : list string) :
  dict_find (groupby_user training_data) u = Some items ->
  In u (map user training_data) /\
  (forall i, In i items <-> In (Interaction u i) training_data) /\
  items <> [].
Proof.
  intros E. unfold groupby_user in E.
  destruct (in_dec string_dec u (unique (map user training_data)))
    as [Hin | Hnin].
  - rewrite (dict_find_map_in _ _ _ Hin) in E. injection E as <-.
    apply (proj1 (in_unique _ _)) in Hin. split; [exact Hin |].
    split; [intros i; apply in_items_of |].
    apply in_map_iff in Hin. destruct Hin as ([ru ri] & Eu & Hr).
    simpl in Eu. subst ru.
    intros Hnil. apply (proj2 (in_items_of training_data u ri)) in Hr.
    rewrite Hnil in Hr. contradiction.
  - rewrite (dict_find_map_notin _ _ _ Hnin) in E. discriminate.
Qed.

Lemma groupby_user_unknown (training_data : list interaction) (u : string) :
  ~ In u (map user training_data) ->
  dict_find (groupby_user training_data) u = None.
Proof.
  intros Hnin. apply dict_find_map_notin. intros H. apply Hnin.
  apply (proj1 (in_unique _ _)). exact H.
Qed.

Lemma groupby_user_known (training_data : list interaction) (u : string) :
  In u (map user training_data) ->
  exists items, dict_find (groupby_user training_data) u = Some items.
Proof.
  intros Hin. eexists. apply dict_find_map_in.
  apply (proj2 (in_unique _ _)). exact Hin.
Qed.

(** Every item of a user has a column. *)
Lemma items_have_columns (training_data : list interaction) (u : string)
      (items : list string) (i : string) :
  dict_find (groupby_user training_data) u = Some items -> In i items ->
  exists c,
    dict_find (enumerate_map (unique (map item training_data))) i = Some c /\
    c < length (enumerate_map (unique (map item training_data))).
Proof.
  intros E Hi. apply groupby_user_find in E. destruct E as (_ & Hit & _).
  apply Hit in Hi.
  assert (Hin : In i (unique (map item training_data))).
  { apply in_unique. apply in_map_iff. exists (Interaction u i).
    split; [reflexivity | exact Hi]. }
  destruct (dict_find_enumerate _ _ Hin 0) as (c & Ec & Hc).
  exists c. split; [exact Ec |]. rewrite length_enumerate_map. lia.
Qed.

Section ConvertFacts.

Context {R : Type} {NumR : Numeric R} {Rng : Type} {Th : Theano R Rng}.

Lemma _convert_ok (training_data : list interaction) :
  exists X : matrix R,
    _convert training_data
    = Ok (X, enumerate_map (unique (map user training_data)),
          enumerate_map (unique (map item training_data)),
          groupby_user training_data) /\
    has_shape X (length (unique (map user training_data)))
              (length (unique (map item training_data))).
Proof.
  unfold _convert. cbv zeta. rewrite !length_enumerate_map.
  set (n := length (unique (map user training_data))).
  set (m := length (unique (map item training_data))).
  match goal with
  | |- context [foldM ?f ?z ?l] =>
      assert (Hloop : exists X, foldM f z l = Ok X /\ has_shape X n m);
        [apply foldM_invariant | destruct Hloop as (X & E & S)]
  end.
  - intros X [u items] HX Hin.
    unfold groupby_user in Hin. apply in_map_iff in Hin.
    destruct Hin as (u0 & Eu & Hu). injection Eu as -> <-.
    apply foldM_invariant; [| exact HX].
    intros X' i HX' Hi.
    destruct (dict_get_enumerate _ _ Hu) as (r & Er & Hr). rewrite Er.
    cbn [bind].
    assert (Hi' : In i (unique (map item training_data))).
    { apply in_unique. apply in_items_of in Hi. apply in_map_iff.
      exists (Interaction u i). split; [reflexivity | exact Hi]. }
    destruct (dict_get_enumerate _ _ Hi') as (c & Ec & Hc). rewrite Ec.
    cbn [bind].
    destruct (set_entry_ok rone HX' Hr Hc) as (X'' & E'' & S'' & _).
    exists X''. split; assumption.
  - apply zeros_shape.
  - exists X. rewrite E. cbn [bind]. split; [reflexivity | exact S].
Qed.

Lemma __init___ok (nv nh : nat) (lr : Q) (epochs : Z) (g : Rng) :
  0 < nh + nv ->
  __init__ (Some nv) nh lr epochs None None None
           (Some (after_randint (numpy_RandomState 123%Z))) (Some g)
  = Ok (mkRBM nv nh lr epochs (tabulate nv nh (uniform 123%Z nv nh))
              (vzeros nh) (vzeros nv) g).
Proof.
  intros Hpos. unfold __init__.
  destruct (Nat.eqb_spec (nh + nv) 0) as [Hz | _]; [lia | reflexivity].
Qed.

Lemma initial_train_state_inv (nv nh bs : nat) :
  train_inv bs nv nh (initial_train_state nv nh bs : train_state R Rng).
Proof.
  unfold train_inv, initial_train_state, wf_rbm. simpl.
  split_all; try reflexivity; try apply tabulate_shape;
    try apply length_vtabulate; try apply zeros_shape.
  intros H. exact H.
Qed.

Lemma train_rbm_state_ok (self : RBM_object R Rng) (X : matrix R) (bs : nat) :
  0 < bs -> 0 < n_hidden (base self) + ncols X ->
  (nrows X / bs = 0 \/ 0 < ncols X) ->
  exists st out,
    train_rbm_state self X bs = Ok (st, out) /\
    training_loop (Z.to_nat (training_epochs (base self)))
                  (Z.to_nat (training_epochs (base self)))
                  (learning_rate (base self)) X bs
                  (initial_train_state (ncols X) (n_hidden (base self)) bs)
    = Ok st /\
    train_inv bs (ncols X) (n_hidden (base self)) st /\
    ts_bit_i_idx st
    = (Z.to_nat (training_epochs (base self)) * (nrows X / bs)) mod ncols X /\
    epochs_of out = seq 0 (Z.to_nat (training_epochs (base self))).
Proof.
  intros Hbs Hpos Hcols. unfold train_rbm_state, int_div.
  destruct (Nat.eqb_spec bs 0) as [Hz | _]; [lia |]. cbn [bind].
  rewrite __init___ok by exact Hpos. cbn [bind].
  set (T := Z.to_nat (training_epochs (base self))).
  destruct (@train_epochs_ok _ _ _ _ (learning_rate (base self)) T X bs
              (n_hidden (base self)) Hbs T 0
              (initial_train_state (ncols X) (n_hidden (base self)) bs) [])
    as (st & out & E & L & Hinv & Hb & Ho).
  - destruct T; [left; reflexivity |].
    destruct Hcols; [right; left; assumption | right; right; lia].
  - apply initial_train_state_inv.
  - exists st, out. unfold training_loop. split_all; assumption.
Qed.

End ConvertFacts.

(** ** What [fit] returns *)

Section FitFacts.

Context {R : Type} {NumR : Numeric R} {Rng : Type} {Th : Theano R Rng}.

Lemma epochs_of_training_took (out : list (output R)) :
  epochs_of (out ++ [TrainingTook]) = epochs_of out.
Proof.
  unfold epochs_of. rewrite flat_map_app. simpl. apply app_nil_r.
Qed.

Lemma no_items_no_users (training_data : list interaction) :
  length (unique (map item training_data)) = 0 ->
  length (unique (map user training_data)) = 0.
Proof.
  intros H. apply length_zero_iff_nil in H. apply unique_nil in H.
  apply map_eq_nil in H. subst. reflexivity.
Qed.

(** [fit] ends whenever the constructor of [self.rbm] does, and leaves the
    object with the maps of the data and the state training reached. *)
Lemma fit_ok (self : RBM_object R Rng) (training_data : list interaction) :
  0 < n_hidden (base self) + length (unique (map item training_data)) ->
  exists X st out,
    fit self training_data
    = Ok (mkObject (obj_id self) (base self)
                   (Some (groupby_user training_data))
                   (Some (enumerate_map (unique (map user training_data))))
                   (Some (enumerate_map (unique (map item training_data))))
                   (Some X) (Some (ts_rbm st)),
          out ++ [TrainingTook]) /\
    has_shape X (length (unique (map user training_data)))
              (length (unique (map item training_data))) /\
    training_loop (Z.to_nat (training_epochs (base self)))
                  (Z.to_nat (training_epochs (base self)))
                  (learning_rate (base self)) X 20
                  (initial_train_state (ncols X) (n_hidden (base self)) 20)
    = Ok st /\
    train_inv 20 (ncols X) (n_hidden (base self)) st /\
    ts_bit_i_idx st
    = (Z.to_nat (training_epochs (base self)) * (nrows X / 20)) mod ncols X /\
    epochs_of out = seq 0 (Z.to_nat (training_epochs (base self))).
Proof.
  intros Hpos. unfold fit.
  destruct (_convert_ok (R := R) training_data) as (X & E & S).
  rewrite E. cbn [bind].
  set (self1 := mkObject (obj_id self) (base self)
                         (Some (groupby_user training_data))
                         (Some (enumerate_map
                                  (unique (map user training_data))))
                         (Some (enumerate_map
                                  (unique (map item training_data))))
                         (Some X) (rbm self)).
  destruct S as [Sn Sm].
  destruct (@train_rbm_state_ok _ _ _ _ self1 X 20) as
    (st & out & Et & L & Hinv & Hb & Ho).
  - lia.
  - cbn [base self1]. rewrite Sm. exact Hpos.
  - destruct (Nat.eq_dec (ncols X) 0) as [Hz | Hnz]; [left | right; lia].
    rewrite Sn, no_items_no_users by congruence. reflexivity.
  - unfold train_rbm. rewrite Et. cbn [bind].
    exists X, st, out. split; [reflexivity |].
    subst self1. cbn [base] in *.
    split_all; try assumption. split; assumption.
Qed.

(** The constructor of [self.rbm] is the one step of [fit] that can
    raise. *)
Lemma fit_raises (self : RBM_object R Rng) (training_data : list interaction) :
  n_hidden (base self) + length (unique (map item training_data)) = 0 ->
  fit self training_data = Raise ZeroDivisionError.
Proof.
  intros Hz. unfold fit.
  destruct (_convert_ok (R := R) training_data) as (X & E & [Sn Sm]).
  rewrite E. cbn [bind].
  unfold train_rbm, train_rbm_state, int_div. simpl. unfold __init__.
  rewrite Sm, Hz. reflexivity.
Qed.

Lemma fit_inv (self self' : RBM_object R Rng)
      (training_data : list interaction) (out : list (output R)) :
  fit self training_data = Ok (self', out) ->
  exists X r,
    self' = mkObject (obj_id self) (base self)
                     (Some (groupby_user training_data))
                     (Some (enumerate_map (unique (map user training_data))))
                     (Some (enumerate_map (unique (map item training_data))))
                     (Some X) (Some r) /\
    wf_rbm r /\
    n_visible r = length (enumerate_map (unique (map item training_data))).
Proof.
  intros E.
  destruct (Nat.eq_dec (n_hidden (base self)
                        + length (unique (map item training_data))) 0)
    as [Hz | Hnz].
  - rewrite (fit_raises _ _ Hz) in E. discriminate.
  - destruct (@fit_ok self training_data) as
      (X & st & out' & E' & [Sn Sm] & _ & Hinv & _); [lia |].
    rewrite E' in E. injection E as <- <-.
    exists X, (ts_rbm st). split; [reflexivity |].
    destruct Hinv as (Hwf & Hnv & _). split; [exact Hwf |].
    rewrite Hnv, Sm, length_enumerate_map. reflexivity.
Qed.

Lemma fit_consistent (self self' : RBM_object R Rng)
      (training_data : list interaction) (out : list (output R)) :
  fit self training_data = Ok (self', out) -> consistent self'.
Proof.
  intros E. apply fit_inv in E. destruct E as (X & r & -> & Hwf & Hnv).
  exists (groupby_user training_data),
         (enumerate_map (unique (map item training_data))), r.
  simpl. split_all; try reflexivity; try assumption.
  intros u items i Hu Hi. exact (items_have_columns _ _ _ Hu Hi).
Qed.




End FitFacts.

(** * The claims *)

Section TrainerClaims.

Context {R : Type} {NumR : Numeric R} {Rng : Type} {Th : Theano R Rng}.

(** C1.  In [get_cost_updates] the negative phase is a chain of k
    [gibbs_hvh] steps, and what the call returns comes from that chain.
    Without a persistent state the chain starts from the hidden sample
    drawn for the input batch, on the stream after that draw; the cost
    is the reconstruction cost at the last step of the chain and the
    updates name no persistent state.  With a persistent state the chain
    starts from that state, on the stream as the call found it, and the
    updates set the persistent state to the hidden sample of the last
    step.  In both modes the stream is left where the chain left it, and
    the new parameters are the old ones minus the learning rate times
    the gradient of the cost at the last visible sample of the chain. *)
Theorem get_cost_updates_chain_start
        (self : RBM R Rng) (input : matrix R) (lr : Q)
        (persistent : option (matrix R)) (k bit : nat) (g : Rng) (n : nat) :
  wf_rbm self ->
  has_shape input n (n_visible self) ->
  (forall p, persistent = Some p ->
             has_shape p n (n_hidden self) /\ bit < n_visible self) ->
  0 < k ->
  exists cost u chain g2 last,
    get_cost_updates self input lr persistent k bit g = Ok (cost, u) /\
    match persistent with
    | None =>
        exists pre_ph ph_sample g1,
          sample_h_given_v self input g
          = Ok (pre_ph, mmap rsigmoid pre_ph, ph_sample, g1) /\
          is_chain self ph_sample g1 chain g2 /\
          get_reconstruction_cost input (pre_sigmoid_v1 last) = Ok cost /\
          upd_persistent u = None
    | Some p =>
        is_chain self p g chain g2 /\
        upd_persistent u = Some (h1_sample last)
    end /\
    length chain = k /\
    last_of chain = Ok last /\
    upd_rng u = g2 /\
    mmap2 rsub (W self)
          (mmap (fun x => rmul x (rconst lr))
                (p_W (T_grad (cd_cost self input (v1_sample last))
                             (rbm_params self))))
    = Ok (upd_W u) /\
    vmap2 rsub (hbias self)
          (map (fun x => rmul x (rconst lr))
               (p_hbias (T_grad (cd_cost self input (v1_sample last))
                                (rbm_params self))))
    = Ok (upd_hbias u) /\
    vmap2 rsub (vbias self)
          (map (fun x => rmul x (rconst lr))
               (p_vbias (T_grad (cd_cost self input (v1_sample last))
                                (rbm_params self))))
    = Ok (upd_vbias u).
Proof.
  intros Hwf Hin Hp Hk.
  destruct (get_cost_updates_parts lr g Hwf Hin Hp Hk)
    as (cost & u & pre & ph & g1 & chain & g2 & last & E & E1 & Es & El & _
        & EW & Eh & Ev & Eg & Ep & Hcd).
  apply (scan_is_chain self Hk) in Es. destruct Es as [Hc Hl].
  exists cost, u, chain, g2, last. split; [exact E |].
  split; [| split_all; assumption].
  destruct persistent as [p |].
  - split; assumption.
  - destruct (Hcd eq_refl) as [Erc _].
    exists pre, ph, g1. split_all; assumption.
Qed.

(** C4.  Under PCD the monitoring cost of one update is the mean over the
    rows of n_visible * log(sigmoid(FE(flipped) - FE(original))): the
    original is the input rounded, the flipped matrix has 1 - x in the
    column of the bit index and is the original elsewhere, and the update
    moves the index to (index + 1) mod n_visible.  In training the index
    is 0 before the first call, so that after all calls it is their number
    modulo n_visible. *)
Theorem pseudo_likelihood_monitoring_cost
        (self : RBM R Rng) (input : matrix R) (lr : Q) (p : matrix R)
        (k bit : nat) (g : Rng) (n : nat) :
  wf_rbm self ->
  has_shape input n (n_visible self) ->
  has_shape p n (n_hidden self) ->
  0 < k ->
  bit < n_visible self ->
  (exists cost u fe_xi xi_flip fe_xi_flip d,
      get_cost_updates self input lr (Some p) k bit g = Ok (cost, u) /\
      free_energy self (mmap rround input) = Ok fe_xi /\
      has_shape xi_flip n (n_visible self) /\
      (forall a b, a < n -> b < n_visible self ->
         get xi_flip a b =
         if b =? bit then rsub rone (get (mmap rround input) a bit)
         else get (mmap rround input) a b) /\
      free_energy self xi_flip = Ok fe_xi_flip /\
      vmap2 rsub fe_xi_flip fe_xi = Ok d /\
      cost = mean (map (fun x => rmul (rnat (n_visible self))
                                      (rlog (rsigmoid x))) d) /\
      upd_bit_i_idx u = Some ((bit + 1) mod n_visible self)) /\
  (forall nv nh bs,
      ts_bit_i_idx (initial_train_state nv nh bs : train_state R Rng) = 0) /\
  (forall (obj : RBM_object R Rng) (X : matrix R) (bs : nat),
      0 < bs -> 0 < n_hidden (base obj) + ncols X ->
      (nrows X / bs = 0 \/ 0 < ncols X) ->
      exists st out,
        train_rbm_state obj X bs = Ok (st, out) /\
        ts_bit_i_idx st
        = (Z.to_nat (training_epochs (base obj)) * (nrows X / bs))
            mod ncols X).
Proof.
  intros Hwf Hin Hp Hk Hbit. split; [| split].
  - destruct (get_cost_updates_pcd lr g Hwf Hin Hp Hk Hbit)
      as (cost & u & chain & last & g2 & E & _ & _ & _ & _ & _ & Epl
          & Eb & _).
    destruct (get_pseudo_likelihood_cost_ok Hwf Hin Hbit)
      as (fe_xi & xi_flip & fe_flip & d & E1 & S2 & G2 & E3 & E4 & Epl').
    rewrite Epl' in Epl. injection Epl as Ec.
    exists cost, u, fe_xi, xi_flip, fe_flip, d.
    split_all; try assumption. symmetry. exact Ec.
  - reflexivity.
  - intros obj X bs Hbs Hpos Hcols.
    destruct (train_rbm_state_ok obj X Hbs Hpos Hcols)
      as (st & out & E & _ & _ & Hb & _).
    exists st, out. split; assumption.
Qed.

End TrainerClaims.

Section TrainingClaims.

Context {R : Type} {NumR : Numeric R} {Rng : Type} {Th : Theano R Rng}.

(** C2.  With [training_epochs] = t, [fit] ends, has printed one line for
    each of the epochs 0 to t-1, and the [self.rbm] it leaves is the one
    that t passes of the PCD trainer with chain depth t over the
    minibatches produce: the one number is the count of epochs and the
    depth of the chain. *)
Theorem fit_epochs_and_chain_depth
        (self : RBM_object R Rng) (training_data : list interaction) (t : Z) :
  training_epochs (base self) = t ->
  (0 <= t)%Z ->
  0 < n_hidden (base self) + length (unique (map item training_data)) ->
  exists self' out X st,
    fit self training_data = Ok (self', out) /\
    epochs_of out = seq 0 (Z.to_nat t) /\
    Z.of_nat (length (epochs_of out)) = t /\
    input self' = Some X /\
    training_loop (Z.to_nat t) (Z.to_nat t) (learning_rate (base self)) X 20
                  (initial_train_state (ncols X) (n_hidden (base self)) 20)
    = Ok st /\
    rbm self' = Some (ts_rbm st).
Proof.
  intros Ht Hnn Hpos.
  destruct (fit_ok self training_data Hpos)
    as (X & st & out & E & _ & L & _ & _ & Ho).
  rewrite Ht in *.
  eexists. exists (out ++ [TrainingTook]), X, st.
  split; [exact E |]. rewrite epochs_of_training_took, Ho, length_seq.
  split_all; try reflexivity; try assumption. lia.
Qed.





End TrainingClaims.

(** ** The vector of a user and its one Gibbs step *)

Lemma dict_find_enumerate_nth (l : list string) (x : string) (c : nat) :
  forall s,
    dict_find (combine l (seq s (length l))) x = Some c ->
    s <= c /\ nth_error l (c - s) = Some x.
Proof.
  induction l as [| a l IH]; intros s E; simpl in E; [discriminate |].
  destruct (String.eqb_spec a x) as [-> | Hne].
  - injection E as <-. rewrite Nat.sub_diag. split; [lia | reflexivity].
  - apply IH in E. destruct E as [Hle E]. split; [lia |].
    replace (c - s) with (S (c - S s)) by lia. exact E.
Qed.

(** Two items never share a column. *)
Lemma enumerate_map_injective (l : list string) (i i' : string) (c : nat) :
  dict_find (enumerate_map l) i = Some c ->
  dict_find (enumerate_map l) i' = Some c ->
  i = i'.
Proof.
  intros E E'. apply dict_find_enumerate_nth in E, E'.
  destruct E as [_ E]. destruct E' as [_ E']. congruence.
Qed.

Section PredictorFacts.

Context {R : Type} {NumR : Numeric R} {Rng : Type} {Th : Theano R Rng}.

(** The loop that sets a one for each item of the user. *)
Lemma mark_items (iids : dict nat) (m : nat) (items : list string) :
  (forall i, In i items -> exists c, dict_find iids i = Some c /\ c < m) ->
  forall M : matrix R,
    has_shape M 1 m ->
    exists M',
      foldM (fun matrix i =>
               c <- dict_get iids i ;; set_entry matrix 0 c rone)
            M items = Ok M' /\
      has_shape M' 1 m /\
      forall c, c < m ->
        get M' 0 c =
        if existsb (fun i => match dict_find iids i with
                             | Some c' => c' =? c
                             | None => false
                             end) items
        then rone else get M 0 c.
Proof.
  induction items as [| i items IH]; intros Hcols M HM.
  - exists M. simpl. split_all; try reflexivity; assumption.
  - destruct (Hcols i (or_introl eq_refl)) as (c0 & E0 & Hc0).
    destruct (set_entry_ok rone HM (Nat.lt_0_1) Hc0) as (M1 & E1 & S1 & G1).
    destruct (IH (fun j Hj => Hcols j (or_intror Hj)) M1 S1)
      as (M' & E' & S' & G').
    exists M'. simpl. unfold dict_get at 1. rewrite E0. cbn [bind].
    rewrite E1. cbn [bind]. split_all; try assumption.
    intros c Hc. rewrite (G' c Hc), (G1 0 c Nat.lt_0_1 Hc). simpl.
    rewrite (Nat.eqb_sym c c0).
    destruct (c0 =? c); simpl; [| reflexivity].
    destruct (existsb _ items); reflexivity.
Qed.

Lemma test_user_ok (self : RBM_object R Rng) (user : string)
      (data : dict (list string)) (iids : dict nat) (items : list string) :
  user_data self = Some data ->
  dict_find data user = Some items ->
  iid_map self = Some iids ->
  (forall i, In i items ->
             exists c, dict_find iids i = Some c /\ c < length iids) ->
  exists test_x,
    test_user self user = Ok test_x /\
    has_shape test_x 1 (length iids) /\
    forall c, c < length iids ->
      get test_x 0 c =
      if existsb (fun i => match dict_find iids i with
                           | Some c' => c' =? c
                           | None => false
                           end) items
      then rone else rzero.
Proof.
  intros Ed Eu Ei Hcols. unfold test_user. rewrite Ed. cbn [attr bind].
  unfold dict_get at 1. rewrite Eu. cbn [bind]. rewrite Ei. cbn [attr bind].
  destruct (@mark_items iids (length iids) items Hcols _
                        (zeros_shape 1 (length iids)))
    as (M' & E' & S' & G').
  exists M'. split_all; try assumption.
  intros c Hc. rewrite (G' c Hc).
  destruct (existsb _ items); [reflexivity |].
  unfold zeros. rewrite get_tabulate by (exact Nat.lt_0_1 || exact Hc).
  reflexivity.
Qed.

Lemma test_user_unknown (self : RBM_object R Rng) (user : string)
      (data : dict (list string)) :
  user_data self = Some data ->
  dict_find data user = None ->
  test_user self user = Raise KeyError.
Proof.
  intros Ed Eu. unfold test_user. rewrite Ed. cbn [attr bind].
  unfold dict_get. rewrite Eu. reflexivity.
Qed.

(** One [gibbs_vhv] is one sampling of the hidden units and one of the
    visible units from that sample; its [v1_mean] is the sigmoid of the
    visible activation. *)
Lemma gibbs_vhv_inv (r : RBM R Rng) (v0 : matrix R) (g g' : Rng)
      (o : gibbs R) :
  gibbs_vhv r v0 g = Ok (o, g') ->
  exists g1,
    sample_h_given_v r v0 g
    = Ok (pre_sigmoid_h1 o, h1_mean o, h1_sample o, g1) /\
    propdown r (h1_sample o) = Ok (pre_sigmoid_v1 o, v1_mean o) /\
    v1_mean o = mmap rsigmoid (pre_sigmoid_v1 o) /\
    binomial g1 (v1_mean o) = (v1_sample o, g').
Proof.
  unfold gibbs_vhv. intros E.
  apply bind_ok_inv in E. destruct E as ([[[ph hm] hs] g1] & E1 & E).
  apply bind_ok_inv in E. destruct E as ([[[pv vm] vs] g2] & E2 & E).
  injection E as <- <-. simpl. exists g1. split; [exact E1 |].
  unfold sample_v_given_h in E2.
  apply bind_ok_inv in E2. destruct E2 as ([pv' vm'] & E2 & E3).
  destruct (binomial g1 vm') as [vs' g2'] eqn:Eb.
  injection E3 as -> -> -> ->.
  split; [exact E2 |].
  unfold propdown in E2.
  apply bind_ok_inv in E2. destruct E2 as (d & _ & E2).
  apply bind_ok_inv in E2. destruct E2 as (pre & _ & E2).
  injection E2 as -> <-. split; [reflexivity | exact Eb].
Qed.

(** On an object [fit] has left, a miss of the cache runs the Gibbs step
    and stores its result. *)
Lemma predictions_miss (self : RBM_object R Rng) (user : string) (w : world R)
      (data : dict (list string)) (iids : dict nat) (r : RBM R Rng)
      (items : list string) :
  user_data self = Some data -> iid_map self = Some iids ->
  rbm self = Some r -> wf_rbm r -> n_visible r = length iids ->
  dict_find data user = Some items ->
  (forall i, In i items ->
             exists c, dict_find iids i = Some c /\ c < length iids) ->
  cache_find (cache w) (obj_id self, user) = None ->
  exists test_x o g,
    test_user self user = Ok test_x /\
    gibbs_vhv r test_x (theano_rng r) = Ok (o, g) /\
    _get_user_predictions self user w
    = (Ok (v1_mean o, store_rng self r g),
       World (lru_insert (obj_id self, user) (v1_mean o) (cache w))
             (Run (obj_id self, user) :: events w)).
Proof.
  intros Ed Ei Er Hwf Hnv Eu Hcols Emiss.
  destruct (test_user_ok self user Ed Eu Ei Hcols) as (test_x & Et & St & _).
  rewrite <- Hnv in St.
  destruct (gibbs_vhv_ok (theano_rng r) Hwf St) as (o & g & Eg & _).
  exists test_x, o, g. split; [exact Et |]. split; [exact Eg |].
  unfold _get_user_predictions. rewrite Emiss, Et, Er. cbn [attr bind].
  rewrite Eg. reflexivity.
Qed.

End PredictorFacts.

(** ** The cache *)

Lemma key_eqb_eq (a b : lru_key) : key_eqb a b = true <-> a = b.
Proof.
  destruct a as [i u], b as [j v]. unfold key_eqb. simpl.
  rewrite andb_true_iff, Nat.eqb_eq, String.eqb_eq.
  split; [intros [-> ->]; reflexivity | intros E; injection E; auto].
Qed.

Lemma key_eqb_refl (a : lru_key) : key_eqb a a = true.
Proof. apply key_eqb_eq. reflexivity. Qed.

Lemma key_eqb_neq (a b : lru_key) : key_eqb a b = false <-> a <> b.
Proof.
  rewrite <- key_eqb_eq. destruct (key_eqb a b); split; congruence.
Qed.

Lemma cache_find_touch {V : Type} (key : lru_key) (v : V)
      (c : list (lru_key * V)) :
  cache_find (lru_touch key v c) key = Some v.
Proof. unfold lru_touch. simpl. rewrite key_eqb_refl. reflexivity. Qed.

Lemma cache_find_insert {V : Type} (key : lru_key) (v : V)
      (c : list (lru_key * V)) :
  cache_find (lru_insert key v c) key = Some v.
Proof. unfold lru_insert. simpl. rewrite key_eqb_refl. reflexivity. Qed.

Lemma cache_find_in {V : Type} (c : list (lru_key * V)) (key : lru_key)
      (v : V) :
  cache_find c key = Some v -> In key (map fst c).
Proof.
  induction c as [| [k x] c IH]; simpl; [discriminate |].
  destruct (key_eqb k key) eqn:E.
  - intros _. left. apply key_eqb_eq. exact E.
  - intros H. right. apply IH. exact H.
Qed.

Lemma cache_find_notin {V : Type} (c : list (lru_key * V)) (key : lru_key) :
  cache_find c key = None -> ~ In key (map fst c).
Proof.
  induction c as [| [k x] c IH]; simpl; [tauto |].
  destruct (key_eqb k key) eqn:E; [discriminate |].
  intros H [Hk | Hin]; [| exact (IH H Hin)].
  apply key_eqb_neq in E. contradiction.
Qed.

Section PredictorClaims.

Context {R : Type} {NumR : Numeric R} {Rng : Type} {Th : Theano R Rng}.

(** C5.  For a user of the training data whose vector is not cached,
    [_get_user_predictions] builds a matrix of one row that has a one in
    the column of each item the user interacted with and a zero in the
    column of every other item, runs one [gibbs_vhv] on it: one sampling of
    the hidden units, one propagation down from that sample; and returns
    [v1_mean], the sigmoid of the visible activation, not the binary
    sample drawn from it. *)
Theorem user_prediction_is_one_mean_field_step
        (self0 self : RBM_object R Rng) (training_data : list interaction)
        (out : list (output R)) (u : string) (w : world R) :
  fit self0 training_data = Ok (self, out) ->
  In u (map user training_data) ->
  cache_find (cache w) (obj_id self, u) = None ->
  exists r test_x o g g1,
    rbm self = Some r /\
    test_user self u = Ok test_x /\
    has_shape test_x 1 (length (unique (map item training_data))) /\
    (forall i c,
        dict_find (enumerate_map (unique (map item training_data))) i = Some c ->
        (In (Interaction u i) training_data -> get test_x 0 c = rone) /\
        (~ In (Interaction u i) training_data -> get test_x 0 c = rzero)) /\
    gibbs_vhv r test_x (theano_rng r) = Ok (o, g) /\
    sample_h_given_v r test_x (theano_rng r)
    = Ok (pre_sigmoid_h1 o, h1_mean o, h1_sample o, g1) /\
    propdown r (h1_sample o) = Ok (pre_sigmoid_v1 o, v1_mean o) /\
    v1_mean o = mmap rsigmoid (pre_sigmoid_v1 o) /\
    binomial g1 (v1_mean o) = (v1_sample o, g) /\
    fst (_get_user_predictions self u w)
    = Ok (v1_mean o, store_rng self r g).
Proof.
  intros Efit Huser Emiss.
  destruct (fit_inv _ _ Efit) as (X & r & -> & Hwf & Hnv).
  destruct (groupby_user_known _ _ Huser) as (items & Eu).
  pose proof (fun i => @items_have_columns training_data u items i Eu)
    as Hcols.
  match type of Efit with
  | _ = Ok (?m, _) => set (obj := m) in *
  end.
  destruct (@predictions_miss _ _ _ _ obj u w
              (groupby_user training_data)
              (enumerate_map (unique (map item training_data))) r items
              eq_refl eq_refl eq_refl Hwf Hnv Eu Hcols Emiss)
    as (test_x & o & g & Et & Eg & Ep).
  destruct (@test_user_ok _ _ _ obj u
              (groupby_user training_data)
              (enumerate_map (unique (map item training_data))) items
              eq_refl Eu eq_refl Hcols)
    as (test_x' & Et' & St & Gt).
  rewrite Et in Et'. injection Et' as <-.
  destruct (gibbs_vhv_inv _ _ _ Eg) as (g1 & Eh & Ed & Em & Eb).
  exists r, test_x, o, g, g1. rewrite length_enumerate_map in St.
  split_all; try reflexivity; try assumption.
  - intros i c Ec.
    assert (Hc : c < length (enumerate_map (unique (map item training_data)))).
    { pose proof (dict_find_enumerate_nth _ _ 0 Ec) as [_ Hn].
      rewrite length_enumerate_map. rewrite Nat.sub_0_r in Hn.
      apply nth_error_Some. congruence. }
    destruct (groupby_user_find _ _ Eu) as (_ & Hitems & _).
    rewrite (Gt c Hc). split.
    + intros Hin.
      assert (Hex : existsb
                      (fun i0 =>
                         match dict_find (enumerate_map
                                            (unique (map item training_data)))
                                         i0 with
                         | Some c' => c' =? c
                         | None => false
                         end) items = true).
      { apply existsb_exists. exists i. split; [apply Hitems; exact Hin |].
        rewrite Ec. apply Nat.eqb_refl. }
      rewrite Hex. reflexivity.
    + intros Hnin.
      destruct (existsb _ items) eqn:Hex; [| reflexivity].
      exfalso. apply existsb_exists in Hex. destruct Hex as (i' & Hi' & Hc').
      destruct (dict_find _ i') as [c' |] eqn:Ec'; [| discriminate].
      apply Nat.eqb_eq in Hc'. subst c'.
      rewrite (enumerate_map_injective _ _ _ Ec Ec') in Hnin.
      apply Hnin. apply Hitems. exact Hi'.
  - rewrite Ep. reflexivity.
Qed.

(** C10, as the code has it.  In a fitted object every user of the user
    data has at least one item; a user without observed items is not in
    it, and a request for such a user that is not served from the cache
    raises KeyError, from [_get_user_predictions] and from [get_score].  The
    matrix of zeros is the input only of a user stored with an empty item
    set, which [fit] never stores. *)
Theorem prediction_for_user_without_items
        (self0 self : RBM_object R Rng) (training_data : list interaction)
        (out : list (output R)) :
  fit self0 training_data = Ok (self, out) ->
  (exists data iids,
      user_data self = Some data /\ iid_map self = Some iids /\
      (forall u items, dict_find data u = Some items -> items <> []) /\
      (forall u, ~ In u (map user training_data) -> dict_find data u = None)) /\
  (forall u w,
      ~ In u (map user training_data) ->
      cache_find (cache w) (obj_id self, u) = None ->
      _get_user_predictions self u w = (Raise KeyError, w) /\
      forall i, get_score self u i w = (Raise KeyError, w)) /\
  (forall (obj : RBM_object R Rng) data iids u,
      user_data obj = Some data -> iid_map obj = Some iids ->
      dict_find data u = Some [] ->
      test_user obj u = Ok (zeros 1 (length iids))).
Proof.
  intros Efit. destruct (fit_inv _ _ Efit) as (X & r & -> & Hwf & Hnv).
  split_all.
  - exists (groupby_user training_data),
           (enumerate_map (unique (map item training_data))).
    simpl. split_all; try reflexivity.
    + intros u items Eu. apply groupby_user_find in Eu. apply Eu.
    + intros u Hu. apply groupby_user_unknown. exact Hu.
  - intros u w Hu Emiss.
    match type of Efit with
    | _ = Ok (?m, _) => set (obj := m) in *
    end.
    assert (Et : test_user obj u = Raise KeyError).
    { apply (@test_user_unknown _ _ _ obj u (groupby_user training_data)
                                eq_refl).
      apply groupby_user_unknown. exact Hu. }
    assert (Ep : _get_user_predictions obj u w = (Raise KeyError, w)).
    { unfold _get_user_predictions. rewrite Emiss, Et. reflexivity. }
    split; [exact Ep |].
    intros i. unfold get_score. rewrite Ep.
    subst obj. cbn [iid_map attr bind]. unfold dict_get.
    destruct (dict_find _ i); reflexivity.
  - intros obj data iids u Ed Ei Eu. unfold test_user.
    rewrite Ed. cbn [attr bind]. unfold dict_get. rewrite Eu. cbn [bind].
    rewrite Ei. reflexivity.
Qed.

End PredictorClaims.

(** ** The cache keeps the most recently used keys *)

Lemma maxsize_pos : 0 < maxsize.
Proof. unfold maxsize. lia. Qed.

Lemma map_removelast {A B : Type} (f : A -> B) (l : list A) :
  map f (removelast l) = removelast (map f l).
Proof.
  induction l as [| a l IH]; [reflexivity |].
  destruct l as [| b l]; [reflexivity |].
  change (f a :: map f (removelast (b :: l))
          = f a :: removelast (map f (b :: l))).
  rewrite IH. reflexivity.
Qed.

Lemma length_removelast {A : Type} (l : list A) :
  length (removelast l) = length l - 1.
Proof.
  induction l as [| a l IH]; [reflexivity |].
  destruct l as [| b l]; [reflexivity |].
  change (S (length (removelast (b :: l))) = S (length (b :: l)) - 1).
  rewrite IH. simpl. lia.
Qed.

Lemma in_firstn {A : Type} (l : list A) (n : nat) (x : A) :
  In x (firstn n l) -> In x l.
Proof.
  intros H. rewrite <- (firstn_skipn n l). apply in_or_app. left. exact H.
Qed.

Lemma in_firstn_le {A : Type} (l : list A) (n m : nat) (x : A) :
  n <= m -> In x (firstn n l) -> In x (firstn m l).
Proof.
  intros Hle H. replace n with (Nat.min n m) in H by lia.
  rewrite <- firstn_firstn in H. apply in_firstn in H. exact H.
Qed.

Lemma NoDup_firstn {A : Type} (l : list A) (n : nat) :
  NoDup l -> NoDup (firstn n l).
Proof.
  intros H. rewrite <- (firstn_skipn n l) in H.
  apply NoDup_app_remove_r in H. exact H.
Qed.

Lemma filter_notin (l : list lru_key) (k : lru_key) :
  ~ In k l -> filter (fun k' => negb (key_eqb k' k)) l = l.
Proof.
  induction l as [| a l IH]; simpl; intros H; [reflexivity |].
  destruct (key_eqb a k) eqn:E; simpl.
  - apply key_eqb_eq in E. exfalso. apply H. left. exact E.
  - f_equal. apply IH. tauto.
Qed.

Lemma filter_firstn_in (l : list lru_key) (k : lru_key) :
  NoDup l ->
  forall n, In k (firstn (S n) l) ->
    filter (fun k' => negb (key_eqb k' k)) (firstn (S n) l)
    = firstn n (filter (fun k' => negb (key_eqb k' k)) l).
Proof.
  induction l as [| a l IH]; intros Hnd n Hin; [destruct Hin |].
  rewrite firstn_cons in *. inversion Hnd as [| a0 l0 Ha Hl]; subst.
  simpl filter. destruct (key_eqb a k) eqn:E; simpl.
  - apply key_eqb_eq in E. subst a.
    rewrite !filter_notin; [reflexivity | exact Ha |].
    intros H. apply Ha. exact (in_firstn _ _ _ H).
  - destruct Hin as [Hk | Hin]; [apply key_eqb_neq in E; contradiction |].
    destruct n as [| n]; [destruct Hin |].
    rewrite firstn_cons. f_equal. apply IH; assumption.
Qed.

Lemma firstn_filter_notin (l : list lru_key) (k : lru_key) :
  forall n, ~ In k (firstn n l) ->
    firstn n (filter (fun k' => negb (key_eqb k' k)) l) = firstn n l.
Proof.
  induction l as [| a l IH]; intros n H; [reflexivity |].
  destruct n as [| n]; [reflexivity |].
  rewrite firstn_cons in H. simpl filter.
  destruct (key_eqb a k) eqn:E; simpl.
  - apply key_eqb_eq in E. exfalso. apply H. left. exact E.
  - f_equal. apply IH. intros Hin. apply H. right. exact Hin.
Qed.

Lemma length_filter_remove (l : list lru_key) (k : lru_key) :
  NoDup l -> In k l ->
  S (length (filter (fun k' => negb (key_eqb k' k)) l)) = length l.
Proof.
  induction l as [| a l IH]; intros Hnd Hin; [destruct Hin |].
  inversion Hnd as [| a0 l0 Ha Hl]; subst. simpl.
  destruct (key_eqb a k) eqn:E; simpl.
  - apply key_eqb_eq in E. subst a. rewrite filter_notin by exact Ha.
    reflexivity.
  - destruct Hin as [Hk | Hin]; [apply key_eqb_neq in E; contradiction |].
    rewrite IH by assumption. reflexivity.
Qed.

Lemma in_recency (evs : list cache_event) (k : lru_key) :
  In k (recency evs) <-> In k (map event_key evs).
Proof.
  induction evs as [| e evs IH]; simpl; [tauto |].
  rewrite filter_In, IH. destruct (key_eqb k (event_key e)) eqn:E; simpl.
  - apply key_eqb_eq in E. subst k. split; intros _; left; reflexivity.
  - apply key_eqb_neq in E. split.
    + intros [H | [H _]]; [left; exact H | right; exact H].
    + intros [H | H]; [left; exact H | right; split; [exact H | reflexivity]].
Qed.

Lemma recency_NoDup (evs : list cache_event) : NoDup (recency evs).
Proof.
  induction evs as [| e evs IH]; simpl; constructor.
  - intros H. apply filter_In in H. destruct H as [_ H].
    rewrite key_eqb_refl in H. discriminate.
  - apply NoDup_filter. exact IH.
Qed.

Lemma count_runs_notin (key : lru_key) (evs : list cache_event) :
  ~ In key (map event_key evs) -> count_runs key evs = 0.
Proof.
  induction evs as [| e evs IH]; simpl; intros H; [reflexivity |].
  destruct e as [k | k]; simpl in H.
  - apply IH. tauto.
  - destruct (key_eqb k key) eqn:E.
    + apply key_eqb_eq in E. exfalso. apply H. left. exact E.
    + rewrite IH by tauto. reflexivity.
Qed.

Lemma map_fst_cache_remove {V : Type} (key : lru_key)
      (c : list (lru_key * V)) :
  map fst (cache_remove key c)
  = filter (fun k' => negb (key_eqb k' key)) (map fst c).
Proof.
  induction c as [| [k v] c IH]; [reflexivity |].
  unfold cache_remove in *. simpl.
  destruct (key_eqb k key); simpl; rewrite IH; reflexivity.
Qed.

(** A hit keeps the cache the list of the most recently used keys, and
    its size. *)
Lemma touch_keeps_recency {V : Type} (c : list (lru_key * V))
      (evs : list cache_event) (key : lru_key) (v : V) :
  map fst c = firstn maxsize (recency evs) ->
  cache_find c key = Some v ->
  map fst (lru_touch key v c) = firstn maxsize (recency (Hit key :: evs)) /\
  length (lru_touch key v c) = length c.
Proof.
  intros Hinv Efind. pose proof (cache_find_in _ _ Efind) as Hin.
  pose proof maxsize_pos as Hpos.
  assert (Hkeys : map fst (lru_touch key v c)
                  = key :: filter (fun k' => negb (key_eqb k' key))
                                  (map fst c)).
  { unfold lru_touch. cbn [map fst]. rewrite map_fst_cache_remove.
    reflexivity. }
  split.
  - rewrite Hkeys. cbn [recency event_key].
    remember maxsize as N eqn:HN. destruct N as [| m]; [lia |].
    rewrite firstn_cons, Hinv. f_equal.
    apply filter_firstn_in; [apply recency_NoDup |].
    rewrite <- Hinv. exact Hin.
  - rewrite <- (length_map fst (lru_touch key v c)), Hkeys.
    cbn [length]. rewrite length_filter_remove.
    + apply length_map.
    + rewrite Hinv. apply NoDup_firstn. apply recency_NoDup.
    + exact Hin.
Qed.

(** A miss that stores its result keeps the cache the list of the most
    recently used keys; if the cache is not full afterwards it was not
    before, and the key had never been used. *)
Lemma insert_keeps_recency {V : Type} (c : list (lru_key * V))
      (evs : list cache_event) (key : lru_key) (v : V) :
  map fst c = firstn maxsize (recency evs) ->
  cache_find c key = None ->
  map fst (lru_insert key v c) = firstn maxsize (recency (Run key :: evs)) /\
  (length (lru_insert key v c) < maxsize ->
   length c < maxsize /\ ~ In key (map event_key evs)).
Proof.
  intros Hinv Efind. pose proof (cache_find_notin _ _ Efind) as Hnin.
  pose proof maxsize_pos as Hpos.
  assert (Hlen : length c = Nat.min maxsize (length (recency evs))).
  { rewrite <- (length_map fst c), Hinv. apply length_firstn. }
  unfold lru_insert. cbn [recency event_key].
  remember maxsize as N eqn:HN. destruct N as [| m]; [lia |].
  destruct (Nat.leb_spec (S m) (length c)) as [Hfull | Hroom].
  - split.
    + cbn [map fst]. rewrite map_removelast, Hinv, firstn_cons. f_equal.
      rewrite removelast_firstn by lia.
      symmetry. apply firstn_filter_notin.
      intros H. apply Hnin. rewrite Hinv.
      apply in_firstn_le with (n := m); [lia | exact H].
    + cbn [length]. intros H.
      rewrite length_removelast in H. lia.
  - assert (Hall : firstn (S m) (recency evs) = recency evs).
    { apply firstn_all2. lia. }
    rewrite Hall in Hinv.
    assert (Hnew : ~ In key (recency evs)) by (rewrite <- Hinv; exact Hnin).
    split.
    + cbn [map fst]. rewrite Hinv, firstn_cons, filter_notin by exact Hnew.
      f_equal. symmetry. apply firstn_all2. lia.
    + intros _. split; [exact Hroom |].
      intros H. apply Hnew. apply in_recency. exact H.
Qed.

Section CacheClaims.

Context {R : Type} {NumR : Numeric R} {Rng : Type} {Th : Theano R Rng}.

(** What one [get_score] on a fitted object does to the cache: nothing, a
    hit, or a Gibbs step whose result is stored. *)
Lemma get_score_world (self : RBM_object R Rng) (user item : string)
      (w : world R) :
  consistent self ->
  snd (get_score self user item w) = w \/
  (exists v,
      cache_find (cache w) (obj_id self, user) = Some v /\
      snd (get_score self user item w)
      = World (lru_touch (obj_id self, user) v (cache w))
              (Hit (obj_id self, user) :: events w)) \/
  (exists v,
      cache_find (cache w) (obj_id self, user) = None /\
      snd (get_score self user item w)
      = World (lru_insert (obj_id self, user) v (cache w))
              (Run (obj_id self, user) :: events w)).
Proof.
  intros (data & iids & r & Ed & Ei & Er & Hwf & Hnv & Hcols).
  unfold get_score.
  destruct (m <- attr (iid_map self) ;; dict_get m item) as [iid | e];
    [| left; reflexivity].
  destruct (cache_find (cache w) (obj_id self, user)) as [v |] eqn:Ec.
  - right. left. exists v. split; [reflexivity |].
    unfold _get_user_predictions. rewrite Ec. reflexivity.
  - destruct (dict_find data user) as [items |] eqn:Eu.
    + right. right.
      destruct (@predictions_miss _ _ _ _ self user w data iids r items
                  Ed Ei Er Hwf Hnv Eu
                  (fun i => Hcols user items i Eu) Ec)
        as (test_x & o & g & _ & _ & Ep).
      exists (v1_mean o). split; [reflexivity |]. rewrite Ep. reflexivity.
    + left. unfold _get_user_predictions. rewrite Ec.
      rewrite (test_user_unknown self user Ed Eu). reflexivity.
Qed.

(** In every state of the cache that calls of [get_score] on fitted
    objects lead to: the cache holds at most 1000 vectors, its keys are
    the 1000 most recently used ones, most recent first, and while it
    holds fewer than 1000 vectors the log has at most one run for each
    object and user. *)
Lemma cache_invariant (w : world R) :
  reachable w ->
  length (cache w) <= maxsize /\
  map fst (cache w) = firstn maxsize (recency (events w)) /\
  (length (cache w) < maxsize ->
   forall (self : RBM_object R Rng) (user : string),
     count_runs (obj_id self, user) (events w) <= 1).
Proof.
  intros Hreach.
  assert (Hinv : map fst (cache w) = firstn maxsize (recency (events w)) /\
                 (length (cache w) < maxsize ->
                  forall key, count_runs key (events w) <= 1)).
  { induction Hreach as [| self user item w Hreach [IH1 IH2] Hcons].
    - split; [| intros _ key; simpl; lia].
      cbn [cache events map recency]. rewrite firstn_nil. reflexivity.
    - destruct (get_score_world user item w Hcons)
        as [E | [(v & Ec & E) | (v & Ec & E)]]; rewrite E.
      + split; assumption.
      + destruct (touch_keeps_recency _ _ _ IH1 Ec) as [H1 H2].
        cbn [cache events].
        split; [exact H1 |]. rewrite H2. exact IH2.
      + destruct (insert_keeps_recency _ _ _ v IH1 Ec) as [H1 H2].
        cbn [cache events].
        split; [exact H1 |]. intros Hlt key.
        destruct (H2 Hlt) as [Hroom Hnew]. specialize (IH2 Hroom key).
        cbn [count_runs].
        destruct (key_eqb (obj_id self, user) key) eqn:Ek; [| exact IH2].
        apply key_eqb_eq in Ek. subst key.
        rewrite (count_runs_notin _ _ Hnew). lia. }
  destruct Hinv as [H1 H2]. split_all.
  - rewrite <- (length_map fst (cache w)), H1. apply firstn_le_length.
  - exact H1.
  - intros Hlt self user. apply H2. exact Hlt.
Qed.

End CacheClaims.

(** ** The tuning table and the empty input *)

(** C7.  What [param_details] returns.  Read as (min, max, step, default),
    the tuple of [n_hidden] has the default of the constructor, and so has
    the tuple of [learning_rate]; but the maximum of [learning_rate] is
    0.05, below its own default 0.1 and not the 0.5 of the documented range,
    which stands in the place of the step; and the default of
    [training_epochs] is 15, not the 5 the constructor defaults to. *)
Theorem param_details_values :
  dict_find param_details "learning_rate"
  = Some (0.01, 0.05, 0.5, 0.1)%Q /\
  dict_find param_details "training_epochs" = Some (1, 50, 5, 15)%Q /\
  dict_find param_details "n_hidden" = Some (10, 1000, 10, 100)%Q /\
  (forall t, dict_find param_details "n_hidden" = Some t ->
             (pd_default t == inject_Z (Z.of_nat default_n_hidden))%Q) /\
  (forall t, dict_find param_details "learning_rate" = Some t ->
             (pd_default t == default_learning_rate)%Q /\
             (pd_max t < pd_default t)%Q /\ ~ (pd_max t == 0.5)%Q /\
             (pd_step t == 0.5)%Q) /\
  (forall t, dict_find param_details "training_epochs" = Some t ->
             (pd_min t == 1)%Q /\ (pd_max t == 50)%Q /\
             (pd_default t == 15)%Q /\
             ~ (pd_default t == inject_Z default_training_epochs)%Q).
Proof.
  split_all; try reflexivity.
  - intros t E. simpl in E. injection E as <-. reflexivity.
  - intros t E. simpl in E. injection E as <-.
    split_all; try reflexivity. intros H. discriminate H.
  - intros t E. simpl in E. injection E as <-.
    split_all; try reflexivity. intros H. discriminate H.
Qed.

Section EmptyInput.

Context {R : Type} {NumR : Numeric R} {Rng : Type} {Th : Theano R Rng}.

Lemma train_epochs_no_batches (lr : Q) (k : nat) (X : matrix R) (bs : nat)
      (e : nat) :
  forall a (st : train_state R Rng) out,
    foldM (train_epoch lr k X bs 0) (st, out) (seq a e)
    = Ok (st, out ++ map (fun n => EpochCost n (mean [])) (seq a e)).
Proof.
  induction e as [| e IH]; intros a st out; simpl.
  - rewrite app_nil_r. reflexivity.
  - rewrite IH, <- app_assoc. reflexivity.
Qed.

(** C9, as the code has it.  [fit] has no check for an empty input.  On
    training data without records it builds the matrix of no rows and no
    columns and empty maps, runs [training_epochs] epochs of no minibatch,
    each printing the mean of no costs, and returns; unless [n_hidden] is 0,
    when the constructor of [self.rbm] divides by zero. *)
Theorem fit_on_empty_data (self : RBM_object R Rng) :
  (0 < n_hidden (base self) ->
   fit self []
   = Ok (mkObject (obj_id self) (base self) (Some []) (Some []) (Some [])
                  (Some (Matrix 0 []))
                  (Some (mkRBM 0 (n_hidden (base self))
                               default_learning_rate default_training_epochs
                               (Matrix (n_hidden (base self)) [])
                               (vzeros (n_hidden (base self))) []
                               (RandomStreams 123%Z))),
         map (fun n => EpochCost n (mean []))
             (seq 0 (Z.to_nat (training_epochs (base self))))
         ++ [TrainingTook])) /\
  (n_hidden (base self) = 0 -> fit self [] = Raise ZeroDivisionError).
Proof.
  split.
  - intros Hpos. unfold fit.
    assert (Hc : _convert (R := R) [] = Ok (Matrix 0 [], [], [], []))
      by reflexivity.
    rewrite Hc. cbn [bind]. unfold train_rbm, train_rbm_state.
    assert (Hd : int_div (nrows (Matrix (R := R) 0 [])) 20 = Ok 0)
      by reflexivity.
    rewrite Hd. cbn [bind ncols base].
    rewrite __init___ok by lia. cbn [bind].
    rewrite train_epochs_no_batches. cbn [bind]. reflexivity.
  - intros Hz. apply fit_raises. rewrite Hz. reflexivity.
Qed.

End EmptyInput.

(** * The claims at concrete inputs *)

Open Scope string_scope.

Example new_object_example : new_object 0 2 = Ok example_object.
Proof. reflexivity. Qed.

(** With the symbolic backend the stream counts its draws.  Two epochs of
    one minibatch of twenty rows, one hidden and one visible unit: each
    update draws, in a chain of depth 2, twice 20 visible and 20 hidden
    units, and nothing for the positive phase, which the persistent chain
    leaves unused. *)
Example two_epochs_draws :
  match fit two_epoch_object twenty_users with
  | Ok (m, out) => (option_map theano_rng (rbm m), epochs_of out)
  | Raise _ => (None, [])
  end = (Some (2 * (2 * (20 + 20))), [0; 1]).
Proof. vm_compute. reflexivity. Qed.

Lemma example_rbm_wf : wf_rbm example_rbm.
Proof. unfold wf_rbm, has_shape. vm_compute. auto. Qed.

Lemma fitted_example_fit :
  fit example_object first_data = Ok (fitted_example, fitted_out).
Proof. vm_compute. reflexivity. Qed.

Lemma first_score_get_score :
  get_score fitted_example "u" "i" empty_world
  = (Ok (first_score, scored_example), first_world).
Proof. vm_compute. reflexivity. Qed.

Lemma refitted_example_fit :
  fit scored_example second_data = Ok (refitted_example, refitted_out).
Proof. vm_compute. reflexivity. Qed.

(** C4 at a PCD update of two Gibbs steps on a batch of one row. *)
Lemma pseudo_likelihood_monitoring_cost_witness :
  exists cost u fe_xi xi_flip fe_xi_flip d,
    get_cost_updates example_rbm example_batch 0.1%Q (Some example_chain)
                     2 0 0 = Ok (cost, u) /\
    free_energy example_rbm (mmap rround example_batch) = Ok fe_xi /\
    has_shape xi_flip 1 2 /\
    (forall a b, a < 1 -> b < 2 ->
       get xi_flip a b =
       if (b =? 0)%nat
       then rsub rone (get (mmap rround example_batch) a 0)
       else get (mmap rround example_batch) a b) /\
    free_energy example_rbm xi_flip = Ok fe_xi_flip /\
    vmap2 rsub fe_xi_flip fe_xi = Ok d /\
    cost = mean (map (fun x => rmul (rnat 2) (rlog (rsigmoid x))) d) /\
    upd_bit_i_idx u = Some 1.
Proof.
  apply (@pseudo_likelihood_monitoring_cost
           expr _ nat _ example_rbm example_batch 0.1%Q example_chain
           2 0 0 1).
  - exact example_rbm_wf.
  - unfold has_shape. vm_compute. auto.
  - unfold has_shape. vm_compute. auto.
  - lia.
  - vm_compute. lia.
Defined.

(** C2 at twenty users and the default of five epochs. *)
Lemma fit_epochs_and_chain_depth_witness :
  exists self' out X st,
    fit example_object twenty_users = Ok (self', out) /\
    epochs_of out = [0; 1; 2; 3; 4] /\
    Z.of_nat (length (epochs_of out)) = 5%Z /\
    input self' = Some X /\
    training_loop 5 5 default_learning_rate X 20
                  (initial_train_state (ncols X) 2 20) = Ok st /\
    rbm self' = Some (ts_rbm st).
Proof.
  apply (@fit_epochs_and_chain_depth
           expr _ nat _ example_object twenty_users 5%Z).
  - reflexivity.
  - lia.
  - vm_compute. lia.
Defined.


(** C5 at the one user of [first_data]. *)
Lemma user_prediction_is_one_mean_field_step_witness :
  exists r test_x o g g1,
    rbm fitted_example = Some r /\
    test_user fitted_example "u" = Ok test_x /\
    has_shape test_x 1 (length (unique (map item first_data))) /\
    (forall i c,
        dict_find (enumerate_map (unique (map item first_data))) i = Some c ->
        (In (Interaction "u" i) first_data -> get test_x 0 c = rone) /\
        (~ In (Interaction "u" i) first_data -> get test_x 0 c = rzero)) /\
    gibbs_vhv r test_x (theano_rng r) = Ok (o, g) /\
    sample_h_given_v r test_x (theano_rng r)
    = Ok (pre_sigmoid_h1 o, h1_mean o, h1_sample o, g1) /\
    propdown r (h1_sample o) = Ok (pre_sigmoid_v1 o, v1_mean o) /\
    v1_mean o = mmap rsigmoid (pre_sigmoid_v1 o) /\
    binomial g1 (v1_mean o) = (v1_sample o, g) /\
    fst (_get_user_predictions fitted_example "u" empty_world)
    = Ok (v1_mean o, store_rng fitted_example r g).
Proof.
  apply (@user_prediction_is_one_mean_field_step
           expr _ nat _ example_object fitted_example first_data fitted_out
           "u" empty_world).
  - exact fitted_example_fit.
  - simpl. auto.
  - reflexivity.
Defined.

(** C8 as stated fails: after the second [fit] of the same object the
    score of user "u" for item "j" is found by a hit, with no Gibbs step
    after the refit, and is the score that was returned for item "i"
    before it; and the score for item "i", now in the second column,
    raises IndexError on the cached vector of one column. *)
Lemma refit_serves_stale_vector :
  fit example_object first_data = Ok (fitted_example, fitted_out) /\
  get_score fitted_example "u" "i" empty_world
  = (Ok (first_score, scored_example), first_world) /\
  fit scored_example second_data = Ok (refitted_example, refitted_out) /\
  fst (get_score refitted_example "u" "j" first_world)
  = Ok (first_score, refitted_example) /\
  events (snd (get_score refitted_example "u" "j" first_world))
  = [Hit (0, "u"); Run (0, "u")] /\
  fst (get_score refitted_example "u" "i" first_world) = Raise IndexError.
Proof. vm_compute. repeat split. Qed.

(** C9, amended, at the example object. *)
Lemma fit_on_empty_data_witness :
  fit example_object []
  = Ok (mkObject 0 (base example_object) (Some []) (Some []) (Some [])
                 (Some (Matrix 0 []))
                 (Some (mkRBM 0 2 default_learning_rate
                              default_training_epochs (Matrix 2 [])
                              (vzeros 2) [] 0)),
        (map (fun n => EpochCost n (mean [])) (seq 0 5)
           ++ [TrainingTook])%list).
Proof.
  assert (H : 0 < n_hidden (base example_object)) by (simpl; lia).
  exact (proj1 (@fit_on_empty_data expr _ nat _ example_object) H).
Defined.

(** C9 as stated fails: [fit] on no records returns. *)
Lemma fit_on_empty_data_returns :
  exists self' out, fit example_object [] = Ok (self', out).
Proof. eexists. eexists. vm_compute. reflexivity. Qed.

(** C10, amended, at the fitted example. *)
Lemma prediction_for_user_without_items_witness :
  (exists data iids,
      user_data fitted_example = Some data /\
      iid_map fitted_example = Some iids /\
      (forall u items, dict_find data u = Some items -> items <> []) /\
      (forall u, ~ In u (map user first_data) -> dict_find data u = None)) /\
  (forall u w,
      ~ In u (map user first_data) ->
      cache_find (cache w) (obj_id fitted_example, u) = None ->
      _get_user_predictions fitted_example u w = (Raise KeyError, w) /\
      forall i, get_score fitted_example u i w = (Raise KeyError, w)) /\
  (forall (obj : RBM_object expr nat) data iids u,
      user_data obj = Some data -> iid_map obj = Some iids ->
      dict_find data u = Some [] ->
      test_user obj u = Ok (zeros 1 (length iids))).
Proof.
  apply (@prediction_for_user_without_items
           expr _ nat _ example_object fitted_example first_data fitted_out).
  exact fitted_example_fit.
Defined.

(** C10 as stated fails: user "w" has no observed item, and a prediction
    for "w" from the fitted object raises KeyError. *)
Lemma prediction_for_unknown_user_raises :
  fit example_object first_data = Ok (fitted_example, fitted_out) /\
  ~ In "w" (map user first_data) /\
  fst (_get_user_predictions fitted_example "w" empty_world)
  = Raise KeyError /\
  fst (get_score fitted_example "w" "i" empty_world) = Raise KeyError.
Proof.
  split; [vm_compute; reflexivity |].
  split; [simpl; intros [H | H]; [discriminate | exact H] |].
  split; vm_compute; reflexivity.
Qed.

Close Scope string_scope.

(** * Further properties of the code *)

(** ** Lists without repetitions and the maps made from them *)

Lemma foldM_append {A B : Type} (f : A -> B -> result A) (a : A)
      (l1 l2 : list B) :
  foldM f a (l1 ++ l2) = (a' <- foldM f a l1 ;; foldM f a' l2).
Proof.
  revert a. induction l1 as [| b l1 IH]; intros a; simpl; [reflexivity |].
  destruct (f a b) as [a' | e]; simpl; [apply IH | reflexivity].
Qed.

Lemma foldM_map {A B C : Type} (f : A -> C -> result A) (h : B -> C)
      (l : list B) :
  forall a, foldM f a (map h l) = foldM (fun a b => f a (h b)) a l.
Proof.
  induction l as [| b l IH]; intros a; simpl; [reflexivity |].
  destruct (f a (h b)) as [a' | e]; simpl; [apply IH | reflexivity].
Qed.

Lemma foldM_flat_map {A B C : Type} (f : A -> C -> result A)
      (g : B -> list C) (l : list B) :
  forall a, foldM (fun a b => foldM f a (g b)) a l = foldM f a (flat_map g l).
Proof.
  induction l as [| b l IH]; intros a; simpl; [reflexivity |].
  rewrite foldM_append.
  destruct (foldM f a (g b)) as [a' | e]; simpl; [apply IH | reflexivity].
Qed.

Lemma filter_filter_and {A : Type} (f g : A -> bool) (l : list A) :
  filter f (filter g l) = filter (fun x => g x && f x) l.
Proof.
  induction l as [| a l IH]; simpl; [reflexivity |].
  destruct (g a); simpl; [destruct (f a) |]; rewrite IH; reflexivity.
Qed.

Lemma unique_NoDup (l : list string) : NoDup (unique l).
Proof.
  induction l as [| x l IH]; simpl; constructor.
  - intros H. apply filter_In in H. destruct H as [_ H].
    rewrite String.eqb_refl in H. discriminate.
  - apply NoDup_filter. exact IH.
Qed.

(** The distinct values of a longer list: those of its beginning, then
    the new ones of its end. *)
Lemma unique_app (l1 l2 : list string) :
  unique (l1 ++ l2)
  = unique l1
      ++ filter (fun y => negb (existsb (fun x => String.eqb x y) l1))
                (unique l2).
Proof.
  induction l1 as [| a l1 IH]; simpl.
  - symmetry. clear. induction (unique l2) as [| y l IH]; simpl;
      [reflexivity | rewrite IH; reflexivity].
  - f_equal. rewrite IH, filter_app, filter_filter_and. f_equal.
    apply filter_ext. intros y.
    destruct (String.eqb a y); simpl;
      [rewrite andb_false_r | rewrite andb_true_r]; reflexivity.
Qed.

(** A value met before adds nothing. *)
Lemma unique_repeated (l1 l2 : list string) (x : string) :
  In x l1 -> unique (l1 ++ x :: l2) = unique (l1 ++ l2).
Proof.
  intros Hin. rewrite !unique_app. f_equal. simpl.
  assert (Hx : existsb (fun x0 => String.eqb x0 x) l1 = true).
  { apply existsb_exists. exists x. split; [exact Hin | apply String.eqb_refl]. }
  rewrite Hx. simpl. rewrite filter_filter_and. apply filter_ext_in.
  intros y _. destruct (String.eqb_spec x y) as [-> | Hne]; simpl.
  - rewrite Hx. reflexivity.
  - apply andb_true_l.
Qed.

Lemma dict_find_enumerate_NoDup (l : list string) (x : string) :
  NoDup l ->
  forall c s, nth_error l c = Some x ->
              dict_find (combine l (seq s (length l))) x = Some (s + c).
Proof.
  induction l as [| a l IH]; intros Hnd c s E;
    [destruct c; discriminate |].
  inversion Hnd as [| a0 l0 Ha Hl]; subst. simpl.
  destruct c as [| c]; simpl in E.
  - injection E as ->. rewrite String.eqb_refl, Nat.add_0_r. reflexivity.
  - destruct (String.eqb_spec a x) as [-> | Hne].
    + exfalso. apply Ha. apply nth_error_In in E. exact E.
    + rewrite (IH Hl c (S s) E). f_equal. lia.
Qed.

(** The map of an enumeration without repetitions and the enumeration are
    inverse to each other. *)
Lemma enumerate_map_nth (l : list string) (x : string) (c : nat) :
  dict_find (enumerate_map (unique l)) x = Some c
  <-> nth_error (unique l) c = Some x.
Proof.
  split.
  - intros E. apply dict_find_enumerate_nth in E. destruct E as [_ E].
    rewrite Nat.sub_0_r in E. exact E.
  - intros E. apply (dict_find_enumerate_NoDup (unique_NoDup l) c 0 E).
Qed.

Lemma enumerate_map_keys (l : list string) (x : string) :
  In x l <-> exists c, dict_find (enumerate_map (unique l)) x = Some c.
Proof.
  split.
  - intros Hin. apply (proj2 (in_unique _ _)) in Hin.
    apply In_nth_error in Hin. destruct Hin as (c & E).
    exists c. apply enumerate_map_nth. exact E.
  - intros (c & E). apply enumerate_map_nth in E. apply nth_error_In in E.
    apply (proj1 (in_unique _ _)). exact E.
Qed.

(** The items of a user are the same with a repeated row left out. *)
Lemma groupby_user_repeated (d1 d2 : list interaction) (r : interaction) :
  In r d1 -> groupby_user (d1 ++ r :: d2) = groupby_user (d1 ++ d2).
Proof.
  intros Hin. unfold groupby_user.
  rewrite !map_app. simpl map.
  rewrite unique_repeated by (apply in_map; exact Hin).
  apply map_ext. intros u. f_equal.
  rewrite !filter_app. simpl filter.
  destruct (String.eqb_spec (user r) u) as [Eu | Hne]; [| reflexivity].
  rewrite !map_app. simpl map. apply unique_repeated.
  apply in_map. apply filter_In. split; [exact Hin |].
  rewrite Eu. apply String.eqb_refl.
Qed.

(** ** The training matrix of [_convert] *)

Section ConvertEntries.

Context {R : Type} {NumR : Numeric R}.

(** The two loops of [_convert], as one loop over (user, item) pairs. *)
Lemma mark_pairs (uids iids : dict nat) (n m : nat)
      (pairs : list (string * string)) :
  (forall p, In p pairs ->
             exists r c, dict_find uids (fst p) = Some r /\ r < n /\
                         dict_find iids (snd p) = Some c /\ c < m) ->
  forall M : matrix R,
    has_shape M n m ->
    exists M',
      foldM (fun x (p : string * string) =>
               u <- dict_get uids (fst p) ;;
               c <- dict_get iids (snd p) ;;
               set_entry x u c rone)
            M pairs = Ok M' /\
      has_shape M' n m /\
      forall r c, r < n -> c < m ->
        get M' r c =
        if existsb (fun p : string * string =>
                      match dict_find uids (fst p), dict_find iids (snd p) with
                      | Some r', Some c' => (r' =? r) && (c' =? c)
                      | _, _ => false
                      end) pairs
        then rone else get M r c.
Proof.
  induction pairs as [| p pairs IH]; intros Hids M HM.
  - exists M. simpl. split_all; try reflexivity; assumption.
  - destruct (Hids p (or_introl eq_refl)) as (r0 & c0 & Er & Hr & Ec & Hc).
    destruct (set_entry_ok rone HM Hr Hc) as (M1 & E1 & S1 & G1).
    destruct (IH (fun q Hq => Hids q (or_intror Hq)) M1 S1)
      as (M' & E' & S' & G').
    exists M'. simpl. unfold dict_get at 1 2. rewrite Er, Ec. cbn [bind].
    rewrite E1. cbn [bind]. split_all; try assumption.
    intros r c Hr' Hc'. rewrite (G' r c Hr' Hc'), (G1 r c Hr' Hc').
    rewrite (Nat.eqb_sym r r0), (Nat.eqb_sym c c0).
    destruct ((r0 =? r) && (c0 =? c)); simpl; [| reflexivity].
    destruct (existsb _ pairs); reflexivity.
Qed.

Lemma in_user_item_pairs (training_data : list interaction) (u i : string) :
  In (u, i)
     (flat_map (fun entry : string * list string =>
                  map (pair (fst entry)) (snd entry))
               (groupby_user training_data))
  <-> In (Interaction u i) training_data.
Proof.
  rewrite in_flat_map. unfold groupby_user. split.
  - intros (entry & Hentry & Hp). apply in_map_iff in Hentry.
    destruct Hentry as (u0 & <- & Hu0). simpl in Hp.
    apply in_map_iff in Hp. destruct Hp as (i0 & Ep & Hi0).
    injection Ep as -> ->. apply in_items_of. exact Hi0.
  - intros Hin. eexists. split.
    + apply in_map_iff. exists u. split; [reflexivity |].
      apply (proj2 (in_unique _ _)). apply in_map_iff.
      exists (Interaction u i). split; [reflexivity | exact Hin].
    + simpl. apply in_map. apply in_items_of. exact Hin.
Qed.

(** X1. [_convert] returns the users-by-items matrix of the data: at the
    row of a user and the column of an item it holds one when the data
    has a record of that user with that item, and zero when it has
    none; the shape is the number of distinct users by the number of
    distinct items. *)
Theorem _convert_entries (training_data : list interaction) :
  exists X : matrix R,
    _convert training_data
    = Ok (X, enumerate_map (unique (map user training_data)),
          enumerate_map (unique (map item training_data)),
          groupby_user training_data) /\
    has_shape X (length (unique (map user training_data)))
              (length (unique (map item training_data))) /\
    forall u i r c,
      dict_find (enumerate_map (unique (map user training_data))) u = Some r ->
      dict_find (enumerate_map (unique (map item training_data))) i = Some c ->
      get X r c =
      if existsb (fun x => String.eqb (user x) u && String.eqb (item x) i)
                 training_data
      then rone else rzero.
Proof.
  unfold _convert. cbv zeta. rewrite !length_enumerate_map.
  set (uids := enumerate_map (unique (map user training_data))).
  set (iids := enumerate_map (unique (map item training_data))).
  set (n := length (unique (map user training_data))).
  set (m := length (unique (map item training_data))).
  set (g := fun (x : matrix R) (p : string * string) =>
              u <- dict_get uids (fst p) ;;
              c <- dict_get iids (snd p) ;;
              set_entry x u c rone).
  set (h := fun entry : string * list string =>
              map (pair (fst entry)) (snd entry)).
  match goal with
  | |- context [foldM ?f ?z ?l] =>
      assert (Hflat : foldM f z l = foldM g z (flat_map h l))
  end.
  { rewrite <- foldM_flat_map. apply foldM_ext_in.
    intros a [u items] _. unfold h. rewrite foldM_map. reflexivity. }
  rewrite Hflat. clear Hflat.
  assert (Hids : forall p, In p (flat_map h (groupby_user training_data)) ->
                   exists r c, dict_find uids (fst p) = Some r /\ r < n /\
                               dict_find iids (snd p) = Some c /\ c < m).
  { intros [u i] Hp. apply in_user_item_pairs in Hp. simpl.
    assert (Hu : In u (unique (map user training_data))).
    { apply in_unique. apply in_map_iff. exists (Interaction u i).
      split; [reflexivity | exact Hp]. }
    assert (Hi : In i (unique (map item training_data))).
    { apply in_unique. apply in_map_iff. exists (Interaction u i).
      split; [reflexivity | exact Hp]. }
    destruct (dict_find_enumerate _ _ Hu 0) as (r & Er & Hr).
    destruct (dict_find_enumerate _ _ Hi 0) as (c & Ec & Hc).
    exists r, c. split_all; assumption. }
  destruct (mark_pairs _ _ _ Hids (zeros_shape n m)) as (X & E & S & G).
  exists X. unfold g. rewrite E. cbn [bind].
  split_all; [reflexivity | exact S |].
  intros u i r c Er Ec.
  assert (Hr : r < n).
  { apply enumerate_map_nth in Er. apply nth_error_Some. congruence. }
  assert (Hc : c < m).
  { apply enumerate_map_nth in Ec. apply nth_error_Some. congruence. }
  rewrite (G r c Hr Hc). unfold zeros. rewrite (get_tabulate _ Hr Hc).
  match goal with
  | |- (if ?a then _ else _) = (if ?b then _ else _) =>
      assert (Hab : a = b); [| rewrite Hab; reflexivity]
  end.
  apply eq_true_iff_eq. rewrite !existsb_exists. split.
  - intros ([u' i'] & Hp & Hm). simpl in Hm. apply in_user_item_pairs in Hp.
    destruct (dict_find uids u') as [r' |] eqn:Er'; [| discriminate].
    destruct (dict_find iids i') as [c' |] eqn:Ec'; [| discriminate].
    apply andb_true_iff in Hm. destruct Hm as [Hm1 Hm2].
    apply Nat.eqb_eq in Hm1, Hm2. subst r' c'.
    assert (u' = u) by (eapply enumerate_map_injective; eassumption).
    assert (i' = i) by (eapply enumerate_map_injective; eassumption).
    subst u' i'. exists (Interaction u i). split; [exact Hp |].
    simpl. rewrite !String.eqb_refl. reflexivity.
  - intros ([xu xi] & Hx & Hm). simpl in Hm.
    apply andb_true_iff in Hm. destruct Hm as [Hm1 Hm2].
    apply String.eqb_eq in Hm1, Hm2. subst xu xi.
    exists (u, i). split; [apply in_user_item_pairs; exact Hx |].
    simpl. fold uids iids. rewrite Er, Ec, !Nat.eqb_refl. reflexivity.
Qed.

(** X2. The two id maps [_convert] returns are one-to-one enumerations:
    a user has row r exactly when it is the r-th distinct user of the
    data in order of first appearance, and likewise an item and its
    column; the keys are exactly the users and the items of the data. *)
Theorem _convert_id_maps (training_data : list interaction) :
  exists (X : matrix R) (uids iids : dict nat) (users : dict (list string)),
    _convert training_data = Ok (X, uids, iids, users) /\
    (forall u r, dict_find uids u = Some r
                 <-> nth_error (unique (map user training_data)) r = Some u) /\
    (forall i c, dict_find iids i = Some c
                 <-> nth_error (unique (map item training_data)) c = Some i) /\
    (forall u, In u (map user training_data)
               <-> exists r, dict_find uids u = Some r) /\
    (forall i, In i (map item training_data)
               <-> exists c, dict_find iids i = Some c) /\
    NoDup (unique (map user training_data)) /\
    NoDup (unique (map item training_data)).
Proof.
  destruct (_convert_ok (R := R) training_data) as (X & E & _).
  eexists _, _, _, _. split; [exact E |]. split_all.
  - intros u r. apply enumerate_map_nth.
  - intros i c. apply enumerate_map_nth.
  - intros u. apply enumerate_map_keys.
  - intros i. apply enumerate_map_keys.
  - apply unique_NoDup.
  - apply unique_NoDup.
Qed.

End ConvertEntries.

Section ConvertRows.

Context {R : Type} {NumR : Numeric R}.

(** X3. A row that repeats an earlier row of the training data changes
    nothing of what [_convert] returns: the matrix, the two id maps and
    the items of each user are those of the data without it. *)
Theorem _convert_repeated_row (d1 d2 : list interaction) (r : interaction) :
  In r d1 ->
  _convert (R := R) (d1 ++ r :: d2) = _convert (d1 ++ d2).
Proof.
  intros Hin. unfold _convert.
  rewrite groupby_user_repeated by exact Hin. rewrite !map_app. simpl map.
  rewrite !unique_repeated by (apply in_map; exact Hin).
  reflexivity.
Qed.

(** X4. Ids are given in order of first appearance: rows added at the end
    of the training data leave the row of every earlier user and the
    column of every earlier item as they were. *)
Theorem _convert_ids_stable (training_data more : list interaction) :
  exists (X X' : matrix R) (uids uids' iids iids' : dict nat)
         (users users' : dict (list string)),
    _convert training_data = Ok (X, uids, iids, users) /\
    _convert (training_data ++ more) = Ok (X', uids', iids', users') /\
    (forall u r, dict_find uids u = Some r -> dict_find uids' u = Some r) /\
    (forall i c, dict_find iids i = Some c -> dict_find iids' i = Some c).
Proof.
  destruct (_convert_ok (R := R) training_data) as (X & E & _).
  destruct (_convert_ok (R := R) (training_data ++ more)) as (X' & E' & _).
  eexists _, _, _, _, _, _, _, _. split; [exact E |]. split; [exact E' |].
  split.
  - intros u r Er. apply enumerate_map_nth. apply enumerate_map_nth in Er.
    rewrite map_app, unique_app, nth_error_app1; [exact Er |].
    apply nth_error_Some. congruence.
  - intros i c Ec. apply enumerate_map_nth. apply enumerate_map_nth in Ec.
    rewrite map_app, unique_app, nth_error_app1; [exact Ec |].
    apply nth_error_Some. congruence.
Qed.

End ConvertRows.

(** ** The name of the model *)

Lemma string_length_append (s t : string) :
  String.length (s ++ t) = String.length s + String.length t.
Proof. induction s as [| a s IH]; simpl; [reflexivity | rewrite IH; reflexivity]. Qed.

Lemma string_append_inj_l (s1 s2 t : string) :
  (s1 ++ t = s2 ++ t)%string -> s1 = s2.
Proof.
  revert s2. induction s1 as [| a s1 IH]; intros [| b s2] E; simpl in E.
  - reflexivity.
  - apply (f_equal String.length) in E. simpl in E.
    rewrite string_length_append in E. lia.
  - apply (f_equal String.length) in E. simpl in E.
    rewrite string_length_append in E. lia.
  - injection E as -> E. f_equal. apply IH. exact E.
Qed.

Lemma string_append_inj_r (p s1 s2 : string) :
  (p ++ s1 = p ++ s2)%string -> s1 = s2.
Proof.
  induction p as [| a p IH]; simpl; intros E; [exact E |].
  injection E as E. apply IH. exact E.
Qed.

Section Name.

Context {R : Type} {NumR : Numeric R} {Rng : Type} {Th : Theano R Rng}.

(** X5. [get_name] tells the number of hidden units and nothing else:
    two models have the same name exactly when they have the same
    [n_hidden]. *)
Theorem get_name_injective (a b : RBM_object R Rng) :
  get_name a = get_name b <-> n_hidden (base a) = n_hidden (base b).
Proof.
  unfold get_name. split.
  - intros E. apply string_append_inj_r, string_append_inj_l in E.
    apply (f_equal NilEmpty.uint_of_string) in E.
    rewrite !NilEmpty.usu in E. injection E as E.
    apply (f_equal Nat.of_uint) in E. rewrite !Unsigned.of_to in E. exact E.
  - intros ->. reflexivity.
Qed.

End Name.

(** ** Entries of the tensors the machine computes *)

Section TensorEntries.

Context {R : Type} {NumR : Numeric R}.

Lemma vtabulate_ext (n : nat) (f g : nat -> R) :
  (forall i, i < n -> f i = g i) -> vtabulate n f = vtabulate n g.
Proof.
  intros E. unfold vtabulate. apply map_ext_in.
  intros i Hi. apply in_seq in Hi. apply E. lia.
Qed.

Lemma tabulate_ext (n m : nat) (f g : nat -> nat -> R) :
  (forall i j, i < n -> j < m -> f i j = g i j) ->
  tabulate n m f = tabulate n m g.
Proof.
  intros E. unfold tabulate. f_equal. apply map_ext_in.
  intros i Hi. apply in_seq in Hi. apply vtabulate_ext.
  intros j Hj. apply E; lia.
Qed.

Lemma rsum_ext (f g : nat -> R) (n : nat) :
  (forall k, k < n -> f k = g k) ->
  rsum (map f (seq 0 n)) = rsum (map g (seq 0 n)).
Proof.
  intros E. f_equal. apply map_ext_in.
  intros k Hk. apply in_seq in Hk. apply E. lia.
Qed.

Lemma get_mmap (f : R -> R) (M : matrix R) (i j : nat) :
  i < nrows M -> j < ncols M -> get (mmap f M) i j = f (get M i j).
Proof. intros Hi Hj. unfold mmap. apply get_tabulate; assumption. Qed.

Lemma get_mmap2 (f : R -> R -> R) (A B M : matrix R) (i j : nat) :
  mmap2 f A B = Ok M -> i < nrows A -> j < ncols A ->
  get M i j = f (get A i j) (get B i j).
Proof.
  unfold mmap2. destruct ((nrows A =? nrows B) && (ncols A =? ncols B));
    [| discriminate].
  intros E Hi Hj. injection E as <-.
  rewrite get_tabulate by assumption. reflexivity.
Qed.

(** A product of matrices with a vector added to each row, as [propup],
    [propdown] and [free_energy] have it. *)
Lemma affine_ok (A B : matrix R) (v : list R) (n k m : nat) :
  has_shape A n k -> has_shape B k m -> length v = m ->
  exists D,
    dot A B = Ok D /\
    add_row D v
    = Ok (tabulate n m (fun i j =>
            radd (rsum (map (fun q => rmul (get A i q) (get B q j))
                            (seq 0 k)))
                 (vget v j))).
Proof.
  intros [<- <-] [EB <-] Ev. unfold dot. rewrite EB, Nat.eqb_refl.
  eexists. split; [reflexivity |].
  match goal with |- add_row ?D0 _ = _ => set (D := D0) end.
  assert (HD : has_shape D (nrows A) (ncols B)) by apply tabulate_shape.
  destruct HD as [En Em]. unfold add_row.
  rewrite En, Em, Ev, Nat.eqb_refl. f_equal. apply tabulate_ext.
  intros i j Hi Hj. subst D. rewrite get_tabulate by assumption. reflexivity.
Qed.

End TensorEntries.

Section MachineEntries.

Context {R : Type} {NumR : Numeric R} {Rng : Type} {Th : Theano R Rng}.

Lemma propup_formula (self : RBM R Rng) (vis : matrix R) (n : nat) :
  wf_rbm self -> has_shape vis n (n_visible self) ->
  exists pre,
    propup self vis = Ok (pre, mmap rsigmoid pre) /\
    pre = tabulate n (n_hidden self) (fun a j =>
            radd (rsum (map (fun k => rmul (get vis a k) (get (W self) k j))
                            (seq 0 (n_visible self))))
                 (vget (hbias self) j)).
Proof.
  intros (HW & Hh & Hv) Hvis. unfold propup.
  destruct (affine_ok _ Hvis HW Hh) as (D & E1 & E2).
  rewrite E1. cbn [bind]. rewrite E2. cbn [bind].
  eexists. split; reflexivity.
Qed.

Lemma propdown_formula (self : RBM R Rng) (hid : matrix R) (n : nat) :
  wf_rbm self -> has_shape hid n (n_hidden self) ->
  exists pre,
    propdown self hid = Ok (pre, mmap rsigmoid pre) /\
    pre = tabulate n (n_visible self) (fun a c =>
            radd (rsum (map (fun k => rmul (get hid a k) (get (W self) c k))
                            (seq 0 (n_hidden self))))
                 (vget (vbias self) c)).
Proof.
  intros (HW & Hh & Hv) Hhid. unfold propdown.
  destruct (affine_ok _ Hhid (transpose_shape HW) Hv) as (D & E1 & E2).
  rewrite E1. cbn [bind]. rewrite E2. cbn [bind].
  eexists. split; [reflexivity |]. apply tabulate_ext.
  intros a c Ha Hc. f_equal. apply rsum_ext. intros k Hk. f_equal.
  destruct HW as [Wn Wm]. unfold transpose.
  rewrite get_tabulate by lia. reflexivity.
Qed.

End MachineEntries.

(** ** Scores *)

Section Scores.

Context {R : Type} {NumR : Numeric R} {Rng : Type} {Th : Theano R Rng}.

(** The first score of a user of a fitted object. *)
Lemma get_score_miss (self0 self : RBM_object R Rng)
      (training_data : list interaction) (out : list (output R))
      (u i : string) (c : nat) (w : world R) :
  fit self0 training_data = Ok (self, out) ->
  In u (map user training_data) ->
  dict_find (enumerate_map (unique (map item training_data))) i = Some c ->
  cache_find (cache w) (obj_id self, u) = None ->
  exists r test_x o g,
    rbm self = Some r /\ wf_rbm r /\
    iid_map self = Some (enumerate_map (unique (map item training_data))) /\
    c < n_visible r /\
    test_user self u = Ok test_x /\
    gibbs_vhv r test_x (theano_rng r) = Ok (o, g) /\
    gibbs_shapes r o 1 /\
    get_score self u i w
    = (Ok (get (v1_mean o) 0 c, store_rng self r g),
       World (lru_insert (obj_id self, u) (v1_mean o) (cache w))
             (Run (obj_id self, u) :: events w)).
Proof.
  intros Efit Huser Ec Emiss.
  destruct (fit_inv _ _ Efit) as (X & r & -> & Hwf & Hnv).
  destruct (groupby_user_known _ _ Huser) as (items & Eu).
  pose proof (fun i => @items_have_columns training_data u items i Eu)
    as Hcols.
  match type of Efit with
  | _ = Ok (?m, _) => set (obj := m) in *
  end.
  destruct (@predictions_miss _ _ _ _ obj u w
              (groupby_user training_data)
              (enumerate_map (unique (map item training_data))) r items
              eq_refl eq_refl eq_refl Hwf Hnv Eu Hcols Emiss)
    as (test_x & o & g & Et & Eg & Ep).
  destruct (@test_user_ok _ _ _ obj u
              (groupby_user training_data)
              (enumerate_map (unique (map item training_data))) items
              eq_refl Eu eq_refl Hcols)
    as (test_x' & Et' & St & _).
  rewrite Et in Et'. injection Et' as <-.
  rewrite <- Hnv in St.
  destruct (gibbs_vhv_ok (theano_rng r) Hwf St) as (o' & g' & Eg' & So).
  rewrite Eg in Eg'. injection Eg' as <- <-.
  assert (Hc : c < n_visible r).
  { rewrite Hnv, length_enumerate_map. apply enumerate_map_nth in Ec.
    apply nth_error_Some. congruence. }
  exists r, test_x, o, g.
  split_all; try reflexivity; try assumption.
  unfold get_score. cbn [iid_map obj attr bind]. unfold dict_get.
  rewrite Ec, Ep. unfold get_entry.
  destruct So as (_ & [Sn Sm] & _). rewrite Sn, Sm.
  rewrite (proj2 (Nat.ltb_lt _ _) Hc). reflexivity.
Qed.

(** X6. [get_score] looks the item up before anything else: on a fitted
    object an item that the training data does not have raises KeyError,
    for every user and every state of the cache, and the cache is left
    as it was; on an object without [iid_map], one that was never
    fitted, it raises AttributeError. *)
Theorem get_score_unknown_item (self0 self : RBM_object R Rng)
        (training_data : list interaction) (out : list (output R)) :
  fit self0 training_data = Ok (self, out) ->
  (forall u i w,
      ~ In i (map item training_data) ->
      get_score self u i w = (Raise KeyError, w)) /\
  (forall (obj : RBM_object R Rng) u i w,
      iid_map obj = None ->
      get_score obj u i w = (Raise AttributeError, w)).
Proof.
  intros Efit. split.
  - intros u i w Hnin.
    destruct (fit_inv _ _ Efit) as (X & r & -> & _ & _).
    unfold get_score. cbn [iid_map attr bind]. unfold dict_get.
    destruct (dict_find (enumerate_map (unique (map item training_data))) i)
      as [c |] eqn:Ec; [| reflexivity].
    exfalso. apply Hnin. apply enumerate_map_keys. exists c. exact Ec.
  - intros obj u i w Em. unfold get_score. rewrite Em. reflexivity.
Qed.

(** X7. The score of a user and an item of the training data, when no
    vector of the user is cached: one [gibbs_vhv] step from the row of
    the items of the user, and of it the mean-field activation of the
    column of the item, which is the sigmoid of the hidden sample times
    the weights of the item plus the visible bias of the item.  The
    call never raises; it stores the vector in the cache and logs one
    run. *)
Theorem get_score_formula (self0 self : RBM_object R Rng)
        (training_data : list interaction) (out : list (output R))
        (u i : string) (c : nat) (w : world R) :
  fit self0 training_data = Ok (self, out) ->
  In u (map user training_data) ->
  dict_find (enumerate_map (unique (map item training_data))) i = Some c ->
  cache_find (cache w) (obj_id self, u) = None ->
  exists r test_x o g,
    rbm self = Some r /\
    test_user self u = Ok test_x /\
    gibbs_vhv r test_x (theano_rng r) = Ok (o, g) /\
    get_score self u i w
    = (Ok (rsigmoid
             (radd (rsum (map (fun k => rmul (get (h1_sample o) 0 k)
                                             (get (W r) c k))
                              (seq 0 (n_hidden r))))
                   (vget (vbias r) c)),
           store_rng self r g),
       World (lru_insert (obj_id self, u) (v1_mean o) (cache w))
             (Run (obj_id self, u) :: events w)).
Proof.
  intros Efit Huser Ec Emiss.
  destruct (get_score_miss _ _ _ _ _ Efit Huser Ec Emiss)
    as (r & test_x & o & g & Er & Hwf & _ & Hc & Et & Eg & So & Es).
  exists r, test_x, o, g. split_all; try assumption.
  rewrite Es. do 3 f_equal.
  destruct (gibbs_vhv_inv _ _ _ Eg) as (g1 & _ & Ed & Em & _).
  destruct So as (Spre & _ & _ & _ & _ & Sh).
  destruct (propdown_formula Hwf Sh) as (pre & Ed' & Epre).
  rewrite Ed in Ed'. injection Ed' as Epre' _.
  rewrite Em, get_mmap.
  - rewrite Epre', Epre, get_tabulate by (assumption || lia). reflexivity.
  - destruct Spre as [Sn _]. rewrite Sn. lia.
  - destruct Spre as [_ Sm]. rewrite Sm. exact Hc.
Qed.

(** X8. A second score of the same user, for any item of the training
    data, reads the vector the first call stored: it runs no Gibbs
    step, draws nothing from the random stream, logs a hit, and returns
    the entry of the same mean-field vector. *)
Theorem get_score_second_call (self0 self : RBM_object R Rng)
        (training_data : list interaction) (out : list (output R))
        (u i j : string) (c c' : nat) (w : world R) :
  fit self0 training_data = Ok (self, out) ->
  In u (map user training_data) ->
  dict_find (enumerate_map (unique (map item training_data))) i = Some c ->
  dict_find (enumerate_map (unique (map item training_data))) j = Some c' ->
  cache_find (cache w) (obj_id self, u) = None ->
  exists v s self1 w1,
    get_score self u i w = (Ok (s, self1), w1) /\
    cache_find (cache w1) (obj_id self, u) = Some v /\
    get_score self1 u j w1
    = (Ok (get v 0 c', self1),
       World (lru_touch (obj_id self, u) v (cache w1))
             (Hit (obj_id self, u) :: Run (obj_id self, u) :: events w)).
Proof.
  intros Efit Huser Ec Ec' Emiss.
  destruct (get_score_miss _ _ _ _ _ Efit Huser Ec Emiss)
    as (r & test_x & o & g & Er & Hwf & Ei & Hc & Et & Eg & So & Es).
  destruct (get_score_miss _ _ _ _ _ Efit Huser Ec' Emiss)
    as (r' & _ & _ & _ & Er' & _ & _ & Hc' & _).
  rewrite Er in Er'. injection Er' as <-.
  eexists _, _, _, _. split; [exact Es |].
  cbn [cache events]. split; [apply cache_find_insert |].
  unfold get_score, store_rng. cbn [iid_map obj_id]. rewrite Ei.
  cbn [attr bind]. unfold dict_get. rewrite Ec'.
  unfold _get_user_predictions. cbn [obj_id cache events].
  rewrite cache_find_insert. unfold get_entry.
  destruct So as (_ & [Sn Sm] & _). rewrite Sn, Sm.
  rewrite (proj2 (Nat.ltb_lt _ _) Hc'). reflexivity.
Qed.

End Scores.

(** ** What [fit] leaves *)

Lemma foldM_preserves {A B : Type} (P : A -> Prop) (f : A -> B -> result A)
      (l : list B) :
  (forall a b a', f a b = Ok a' -> P a -> P a') ->
  forall a a', foldM f a l = Ok a' -> P a -> P a'.
Proof.
  intros Hf. induction l as [| b l IH]; intros a a' E Ha; simpl in E.
  - injection E as <-. exact Ha.
  - apply bind_ok_inv in E. destruct E as (a1 & E1 & E2).
    apply (IH a1 a' E2). exact (Hf a b a1 E1 Ha).
Qed.

Section FitLeaves.

Context {R : Type} {NumR : Numeric R} {Rng : Type} {Th : Theano R Rng}.

(** An update writes the parameters, the chain, the bit index and the
    stream; the numbers of units and the learning rate and epochs that
    the machine carries stay. *)
Lemma training_loop_keeps (e k : nat) (lr : Q) (X : matrix R) (bs : nat)
      (st st' : train_state R Rng) :
  training_loop e k lr X bs st = Ok st' ->
  learning_rate (ts_rbm st') = learning_rate (ts_rbm st) /\
  training_epochs (ts_rbm st') = training_epochs (ts_rbm st).
Proof.
  unfold training_loop. intros E.
  set (P := fun s : train_state R Rng =>
              learning_rate (ts_rbm s) = learning_rate (ts_rbm st) /\
              training_epochs (ts_rbm s) = training_epochs (ts_rbm st)).
  assert (HP : P st'); [| exact HP].
  eapply (@foldM_preserves _ _ P); [| exact E | split; reflexivity].
  intros a b a' Ea Pa.
  eapply (@foldM_preserves _ _ P); [| exact Ea | exact Pa].
  intros a1 i a2 Ei P1. unfold trainer in Ei.
  apply bind_ok_inv in Ei. destruct Ei as ([c u] & _ & Ei).
  injection Ei as <-. exact P1.
Qed.

(** X9. [fit] starts from nothing but [id(self)] and the attributes of
    the constructor: it gives the same object and prints the same lines
    whatever an earlier [fit] or score left in the object. *)
Theorem fit_forgets_earlier_fit (self : RBM_object R Rng)
        (training_data : list interaction) :
  fit self training_data
  = fit (mkObject (obj_id self) (base self) None None None None None)
        training_data.
Proof.
  unfold fit. destruct (_convert training_data) as [[[[X uids] iids] users] | e];
    reflexivity.
Qed.

(** X10. Training data of fewer than twenty users has no full
    minibatch: [fit] updates nothing, the machine it leaves is the one
    the constructor built for the items of the data, and each epoch
    prints the mean of no costs. *)
Theorem fit_fewer_than_twenty_users (self : RBM_object R Rng)
        (training_data : list interaction) :
  length (unique (map user training_data)) < 20 ->
  0 < n_hidden (base self) + length (unique (map item training_data)) ->
  exists X,
    _convert training_data
    = Ok (X, enumerate_map (unique (map user training_data)),
          enumerate_map (unique (map item training_data)),
          groupby_user training_data) /\
    fit self training_data
    = Ok (mkObject (obj_id self) (base self)
                   (Some (groupby_user training_data))
                   (Some (enumerate_map (unique (map user training_data))))
                   (Some (enumerate_map (unique (map item training_data))))
                   (Some X)
                   (Some (ts_rbm (initial_train_state
                                    (length (unique (map item training_data)))
                                    (n_hidden (base self)) 20))),
          map (fun n => EpochCost n (mean []))
              (seq 0 (Z.to_nat (training_epochs (base self))))
          ++ [TrainingTook]).
Proof.
  intros Hfew Hpos.
  destruct (_convert_ok (R := R) training_data) as (X & E & [Sn Sm]).
  exists X. split; [exact E |].
  unfold fit. rewrite E. cbn [bind].
  unfold train_rbm, train_rbm_state. cbn [base].
  assert (Hd : int_div (nrows X) 20 = Ok 0).
  { unfold int_div. simpl Nat.eqb. cbv iota. f_equal.
    apply Nat.div_small. rewrite Sn. exact Hfew. }
  rewrite Hd. cbn [bind]. rewrite Sm.
  rewrite __init___ok by exact Hpos. cbn [bind].
  rewrite train_epochs_no_batches. cbn [bind]. reflexivity.
Qed.

(** What [fit] stores beside the machine is what [_convert] returned. *)
Lemma fit_convert (self self' : RBM_object R Rng)
      (training_data : list interaction) (out : list (output R)) :
  fit self training_data = Ok (self', out) ->
  exists X,
    _convert training_data
    = Ok (X, enumerate_map (unique (map user training_data)),
          enumerate_map (unique (map item training_data)),
          groupby_user training_data) /\
    input self' = Some X /\
    user_data self' = Some (groupby_user training_data) /\
    uid_map self'
    = Some (enumerate_map (unique (map user training_data))) /\
    iid_map self'
    = Some (enumerate_map (unique (map item training_data))).
Proof.
  intros E. destruct (_convert_ok (R := R) training_data) as (X & Ec & _).
  exists X. split; [exact Ec |].
  unfold fit in E. rewrite Ec in E. cbn [bind] in E.
  apply bind_ok_inv in E. destruct E as ([r out0] & _ & E).
  injection E as <- _. cbn [input user_data uid_map iid_map].
  split_all; reflexivity.
Qed.

(** X11. What [fit] leaves in the object.  [self.input] is the matrix
    that [_convert] returns for the data, and [self.user_data],
    [self.uid_map] and [self.iid_map] are the maps it returns;
    [id(self)] and the attributes of the constructor are as before.  The
    machine in [self.rbm] has one visible unit for each distinct item of
    the data and the configured number of hidden units, parameters of
    these shapes, and the default learning rate and epochs of the
    constructor, since the configured ones are passed to the trainer and
    not to the machine. *)
Theorem fit_machine (self : RBM_object R Rng)
        (training_data : list interaction) :
  0 < n_hidden (base self) + length (unique (map item training_data)) ->
  exists self' out X r,
    fit self training_data = Ok (self', out) /\
    obj_id self' = obj_id self /\ base self' = base self /\
    _convert training_data
    = Ok (X, enumerate_map (unique (map user training_data)),
          enumerate_map (unique (map item training_data)),
          groupby_user training_data) /\
    input self' = Some X /\
    user_data self' = Some (groupby_user training_data) /\
    uid_map self'
    = Some (enumerate_map (unique (map user training_data))) /\
    iid_map self'
    = Some (enumerate_map (unique (map item training_data))) /\
    has_shape X (length (unique (map user training_data)))
              (length (unique (map item training_data))) /\
    rbm self' = Some r /\
    n_visible r = length (unique (map item training_data)) /\
    n_hidden r = n_hidden (base self) /\
    has_shape (W r) (n_visible r) (n_hidden r) /\
    length (hbias r) = n_hidden r /\
    length (vbias r) = n_visible r /\
    learning_rate r = default_learning_rate /\
    training_epochs r = default_training_epochs.
Proof.
  intros Hpos.
  destruct (fit_ok self training_data Hpos)
    as (X & st & out & E & [Sn Sm] & L & Hinv & _).
  destruct Hinv as ((HW & Hh & Hv) & Hnv & Hnh & _).
  destruct (training_loop_keeps _ _ _ _ _ _ L) as [Hlr Hep].
  destruct (fit_convert _ _ E) as (X' & Ec & EX & Eu & Eum & Eim).
  cbn [input] in EX. injection EX as <-.
  eexists _, _, X, (ts_rbm st). split; [exact E |].
  cbn [obj_id base input rbm user_data uid_map iid_map].
  split_all; try reflexivity; try assumption.
  - split; assumption.
  - rewrite Hnv. exact Sm.
Qed.

End FitLeaves.

(** ** The costs, entry by entry *)

Section CostEntries.

Context {R : Type} {NumR : Numeric R} {Rng : Type} {Th : Theano R Rng}.

Lemma vget_vmap2 (f : R -> R -> R) (u v w : list R) (i : nat) :
  vmap2 f u v = Ok w -> i < length u ->
  vget w i = f (vget u i) (vget v i).
Proof.
  unfold vmap2. destruct (length u =? length v); [| discriminate].
  intros E Hi. injection E as <-. rewrite vget_vtabulate by exact Hi.
  reflexivity.
Qed.

Lemma get_reconstruction_cost_entries (input pre : matrix R) (n m : nat) :
  has_shape input n m -> has_shape pre n m ->
  get_reconstruction_cost input pre
  = Ok (mean (vtabulate n (fun a =>
          rsum (map (fun b =>
                       radd (rmul (get input a b)
                                  (rlog (rsigmoid (get pre a b))))
                            (rmul (rsub rone (get input a b))
                                  (rlog (rsub rone
                                               (rsigmoid (get pre a b))))))
                    (seq 0 m))))).
Proof.
  intros Hin Hpre. unfold get_reconstruction_cost.
  destruct (mmap2_ok rmul Hin (mmap_shape (fun x => rlog (rsigmoid x)) Hpre))
    as (A & EA & SA).
  destruct (mmap2_ok rmul (mmap_shape (fun x => rsub rone x) Hin)
                     (mmap_shape (fun x => rlog (rsub rone (rsigmoid x)))
                                 Hpre))
    as (B & EB & SB).
  destruct (mmap2_ok radd SA SB) as (S & ES & SS).
  rewrite EA. cbn [bind]. rewrite EB. cbn [bind]. rewrite ES. cbn [bind].
  do 2 f_equal. unfold sum_axis1.
  destruct Hin as [In Im]. destruct Hpre as [Pn Pm].
  destruct SA as [An Am]. destruct SS as [Sn Sm].
  pose proof (mmap_shape (fun x => rsub rone x) (conj In Im)) as [Cn Cm].
  rewrite Sn, Sm. apply vtabulate_ext. intros a Ha. apply rsum_ext.
  intros b Hb.
  rewrite (get_mmap2 _ _ _ ES) by lia.
  rewrite (get_mmap2 _ _ _ EA) by lia.
  rewrite (get_mmap2 _ _ _ EB) by lia.
  rewrite !get_mmap by lia. reflexivity.
Qed.

(** X12. The free energy of each row v of a batch, as the code computes
    it: minus the sum over the hidden units j of log(1 + exp(v.W_j +
    hbias_j)), minus v.vbias.  On a machine and a batch of matching
    shapes no operation raises. *)
Theorem free_energy_formula (self : RBM R Rng) (v : matrix R) (n : nat) :
  wf_rbm self -> has_shape v n (n_visible self) ->
  free_energy self v
  = Ok (vtabulate n (fun a =>
          rsub (rneg (rsum (map (fun j =>
                  rlog (radd rone
                         (rexp (radd (rsum (map (fun k =>
                                               rmul (get v a k)
                                                    (get (W self) k j))
                                            (seq 0 (n_visible self))))
                                     (vget (hbias self) j)))))
                  (seq 0 (n_hidden self)))))
               (rsum (map (fun k => rmul (get v a k) (vget (vbias self) k))
                          (seq 0 (n_visible self)))))).
Proof.
  intros (HW & Hh & Hv) Hvis. unfold free_energy.
  destruct (affine_ok _ Hvis HW Hh) as (D & E1 & E2).
  rewrite E1. cbn [bind]. rewrite E2. cbn [bind].
  match goal with |- context [mmap ?f ?M] => set (L := mmap f M) end.
  assert (HL : has_shape L n (n_hidden self)).
  { apply mmap_shape. apply tabulate_shape. }
  destruct Hvis as [Vn Vm]. destruct HL as [Ln Lm].
  unfold dot_vec. rewrite Vm, Hv, Nat.eqb_refl. cbn [bind].
  unfold vmap2.
  rewrite length_map, sum_axis1_length, length_vtabulate, Ln, Vn, Nat.eqb_refl.
  f_equal. apply vtabulate_ext. intros a Ha.
  rewrite vget_map by (rewrite sum_axis1_length; lia).
  rewrite vget_vtabulate by lia. f_equal. f_equal.
  unfold sum_axis1. rewrite vget_vtabulate by lia. rewrite Lm.
  apply rsum_ext. intros j Hj. subst L.
  rewrite get_mmap.
  - rewrite get_tabulate by assumption. reflexivity.
  - pose proof (tabulate_shape n (n_hidden self)
                  (fun i j0 =>
                     radd (rsum (map (fun q => rmul (get v i q)
                                                    (get (W self) q j0))
                                     (seq 0 (n_visible self))))
                          (vget (hbias self) j0))) as [Tn _].
    rewrite Tn. exact Ha.
  - exact Hj.
Qed.

End CostEntries.

(** ** One update, entry by entry *)

Section UpdateEntries.

Context {R : Type} {NumR : Numeric R} {Rng : Type} {Th : Theano R Rng}.

(** X13. Without a persistent chain (plain CD) the cost
    [get_cost_updates] returns is the reconstruction cross-entropy of
    the input against the last visible pre-activation of the chain: the
    mean over the rows of the sum over the columns of
    x log(sigmoid(p)) + (1 - x) log(1 - sigmoid(p)); and the updates
    name neither a persistent chain nor the bit index. *)
Theorem reconstruction_monitoring_cost (self : RBM R Rng) (input : matrix R)
        (lr : Q) (k bit : nat) (g : Rng) (n : nat) :
  wf_rbm self ->
  has_shape input n (n_visible self) ->
  0 < k ->
  exists cost u pre_ph ph_sample g1 chain g2 last,
    get_cost_updates self input lr None k bit g = Ok (cost, u) /\
    sample_h_given_v self input g
    = Ok (pre_ph, mmap rsigmoid pre_ph, ph_sample, g1) /\
    scan (gibbs_hvh self) ph_sample k g1 = Ok (chain, g2) /\
    last_of chain = Ok last /\
    cost
    = mean (vtabulate n (fun a =>
        rsum (map (fun b =>
                     radd (rmul (get input a b)
                                (rlog (rsigmoid
                                         (get (pre_sigmoid_v1 last) a b))))
                          (rmul (rsub rone (get input a b))
                                (rlog (rsub rone
                                         (rsigmoid
                                            (get (pre_sigmoid_v1 last)
                                                 a b))))))
                  (seq 0 (n_visible self))))) /\
    upd_persistent u = None /\
    upd_bit_i_idx u = None.
Proof.
  intros Hwf Hin Hk.
  assert (Hpers : forall p : matrix R,
             None = Some p ->
             has_shape p n (n_hidden self) /\ bit < n_visible self)
    by discriminate.
  destruct (get_cost_updates_parts lr g Hwf Hin Hpers Hk)
    as (cost & u & pre & ph & g1 & chain & g2 & last & E & Es & Ec & El & Sl
        & _ & _ & _ & _ & Ep & Hcd).
  destruct (Hcd eq_refl) as (Erc & Eb).
  rewrite (get_reconstruction_cost_entries Hin (proj1 Sl)) in Erc.
  injection Erc as <-.
  eexists _, u, pre, ph, g1, chain, g2, last.
  split_all; try reflexivity; assumption.
Qed.

(** X14. The update rule of [get_cost_updates], in either mode: each
    entry of the new W, hbias and vbias is the old entry minus the
    learning rate times the entry of the gradient of the CD cost, the
    cost taken with the last visible sample of the chain held constant;
    the shapes stay.  The chain runs on the stream after the draw of the
    positive phase when there is no persistent state, and on the stream
    as the call found it when there is one. *)
Theorem get_cost_updates_rule (self : RBM R Rng) (input : matrix R) (lr : Q)
        (persistent : option (matrix R)) (k bit : nat) (g : Rng) (n : nat) :
  wf_rbm self ->
  has_shape input n (n_visible self) ->
  (forall p, persistent = Some p ->
             has_shape p n (n_hidden self) /\ bit < n_visible self) ->
  0 < k ->
  exists cost u pre_ph ph_sample g1 chain g2 last,
    get_cost_updates self input lr persistent k bit g = Ok (cost, u) /\
    sample_h_given_v self input g
    = Ok (pre_ph, mmap rsigmoid pre_ph, ph_sample, g1) /\
    scan (gibbs_hvh self)
         (match persistent with
          | None => ph_sample
          | Some p => p
          end) k
         (match persistent with
          | None => g1
          | Some _ => g
          end) = Ok (chain, g2) /\
    last_of chain = Ok last /\
    has_shape (upd_W u) (n_visible self) (n_hidden self) /\
    length (upd_hbias u) = n_hidden self /\
    length (upd_vbias u) = n_visible self /\
    (forall i j, i < n_visible self -> j < n_hidden self ->
       get (upd_W u) i j
       = rsub (get (W self) i j)
              (rmul (get (p_W (T_grad (cd_cost self input (v1_sample last))
                                      (rbm_params self))) i j)
                    (rconst lr))) /\
    (forall j, j < n_hidden self ->
       vget (upd_hbias u) j
       = rsub (vget (hbias self) j)
              (rmul (vget (p_hbias (T_grad (cd_cost self input
                                                    (v1_sample last))
                                           (rbm_params self))) j)
                    (rconst lr))) /\
    (forall i, i < n_visible self ->
       vget (upd_vbias u) i
       = rsub (vget (vbias self) i)
              (rmul (vget (p_vbias (T_grad (cd_cost self input
                                                    (v1_sample last))
                                           (rbm_params self))) i)
                    (rconst lr))).
Proof.
  intros Hwf Hin Hpers Hk.
  destruct (get_cost_updates_parts lr g Hwf Hin Hpers Hk)
    as (cost & u & pre & ph & g1 & chain & g2 & last & E & Es & Ec & El & _
        & EW & Eh & Ev & _).
  exists cost, u, pre, ph, g1, chain, g2, last.
  pose proof (T_grad_shape (cd_cost self input (v1_sample last))
                           (rbm_params self)) as Hg.
  unfold params_shape in Hg. cbn [rbm_params p_W p_hbias p_vbias] in Hg.
  injection Hg as Hg1 Hg2 Hg3 Hg4.
  destruct Hwf as ([Wn Wm] & Hh & Hv).
  split_all; try assumption.
  - unfold mmap2 in EW.
    destruct ((nrows (W self) =? nrows _) && (ncols (W self) =? ncols _));
      [| discriminate].
    injection EW as <-. rewrite <- Wn, <- Wm. apply tabulate_shape.
  - unfold vmap2 in Eh. destruct (length (hbias self) =? _); [| discriminate].
    injection Eh as <-. rewrite length_vtabulate. exact Hh.
  - unfold vmap2 in Ev. destruct (length (vbias self) =? _); [| discriminate].
    injection Ev as <-. rewrite length_vtabulate. exact Hv.
  - intros i j Hi Hj. rewrite (get_mmap2 _ _ _ EW) by lia.
    rewrite get_mmap by lia. reflexivity.
  - intros j Hj. rewrite (vget_vmap2 _ _ _ Eh) by lia.
    rewrite vget_map by lia. reflexivity.
  - intros i Hi. rewrite (vget_vmap2 _ _ _ Ev) by lia.
    rewrite vget_map by lia. reflexivity.
Qed.

(** X15. Theano's scan does not implement a run of no step: with k = 0
    one run of the compiled function raises NotImplementedError, in
    either mode, on the operands on which every k > 0 returns.  Building
    the graph raises nothing: with [training_epochs] = 0 [fit] builds it
    with k = 0, runs no epoch, and returns the machine as the
    constructor made it, having printed the line of the elapsed time
    only. *)
Theorem get_cost_updates_zero_steps (self : RBM R Rng) (input : matrix R)
        (lr : Q) (persistent : option (matrix R)) (bit : nat) (g : Rng)
        (n : nat) :
  wf_rbm self ->
  has_shape input n (n_visible self) ->
  (forall p, persistent = Some p ->
             has_shape p n (n_hidden self) /\ bit < n_visible self) ->
  get_cost_updates self input lr persistent 0 bit g
  = Raise NotImplementedError /\
  forall (obj : RBM_object R Rng) (training_data : list interaction),
    training_epochs (base obj) = 0%Z ->
    0 < n_hidden (base obj) + length (unique (map item training_data)) ->
    exists X,
      _convert training_data
      = Ok (X, enumerate_map (unique (map user training_data)),
            enumerate_map (unique (map item training_data)),
            groupby_user training_data) /\
      fit obj training_data
      = Ok (mkObject (obj_id obj) (base obj)
                     (Some (groupby_user training_data))
                     (Some (enumerate_map (unique (map user training_data))))
                     (Some (enumerate_map (unique (map item training_data))))
                     (Some X)
                     (Some (ts_rbm (initial_train_state
                                      (length (unique
                                                 (map item training_data)))
                                      (n_hidden (base obj)) 20))),
            [TrainingTook]).
Proof.
  intros Hwf Hin Hpers. split.
  - unfold get_cost_updates. destruct persistent as [p |].
    + reflexivity.
    + destruct (sample_h_given_v_ok g Hwf Hin)
        as (pre & ph & g1 & E1 & _).
      rewrite E1. reflexivity.
  - intros obj training_data Hep Hpos.
    destruct (_convert_ok (R := R) training_data) as (X & E & [Sn Sm]).
    exists X. split; [exact E |].
    unfold fit. rewrite E. cbn [bind].
    unfold train_rbm, train_rbm_state. cbn [base].
    unfold int_div. simpl Nat.eqb. cbv iota. cbn [bind]. rewrite Sm.
    rewrite __init___ok by exact Hpos. cbn [bind].
    rewrite Hep. reflexivity.
Qed.

End UpdateEntries.

(** ** The constructor, and what training reads *)

Section Construction.

Context {R : Type} {NumR : Numeric R} {Rng : Type} {Th : Theano R Rng}.

(** X16. The constructor without given parameters: no [n_visible] is 0
    visible units and no [numpy_rng] is a new generator of seed 1234;
    with no unit at all the bound of the initial weights divides by
    zero; otherwise the machine has zero biases of the two lengths, the
    learning rate and epochs it was given, and W of [n_visible] by
    [n_hidden] entries drawn from the generator: after the one [randint]
    that seeds the stream when no [theano_rng] is given, and in the
    state the caller left the generator in when one is given.  So a new
    generator with no stream, and a generator that has seeded the given
    stream, make the same machine.  A given W is taken as it is and
    nothing divides. *)
Theorem __init___machine (nh : nat) (lr : Q) (ep : Z)
        (gen : option RandomState) (stream : option Rng) :
  __init__ None nh lr ep None None None gen stream
  = __init__ (Some 0) nh lr ep None None None gen stream /\
  (forall n W0 hb vb,
     __init__ n nh lr ep W0 hb vb None stream
     = __init__ n nh lr ep W0 hb vb (Some (numpy_RandomState 1234%Z))
                stream) /\
  (forall n, nh + n = 0 ->
             __init__ (Some n) nh lr ep None None None gen stream
             = Raise ZeroDivisionError) /\
  (forall n gen0, 0 < nh + n ->
     gen = Some gen0 ->
     exists r,
       __init__ (Some n) nh lr ep None None None gen stream
       = Ok r /\
       wf_rbm r /\
       n_visible r = n /\ n_hidden r = nh /\
       learning_rate r = lr /\ training_epochs r = ep /\
       (forall j, j < nh -> vget (hbias r) j = rzero) /\
       (forall i, i < n -> vget (vbias r) i = rzero) /\
       theano_rng r
       = match stream with
         | None => randint_streams gen0
         | Some g => g
         end /\
       (forall i j, i < n -> j < nh ->
          get (W r) i j
          = numpy_uniform (match stream with
                           | None => after_randint gen0
                           | Some _ => gen0
                           end) n nh i j)) /\
  (forall n seed, 0 < nh + n ->
     __init__ (Some n) nh lr ep None None None
              (Some (numpy_RandomState seed)) None
     = Ok (mkRBM n nh lr ep (tabulate n nh (uniform seed n nh))
                 (vzeros nh) (vzeros n) (RandomStreams seed)) /\
     __init__ (Some n) nh lr ep None None None
              (Some (after_randint (numpy_RandomState seed)))
              (Some (RandomStreams seed))
     = Ok (mkRBM n nh lr ep (tabulate n nh (uniform seed n nh))
                 (vzeros nh) (vzeros n) (RandomStreams seed))) /\
  (forall n W0 hb vb,
     exists r,
       __init__ (Some n) nh lr ep (Some W0) hb vb gen stream
       = Ok r /\
       W r = W0).
Proof.
  split_all.
  - reflexivity.
  - reflexivity.
  - intros n Hz. unfold __init__. destruct stream; rewrite Hz; reflexivity.
  - intros n gen0 Hpos ->. unfold __init__.
    destruct (Nat.eqb_spec (nh + n) 0) as [Hz | _]; [lia |].
    destruct stream as [g |]; cbn [bind];
      (eexists; split; [reflexivity |]);
      unfold wf_rbm;
      cbn [n_visible n_hidden learning_rate training_epochs W hbias vbias
           theano_rng];
      split_all; try reflexivity;
      try apply tabulate_shape; try apply length_vtabulate;
      try (intros j Hj; unfold vzeros; rewrite vget_vtabulate by exact Hj;
           reflexivity);
      intros i j Hi Hj; rewrite get_tabulate by assumption; reflexivity.
  - intros n seed Hpos. unfold __init__.
    destruct (Nat.eqb_spec (nh + n) 0) as [Hz | _]; [lia |].
    split; reflexivity.
  - intros n W0 hb vb. unfold __init__.
    destruct stream; cbn [bind]; eexists; split; reflexivity.
Qed.

(** X17. Of the object, training reads [n_hidden], [learning_rate] and
    [training_epochs] and nothing else: the seed of the generators is
    the constant 123, so two objects that agree on the three train to
    the same machine and print the same lines on the same matrix. *)
Theorem train_rbm_reads (a b : RBM_object R Rng) (X : matrix R) (bs : nat) :
  n_hidden (base a) = n_hidden (base b) ->
  learning_rate (base a) = learning_rate (base b) ->
  training_epochs (base a) = training_epochs (base b) ->
  train_rbm a X bs = train_rbm b X bs.
Proof.
  intros Hn Hl He. unfold train_rbm, train_rbm_state.
  rewrite Hn, Hl, He. reflexivity.
Qed.

End Construction.

(** ** The cache and the other keys *)

Lemma cache_find_remove_other {V : Type} (key key' : lru_key)
      (c : list (lru_key * V)) :
  key' <> key -> cache_find (cache_remove key c) key' = cache_find c key'.
Proof.
  intros Hne. unfold cache_remove.
  induction c as [| [k v] c IH]; [reflexivity |]. simpl.
  destruct (key_eqb k key) eqn:Ek; simpl.
  - apply key_eqb_eq in Ek. subst k.
    assert (En : key_eqb key key' = false)
      by (apply key_eqb_neq; congruence).
    rewrite En. exact IH.
  - destruct (key_eqb k key'); [reflexivity | exact IH].
Qed.

Lemma cache_find_removelast {V : Type} (c : list (lru_key * V))
      (key : lru_key) (v : V) :
  cache_find (removelast c) key = Some v -> cache_find c key = Some v.
Proof.
  induction c as [| [k x] c IH]; [discriminate |].
  destruct c as [| e c']; [discriminate |].
  change (removelast ((k, x) :: e :: c'))
    with ((k, x) :: removelast (e :: c')).
  cbn [cache_find]. destruct (key_eqb k key); [auto | exact IH].
Qed.

Section OtherKeys.

Context {R : Type} {NumR : Numeric R} {Rng : Type} {Th : Theano R Rng}.

(** X18. A call of [get_score] for one object and user, whatever it
    returns or raises, never changes the vector cached under another
    key: a vector found there afterwards was there before; and while
    the cache holds fewer than 1000 vectors nothing is dropped, every
    other key finds what it found before. *)
Theorem get_score_other_keys (self : RBM_object R Rng) (u i : string)
        (w : world R) (key' : lru_key) :
  key' <> (obj_id self, u) ->
  (forall v,
      cache_find (cache (snd (get_score self u i w))) key' = Some v ->
      cache_find (cache w) key' = Some v) /\
  (length (cache w) < maxsize ->
   cache_find (cache (snd (get_score self u i w))) key'
   = cache_find (cache w) key').
Proof.
  intros Hne.
  assert (Hk : key_eqb (obj_id self, u) key' = false)
    by (apply key_eqb_neq; congruence).
  unfold get_score.
  destruct (m <- attr (iid_map self) ;; dict_get m i) as [iid | e];
    [| split; auto].
  unfold _get_user_predictions.
  destruct (cache_find (cache w) (obj_id self, u)) as [v0 |].
  - cbn [snd cache]. unfold lru_touch. cbn [cache_find]. rewrite Hk.
    rewrite (cache_find_remove_other _ Hne). split; auto.
  - destruct (test_x <- test_user self u ;; r <- attr (rbm self) ;;
              Ok (test_x, r)) as [[test_x r] | e]; [| split; auto].
    destruct (gibbs_vhv r test_x (theano_rng r)) as [[o g] | e];
      [| split; auto].
    cbn [snd cache]. unfold lru_insert. cbn [cache_find]. rewrite Hk.
    split.
    + intros v. destruct (maxsize <=? length (cache w)); [| auto].
      apply cache_find_removelast.
    + intros Hlt. rewrite (proj2 (Nat.leb_gt _ _) Hlt). reflexivity.
Qed.

End OtherKeys.

(** ** The cache across calls and fits *)

Section CacheCalls.

Context {R : Type} {NumR : Numeric R} {Rng : Type} {Th : Theano R Rng}.

(** What a call of [get_score] that returns has done. *)
Lemma get_score_returns (self self1 : RBM_object R Rng) (u i : string)
      (w w1 : world R) (s : R) :
  get_score self u i w = (Ok (s, self1), w1) ->
  exists v c,
    (m <- attr (iid_map self) ;; dict_get m i) = Ok c /\
    get_entry v 0 c = Ok s /\
    cache_find (cache w1) (obj_id self, u) = Some v /\
    ((cache_find (cache w) (obj_id self, u) = Some v /\
      self1 = self /\
      w1 = World (lru_touch (obj_id self, u) v (cache w))
                 (Hit (obj_id self, u) :: events w)) \/
     (cache_find (cache w) (obj_id self, u) = None /\
      exists r test_x o g,
        rbm self = Some r /\
        test_user self u = Ok test_x /\
        gibbs_vhv r test_x (theano_rng r) = Ok (o, g) /\
        v = v1_mean o /\
        self1 = store_rng self r g /\
        w1 = World (lru_insert (obj_id self, u) (v1_mean o) (cache w))
                   (Run (obj_id self, u) :: events w))).
Proof.
  unfold get_score. intros E.
  destruct (m <- attr (iid_map self) ;; dict_get m i) as [c | e];
    [| discriminate].
  unfold _get_user_predictions in E.
  destruct (cache_find (cache w) (obj_id self, u)) as [v |] eqn:Ec.
  - destruct (get_entry v 0 c) as [x |] eqn:Ex; [| discriminate].
    cbn [bind] in E. injection E as <- <- <-.
    exists v, c. split_all; try reflexivity; try exact Ex.
    + apply cache_find_touch.
    + left. split_all; reflexivity.
  - destruct (test_x <- test_user self u ;; r <- attr (rbm self) ;;
              Ok (test_x, r)) as [[test_x r] | e] eqn:Et; [| discriminate].
    apply bind_ok_inv in Et. destruct Et as (tx & Etx & Et).
    apply bind_ok_inv in Et. destruct Et as (r' & Er & Et).
    injection Et as -> ->.
    destruct (gibbs_vhv r test_x (theano_rng r)) as [[o g] | e] eqn:Eg;
      [| discriminate].
    destruct (get_entry (v1_mean o) 0 c) as [x |] eqn:Ex; [| discriminate].
    cbn [bind] in E. injection E as <- <- <-.
    assert (Er' : rbm self = Some r).
    { destruct (rbm self) as [r0 |]; [| discriminate].
      injection Er as ->. reflexivity. }
    exists (v1_mean o), c. split_all; try reflexivity; try exact Ex.
    + apply cache_find_insert.
    + right. split; [reflexivity |].
      exists r, test_x, o, g. split_all; reflexivity || assumption.
Qed.

(** The object a call returns is a fitted object as the one it got. *)
Lemma get_score_consistent (self self1 : RBM_object R Rng) (u i : string)
      (w w1 : world R) (s : R) :
  consistent self ->
  get_score self u i w = (Ok (s, self1), w1) ->
  consistent self1.
Proof.
  intros Hcons E. apply get_score_returns in E.
  destruct E as (v & c & _ & _ & _ & [(_ & -> & _) | (_ & Hrun)]);
    [exact Hcons |].
  destruct Hrun as (r & test_x & o & g & Er & _ & _ & _ & -> & _).
  destruct Hcons as (data & iids & r0 & Ed & Ei & Er0 & Hwf & Hnv & Hcols).
  rewrite Er in Er0. injection Er0 as <-.
  exists data, iids, (with_rng r g). unfold store_rng.
  cbn [user_data iid_map rbm]. split_all; try assumption; reflexivity.
Qed.

(** A call for a cached key is served from the cache. *)
Lemma get_score_hit (self : RBM_object R Rng) (u i : string) (w : world R)
      (v : matrix R) (c : nat) :
  cache_find (cache w) (obj_id self, u) = Some v ->
  (m <- attr (iid_map self) ;; dict_get m i) = Ok c ->
  get_score self u i w
  = (x <- get_entry v 0 c ;; Ok (x, self),
     World (lru_touch (obj_id self, u) v (cache w))
           (Hit (obj_id self, u) :: events w)).
Proof.
  intros Ec Ei. unfold get_score, _get_user_predictions.
  rewrite Ei, Ec. reflexivity.
Qed.

(** While the cache has room a call drops nothing and changes no vector. *)
Lemma get_score_keeps_entry (self : RBM_object R Rng) (u i : string)
      (w : world R) (key : lru_key) (v : matrix R) :
  length (cache w) < maxsize ->
  cache_find (cache w) key = Some v ->
  cache_find (cache (snd (get_score self u i w))) key = Some v.
Proof.
  intros Hlt Ev. unfold get_score.
  destruct (m <- attr (iid_map self) ;; dict_get m i) as [iid | e];
    [| exact Ev].
  unfold _get_user_predictions.
  destruct (cache_find (cache w) (obj_id self, u)) as [v0 |] eqn:E0.
  - cbn [snd cache].
    destruct (key_eqb (obj_id self, u) key) eqn:Ek.
    + apply key_eqb_eq in Ek. subst key.
      rewrite cache_find_touch. congruence.
    + unfold lru_touch. cbn [cache_find]. rewrite Ek.
      rewrite cache_find_remove_other; [exact Ev |].
      apply key_eqb_neq in Ek. congruence.
  - destruct (test_x <- test_user self u ;; r <- attr (rbm self) ;;
              Ok (test_x, r)) as [[test_x r] | e]; [| exact Ev].
    destruct (gibbs_vhv r test_x (theano_rng r)) as [[o g] | e];
      [| exact Ev].
    cbn [snd cache]. unfold lru_insert. cbn [cache_find].
    rewrite (proj2 (Nat.leb_gt _ _) Hlt).
    destruct (key_eqb (obj_id self, u) key) eqn:Ek; [| exact Ev].
    apply key_eqb_eq in Ek. subst key. congruence.
Qed.

Lemma get_score_keeps_other (self : RBM_object R Rng) (u i : string)
      (w : world R) (key' : lru_key) :
  key' <> (obj_id self, u) ->
  length (cache w) < maxsize ->
  cache_find (cache (snd (get_score self u i w))) key'
  = cache_find (cache w) key'.
Proof.
  intros Hne Hlt.
  assert (Hk : key_eqb (obj_id self, u) key' = false)
    by (apply key_eqb_neq; congruence).
  unfold get_score.
  destruct (m <- attr (iid_map self) ;; dict_get m i) as [iid | e];
    [| reflexivity].
  unfold _get_user_predictions.
  destruct (cache_find (cache w) (obj_id self, u)) as [v0 |].
  - cbn [snd cache]. unfold lru_touch. cbn [cache_find]. rewrite Hk.
    apply cache_find_remove_other. exact Hne.
  - destruct (test_x <- test_user self u ;; r <- attr (rbm self) ;;
              Ok (test_x, r)) as [[test_x r] | e]; [| reflexivity].
    destruct (gibbs_vhv r test_x (theano_rng r)) as [[o g] | e];
      [| reflexivity].
    cbn [snd cache]. unfold lru_insert. cbn [cache_find]. rewrite Hk.
    rewrite (proj2 (Nat.leb_gt _ _) Hlt). reflexivity.
Qed.

Lemma later_keeps_entry (w w' : world R) (key : lru_key) (v : matrix R) :
  later w w' ->
  cache_find (cache w) key = Some v ->
  cache_find (cache w') key = Some v.
Proof.
  intros Hl Ev. induction Hl as [| self u i w' Hl IH Hlt]; [exact Ev |].
  apply get_score_keeps_entry; assumption.
Qed.

(** C6.  In every state of the cache that calls of [get_score] on fitted
    objects lead to, with any users and items in any order.  The cache
    holds at most 1000 vectors and its keys are the 1000 most recently
    used ones, most recent first; while it holds fewer than 1000 the log
    has at most one run for each object and user.  A call that returns
    either found the vector of its key in the cache, and then returns
    the object as it was, with no Gibbs step and no draw, or found none,
    and then has run [gibbs_vhv] once and stored its mean-field vector
    under the key; a vector stored in a full cache takes the place of
    the last, least recently used, key.  A vector that is in the cache
    stays there through all further calls made while the cache holds
    fewer than 1000 vectors, and every call for its key is then served
    from it: the score is an entry of that vector, the object comes back
    unchanged, and the log gets a hit. *)
Theorem one_gibbs_run_per_cached_user (w : world R) :
  reachable w ->
  length (cache w) <= maxsize /\
  map fst (cache w) = firstn maxsize (recency (events w)) /\
  (length (cache w) < maxsize ->
   forall (self : RBM_object R Rng) (u : string),
     count_runs (obj_id self, u) (events w) <= 1) /\
  (forall (self self1 : RBM_object R Rng) u i s w1,
      get_score self u i w = (Ok (s, self1), w1) ->
      exists v c,
        (m <- attr (iid_map self) ;; dict_get m i) = Ok c /\
        get_entry v 0 c = Ok s /\
        cache_find (cache w1) (obj_id self, u) = Some v /\
        ((cache_find (cache w) (obj_id self, u) = Some v /\
          self1 = self /\
          w1 = World (lru_touch (obj_id self, u) v (cache w))
                     (Hit (obj_id self, u) :: events w)) \/
         (cache_find (cache w) (obj_id self, u) = None /\
          (exists r test_x o g,
              rbm self = Some r /\
              test_user self u = Ok test_x /\
              gibbs_vhv r test_x (theano_rng r) = Ok (o, g) /\
              v = v1_mean o /\
              self1 = store_rng self r g /\
              w1 = World (lru_insert (obj_id self, u) (v1_mean o) (cache w))
                         (Run (obj_id self, u) :: events w)) /\
          map fst (cache w1)
          = (obj_id self, u)
              :: (if maxsize <=? length (cache w)
                  then removelast (map fst (cache w))
                  else map fst (cache w))))) /\
  (forall w' key v,
      cache_find (cache w) key = Some v ->
      later w w' ->
      cache_find (cache w') key = Some v /\
      forall (self : RBM_object R Rng) u i c,
        key = (obj_id self, u) ->
        (m <- attr (iid_map self) ;; dict_get m i) = Ok c ->
        get_score self u i w'
        = (x <- get_entry v 0 c ;; Ok (x, self),
           World (lru_touch key v (cache w'))
                 (Hit key :: events w'))).
Proof.
  intros Hreach.
  destruct (cache_invariant Hreach) as (Hlen & Hkeys & Hruns).
  split_all; try assumption.
  - intros self self1 u i s w1 E.
    apply get_score_returns in E.
    destruct E as (v & c & Ei & Ex & Ev & [Hhit | (Ec & Hrun)]).
    + exists v, c. split_all; try assumption. left. exact Hhit.
    + exists v, c. split_all; try assumption. right.
      split; [exact Ec |]. split; [exact Hrun |].
      destruct Hrun as (r & test_x & o & g & _ & _ & _ & _ & _ & ->).
      cbn [cache]. unfold lru_insert. cbn [map fst].
      destruct (maxsize <=? length (cache w));
        [rewrite map_removelast |]; reflexivity.
  - intros w' key v Ev Hl.
    pose proof (@later_keeps_entry w w' key v Hl Ev) as Ev'.
    split; [exact Ev' |].
    intros self u i c -> Ei. apply get_score_hit; assumption.
Qed.

(** C8, as the code has it.  The key of the cache is the pair of the
    object and the user; [fit] keeps the identity of the object and does
    not touch the cache.  Once a score of a user has been returned the
    vector it came from is cached.  After a refit of the same object a
    score of that user, in every state of the cache that still has the
    entry, is an entry of that vector, found by a hit, with no new Gibbs
    step and whatever the new parameters are; and the entry is still
    there after all further calls made while the cache holds fewer than
    1000 vectors.  The call made no entry for any other key, so none for
    another object and the same user.  A fitted object whose key has no
    entry, because it is another object or because the entry was
    dropped, gets a vector computed by one Gibbs step from the
    parameters its last [fit] left. *)
Theorem cache_survives_refit
        (m1 m1' m2 : RBM_object R Rng) (u item1 : string) (w w1 : world R)
        (s1 : R) (training_data : list interaction) (out : list (output R)) :
  get_score m1 u item1 w = (Ok (s1, m1'), w1) ->
  fit m1' training_data = Ok (m2, out) ->
  obj_id m2 = obj_id m1 /\
  exists v,
    cache_find (cache w1) (obj_id m1, u) = Some v /\
    (forall w2 item2 c,
        cache_find (cache w2) (obj_id m1, u) = Some v ->
        dict_find (enumerate_map (unique (map item training_data))) item2
        = Some c ->
        get_score m2 u item2 w2
        = (x <- get_entry v 0 c ;; Ok (x, m2),
           World (lru_touch (obj_id m1, u) v (cache w2))
                 (Hit (obj_id m1, u) :: events w2))) /\
    (forall w2, later w1 w2 ->
                cache_find (cache w2) (obj_id m1, u) = Some v) /\
    (forall key',
        key' <> (obj_id m1, u) -> length (cache w) < maxsize ->
        cache_find (cache w1) key' = cache_find (cache w) key') /\
    (forall (m0 m : RBM_object R Rng) (data : list interaction)
            (out' : list (output R)) (u' i : string) (c : nat)
            (w2 : world R),
        fit m0 data = Ok (m, out') ->
        In u' (map user data) ->
        dict_find (enumerate_map (unique (map item data))) i = Some c ->
        cache_find (cache w2) (obj_id m, u') = None ->
        exists r test_x o g,
          rbm m = Some r /\
          test_user m u' = Ok test_x /\
          gibbs_vhv r test_x (theano_rng r) = Ok (o, g) /\
          get_score m u' i w2
          = (Ok (get (v1_mean o) 0 c, store_rng m r g),
             World (lru_insert (obj_id m, u') (v1_mean o) (cache w2))
                   (Run (obj_id m, u') :: events w2))).
Proof.
  intros Es Efit.
  pose proof Es as Es'. apply get_score_returns in Es'.
  destruct Es' as (v & c1 & _ & _ & Ev & Hcase).
  assert (Hid : obj_id m1' = obj_id m1).
  { destruct Hcase as [(_ & -> & _) | (_ & r & tx & o & g & _ & _ & _ & _
                                         & -> & _)]; reflexivity. }
  destruct (fit_inv _ _ Efit) as (X & r & Em2 & _ & _).
  assert (Hid2 : obj_id m2 = obj_id m1) by (rewrite Em2; exact Hid).
  split; [exact Hid2 |]. exists v. split_all.
  - exact Ev.
  - intros w2 item2 c Ev2 Ec. rewrite <- Hid2 in *.
    apply get_score_hit; [exact Ev2 |].
    rewrite Em2. cbn [iid_map attr bind]. unfold dict_get. rewrite Ec.
    reflexivity.
  - intros w2 Hl. exact (@later_keeps_entry w1 w2 _ v Hl Ev).
  - intros key' Hne Hlt.
    pose proof (@get_score_keeps_other m1 u item1 w key' Hne Hlt) as Hk.
    rewrite Es in Hk. exact Hk.
  - intros m0 m data out' u' i c w2 Ef Hu Ec Emiss.
    destruct (@get_score_miss _ _ _ _ m0 m data out' u' i c w2 Ef Hu Ec Emiss)
      as (r' & test_x & o & g & Er & _ & _ & _ & Et & Eg & _ & Eget).
    exists r', test_x, o, g. split_all; assumption.
Qed.

End CacheCalls.

(** ** One step of the chain, and the lines of training *)

Section ChainStep.

Context {R : Type} {NumR : Numeric R} {Rng : Type} {Th : Theano R Rng}.

(** X19. One [gibbs_hvh] step from a hidden state, written out: the
    visible pre-activation is h.W^T + vbias, the visible mean its
    sigmoid, the visible sample one draw per entry with that mean; the
    hidden pre-activation is the visible sample times W plus hbias, the
    hidden mean its sigmoid, and the hidden sample is drawn next from
    the same stream.  On a machine and a state of matching shapes the
    step never raises. *)
Theorem gibbs_hvh_formula (self : RBM R Rng) (h0 : matrix R) (g : Rng)
        (n : nat) :
  wf_rbm self -> has_shape h0 n (n_hidden self) ->
  exists o g1 g2,
    gibbs_hvh self h0 g = Ok (o, g2) /\
    pre_sigmoid_v1 o
    = tabulate n (n_visible self) (fun a c =>
        radd (rsum (map (fun k => rmul (get h0 a k) (get (W self) c k))
                        (seq 0 (n_hidden self))))
             (vget (vbias self) c)) /\
    v1_mean o = mmap rsigmoid (pre_sigmoid_v1 o) /\
    binomial g (v1_mean o) = (v1_sample o, g1) /\
    pre_sigmoid_h1 o
    = tabulate n (n_hidden self) (fun a j =>
        radd (rsum (map (fun k => rmul (get (v1_sample o) a k)
                                       (get (W self) k j))
                        (seq 0 (n_visible self))))
             (vget (hbias self) j)) /\
    h1_mean o = mmap rsigmoid (pre_sigmoid_h1 o) /\
    binomial g1 (h1_mean o) = (h1_sample o, g2).
Proof.
  intros Hwf Hh. unfold gibbs_hvh, sample_v_given_h, sample_h_given_v.
  destruct (propdown_formula Hwf Hh) as (pv & Ev & Fv).
  rewrite Ev. cbn [bind].
  assert (Spv : has_shape pv n (n_visible self))
    by (rewrite Fv; apply tabulate_shape).
  pose proof (binomial_shape g (mmap_shape rsigmoid Spv)) as Sv.
  destruct (binomial g (mmap rsigmoid pv)) as [v g1] eqn:Bv.
  cbn [fst] in Sv. cbn [bind].
  destruct (propup_formula Hwf Sv) as (ph & Eh & Fh).
  rewrite Eh. cbn [bind].
  destruct (binomial g1 (mmap rsigmoid ph)) as [h g2] eqn:Bh. cbn [bind].
  eexists _, g1, g2. split; [reflexivity |].
  cbn [pre_sigmoid_v1 v1_mean v1_sample pre_sigmoid_h1 h1_mean h1_sample].
  split_all; try reflexivity; assumption.
Qed.

End ChainStep.

Section Lines.

Context {R : Type} {NumR : Numeric R} {Rng : Type} {Th : Theano R Rng}.

Lemma train_batches_costs (lr : Q) (k : nat) (X : matrix R) (bs : nat)
      (l : list nat) :
  forall st costs st' costs',
    foldM (fun (a : train_state R Rng * list R) batch_index =>
             let (st, mean_cost) := a in
             '(c, st') <- train_fn lr k X bs st batch_index ;;
             Ok (st', mean_cost ++ [c]))
          (st, costs) l = Ok (st', costs') ->
    length costs' = length costs + length l.
Proof.
  induction l as [| i l IH]; intros st costs st' costs' E; simpl in E.
  - injection E as _ <-. simpl. lia.
  - apply bind_ok_inv in E. destruct E as ([st1 costs1] & E1 & E2).
    apply bind_ok_inv in E1. destruct E1 as ([c st2] & _ & E1).
    injection E1 as <- <-. apply IH in E2.
    rewrite E2, length_app. simpl. lia.
Qed.

Lemma train_epochs_lines (lr : Q) (k : nat) (X : matrix R) (bs nb : nat)
      (e : nat) :
  forall a st out st' out',
    foldM (train_epoch lr k X bs nb) (st, out) (seq a e) = Ok (st', out') ->
    exists lines,
      out' = out ++ lines /\ length lines = e /\
      forall i, i < e ->
        exists costs,
          nth_error lines i = Some (EpochCost (a + i) (mean costs)) /\
          length costs = nb.
Proof.
  induction e as [| e IH]; intros a st out st' out' E; simpl in E.
  - injection E as _ <-. exists []. rewrite app_nil_r.
    split_all; [reflexivity | reflexivity | intros i Hi; lia].
  - apply bind_ok_inv in E. destruct E as ([st1 out1] & E1 & E2).
    apply bind_ok_inv in E1. destruct E1 as ([st2 costs] & Ec & E1).
    injection E1 as <- <-.
    apply train_batches_costs in Ec. rewrite length_seq in Ec. simpl in Ec.
    destruct (IH _ _ _ _ _ E2) as (lines & -> & Hl & Hlines).
    exists (EpochCost a (mean costs) :: lines).
    rewrite <- app_assoc. split_all; [reflexivity | simpl; lia |].
    intros [| i] Hi.
    + exists costs. rewrite Nat.add_0_r. split; [reflexivity | exact Ec].
    + destruct (Hlines i) as (cs & En & Hcs); [lia |].
      exists cs. replace (a + S i) with (S a + i) by lia.
      split; [exact En | exact Hcs].
Qed.

Lemma train_batches_run (lr : Q) (k : nat) (X : matrix R) (bs : nat)
      (l : list nat) :
  forall st costs st' costs',
    foldM (fun (a : train_state R Rng * list R) batch_index =>
             let (st, mean_cost) := a in
             '(c, st') <- train_fn lr k X bs st batch_index ;;
             Ok (st', mean_cost ++ [c]))
          (st, costs) l = Ok (st', costs') ->
    exists cs, costs' = costs ++ cs /\ batches_run lr k X bs st l cs st'.
Proof.
  induction l as [| i l IH]; intros st costs st' costs' E; simpl in E.
  - injection E as <- <-. exists []. rewrite app_nil_r.
    split; [reflexivity | constructor].
  - apply bind_ok_inv in E. destruct E as ([st1 costs1] & E1 & E2).
    apply bind_ok_inv in E1. destruct E1 as ([c st2] & Ec & E1).
    injection E1 as <- <-. apply IH in E2. destruct E2 as (cs & -> & Hrun).
    exists (c :: cs). rewrite <- app_assoc. split; [reflexivity |].
    econstructor; eassumption.
Qed.

Lemma train_epochs_run (lr : Q) (k : nat) (X : matrix R) (bs nb : nat)
      (e : nat) :
  forall a st out st' out',
    foldM (train_epoch lr k X bs nb) (st, out) (seq a e) = Ok (st', out') ->
    exists lines,
      out' = out ++ lines /\
      epochs_run lr k X bs nb st (seq a e) lines st'.
Proof.
  induction e as [| e IH]; intros a st out st' out' E; simpl in E.
  - injection E as <- <-. exists []. rewrite app_nil_r.
    split; [reflexivity | constructor].
  - apply bind_ok_inv in E. destruct E as ([st1 out1] & E1 & E2).
    apply bind_ok_inv in E1. destruct E1 as ([st2 costs] & Ec & E1).
    injection E1 as <- <-.
    apply train_batches_run in Ec. destruct Ec as (cs & Ecs & Hrun).
    simpl in Ecs. subst costs.
    destruct (IH _ _ _ _ _ E2) as (lines & -> & Hlines).
    exists (EpochCost a (mean cs) :: lines).
    rewrite <- app_assoc. split; [reflexivity |].
    simpl. econstructor; eassumption.
Qed.

(** X20. What [fit] prints: one line for each epoch, in order, then the
    line of the elapsed time, and nothing else.  The line of epoch e has
    the epoch number e and the mean of the costs that the calls
    [train_rbm(0)], ..., [train_rbm(n / 20 - 1)] of that epoch returned,
    n the number of distinct users; each call starts from the shared
    variables the call before left, the first of all from the machine
    the constructor made, the chain of zeros and the bit index 0, and
    [self.rbm] is the machine the last call left. *)
Theorem fit_prints (self : RBM_object R Rng)
        (training_data : list interaction) :
  0 < n_hidden (base self) + length (unique (map item training_data)) ->
  exists self' lines X st,
    fit self training_data = Ok (self', lines ++ [TrainingTook]) /\
    _convert training_data
    = Ok (X, enumerate_map (unique (map user training_data)),
          enumerate_map (unique (map item training_data)),
          groupby_user training_data) /\
    epochs_run (learning_rate (base self))
               (Z.to_nat (training_epochs (base self))) X 20
               (length (unique (map user training_data)) / 20)
               (initial_train_state
                  (length (unique (map item training_data)))
                  (n_hidden (base self)) 20)
               (seq 0 (Z.to_nat (training_epochs (base self))))
               lines st /\
    rbm self' = Some (ts_rbm st) /\
    length lines = Z.to_nat (training_epochs (base self)) /\
    forall e, e < Z.to_nat (training_epochs (base self)) ->
      exists costs,
        nth_error lines e = Some (EpochCost e (mean costs)) /\
        length costs = length (unique (map user training_data)) / 20.
Proof.
  intros Hpos.
  destruct (fit_ok self training_data Hpos)
    as (X & st & out & E & [Sn Sm] & _).
  pose proof E as E'. unfold fit in E'.
  destruct (_convert_ok (R := R) training_data) as (X' & Ec & _).
  rewrite Ec in E'. cbn [bind] in E'.
  apply bind_ok_inv in E'. destruct E' as ([r out0] & Et & E').
  injection E' as EX Er Eout. subst X' r.
  unfold train_rbm in Et.
  apply bind_ok_inv in Et. destruct Et as ([st0 out1] & Es & Et).
  injection Et as Er <-. apply app_inj_tail in Eout. destruct Eout as [<- _].
  unfold train_rbm_state in Es. cbn [base] in Es.
  unfold int_div in Es. simpl Nat.eqb in Es. cbv iota in Es.
  cbn [bind] in Es. rewrite Sm in Es.
  rewrite __init___ok in Es by exact Hpos. cbn [bind] in Es.
  rewrite Sn in Es.
  pose proof Es as Es'. apply train_epochs_lines in Es'.
  destruct Es' as (lines' & El' & Hl & Hlines).
  apply train_epochs_run in Es. destruct Es as (lines & El & Hrun).
  simpl in El, El'. subst out1. subst lines'.
  eexists _, lines, X, st0. split; [exact E |].
  split; [exact Ec |]. split; [exact Hrun |].
  cbn [rbm]. rewrite Er.
  split_all; [reflexivity | exact Hl | exact Hlines].
Qed.

End Lines.

(** * The further properties at concrete inputs *)

Open Scope string_scope.

(** X3 at a second copy of the one row of [first_data]. *)
Lemma _convert_repeated_row_witness :
  _convert (R := expr) (first_data ++ Interaction "u" "i" :: second_data)%list
  = _convert (first_data ++ second_data)%list.
Proof.
  apply (@_convert_repeated_row expr _ first_data second_data
                                (Interaction "u" "i")).
  simpl. auto.
Defined.

(** X6 at the fitted example. *)
Lemma get_score_unknown_item_witness :
  (forall u i w,
      ~ In i (map item first_data) ->
      get_score fitted_example u i w = (Raise KeyError, w)) /\
  (forall (obj : RBM_object expr nat) u i w,
      iid_map obj = None ->
      get_score obj u i w = (Raise AttributeError, w)).
Proof.
  apply (@get_score_unknown_item expr _ nat _ example_object fitted_example
                                 first_data fitted_out).
  exact fitted_example_fit.
Defined.

(** X7 at the first score of user "u" for item "i". *)
Lemma get_score_formula_witness :
  exists r test_x o g,
    rbm fitted_example = Some r /\
    test_user fitted_example "u" = Ok test_x /\
    gibbs_vhv r test_x (theano_rng r) = Ok (o, g) /\
    get_score fitted_example "u" "i" empty_world
    = (Ok (rsigmoid
             (radd (rsum (map (fun k => rmul (get (h1_sample o) 0 k)
                                             (get (W r) 0 k))
                              (seq 0 (n_hidden r))))
                   (vget (vbias r) 0)),
           store_rng fitted_example r g),
       World (lru_insert (obj_id fitted_example, "u") (v1_mean o)
                         (cache (empty_world (R := expr))))
             (Run (obj_id fitted_example, "u") :: events (empty_world (R := expr)))).
Proof.
  apply (@get_score_formula expr _ nat _ example_object fitted_example
                            first_data fitted_out "u" "i" 0 empty_world).
  - exact fitted_example_fit.
  - simpl. auto.
  - reflexivity.
  - reflexivity.
Defined.

(** X8 at two scores of user "u" for item "i". *)
Lemma get_score_second_call_witness :
  exists v s self1 w1,
    get_score fitted_example "u" "i" empty_world = (Ok (s, self1), w1) /\
    cache_find (cache w1) (obj_id fitted_example, "u") = Some v /\
    get_score self1 "u" "i" w1
    = (Ok (get v 0 0, self1),
       World (lru_touch (obj_id fitted_example, "u") v (cache w1))
             (Hit (obj_id fitted_example, "u")
                :: Run (obj_id fitted_example, "u") :: events (empty_world (R := expr)))).
Proof.
  apply (@get_score_second_call expr _ nat _ example_object fitted_example
                                first_data fitted_out "u" "i" "i" 0 0
                                empty_world).
  - exact fitted_example_fit.
  - simpl. auto.
  - reflexivity.
  - reflexivity.
  - reflexivity.
Defined.

(** X10 at the one user of [first_data]. *)
Lemma fit_fewer_than_twenty_users_witness :
  exists X,
    _convert first_data
    = Ok (X, enumerate_map (unique (map user first_data)),
          enumerate_map (unique (map item first_data)),
          groupby_user first_data) /\
    fit example_object first_data
    = Ok (mkObject (obj_id example_object) (base example_object)
                   (Some (groupby_user first_data))
                   (Some (enumerate_map (unique (map user first_data))))
                   (Some (enumerate_map (unique (map item first_data))))
                   (Some X)
                   (Some (ts_rbm (initial_train_state
                                    (length (unique (map item first_data)))
                                    (n_hidden (base example_object)) 20))),
          (map (fun n => EpochCost n (mean []))
               (seq 0 (Z.to_nat (training_epochs (base example_object))))
           ++ [TrainingTook])%list).
Proof.
  apply (@fit_fewer_than_twenty_users expr _ nat _ example_object first_data).
  - vm_compute. lia.
  - vm_compute. lia.
Defined.

(** X11 at the same fit. *)
Lemma fit_machine_witness :
  exists self' out X r,
    fit example_object first_data = Ok (self', out) /\
    obj_id self' = obj_id example_object /\
    base self' = base example_object /\
    _convert first_data
    = Ok (X, enumerate_map (unique (map user first_data)),
          enumerate_map (unique (map item first_data)),
          groupby_user first_data) /\
    input self' = Some X /\
    user_data self' = Some (groupby_user first_data) /\
    uid_map self' = Some (enumerate_map (unique (map user first_data))) /\
    iid_map self' = Some (enumerate_map (unique (map item first_data))) /\
    has_shape X (length (unique (map user first_data)))
              (length (unique (map item first_data))) /\
    rbm self' = Some r /\
    n_visible r = length (unique (map item first_data)) /\
    n_hidden r = n_hidden (base example_object) /\
    has_shape (W r) (n_visible r) (n_hidden r) /\
    length (hbias r) = n_hidden r /\
    length (vbias r) = n_visible r /\
    learning_rate r = default_learning_rate /\
    training_epochs r = default_training_epochs.
Proof.
  apply (@fit_machine expr _ nat _ example_object first_data).
  vm_compute. lia.
Defined.

(** X12 at a batch of one row and a machine of two visible units and
    one hidden unit. *)
Lemma free_energy_formula_witness :
  free_energy example_rbm example_batch
  = Ok (vtabulate 1 (fun a =>
          rsub (rneg (rsum (map (fun j =>
                  rlog (radd rone
                         (rexp (radd (rsum (map (fun k =>
                                               rmul (get example_batch a k)
                                                    (get (W example_rbm) k j))
                                            (seq 0 (n_visible example_rbm))))
                                     (vget (hbias example_rbm) j)))))
                  (seq 0 (n_hidden example_rbm)))))
               (rsum (map (fun k => rmul (get example_batch a k)
                                         (vget (vbias example_rbm) k))
                          (seq 0 (n_visible example_rbm)))))).
Proof.
  apply (@free_energy_formula expr _ nat example_rbm example_batch 1).
  - exact example_rbm_wf.
  - unfold has_shape. vm_compute. auto.
Defined.

(** X13 at a CD update of two Gibbs steps on that batch. *)
Lemma reconstruction_monitoring_cost_witness :
  exists cost u pre_ph ph_sample g1 chain g2 last,
    get_cost_updates example_rbm example_batch 0.1%Q None 2 0 0
    = Ok (cost, u) /\
    sample_h_given_v example_rbm example_batch 0
    = Ok (pre_ph, mmap rsigmoid pre_ph, ph_sample, g1) /\
    scan (gibbs_hvh example_rbm) ph_sample 2 g1 = Ok (chain, g2) /\
    last_of chain = Ok last /\
    cost
    = mean (vtabulate 1 (fun a =>
        rsum (map (fun b =>
                     radd (rmul (get example_batch a b)
                                (rlog (rsigmoid
                                         (get (pre_sigmoid_v1 last) a b))))
                          (rmul (rsub rone (get example_batch a b))
                                (rlog (rsub rone
                                         (rsigmoid
                                            (get (pre_sigmoid_v1 last)
                                                 a b))))))
                  (seq 0 (n_visible example_rbm))))) /\
    upd_persistent u = None /\
    upd_bit_i_idx u = None.
Proof.
  apply (@reconstruction_monitoring_cost
           expr _ nat _ example_rbm example_batch 0.1%Q 2 0 0 1).
  - exact example_rbm_wf.
  - unfold has_shape. vm_compute. auto.
  - lia.
Defined.

(** X14 at a PCD update of two Gibbs steps on that batch. *)
Lemma get_cost_updates_rule_witness :
  exists cost u pre_ph ph_sample g1 chain g2 last,
    get_cost_updates example_rbm example_batch 0.1%Q (Some example_chain)
                     2 0 0 = Ok (cost, u) /\
    sample_h_given_v example_rbm example_batch 0
    = Ok (pre_ph, mmap rsigmoid pre_ph, ph_sample, g1) /\
    scan (gibbs_hvh example_rbm) example_chain 2 0 = Ok (chain, g2) /\
    last_of chain = Ok last /\
    has_shape (upd_W u) (n_visible example_rbm) (n_hidden example_rbm) /\
    length (upd_hbias u) = n_hidden example_rbm /\
    length (upd_vbias u) = n_visible example_rbm /\
    (forall i j, i < n_visible example_rbm -> j < n_hidden example_rbm ->
       get (upd_W u) i j
       = rsub (get (W example_rbm) i j)
              (rmul (get (p_W (T_grad (cd_cost example_rbm example_batch
                                               (v1_sample last))
                                      (rbm_params example_rbm))) i j)
                    (rconst 0.1%Q))) /\
    (forall j, j < n_hidden example_rbm ->
       vget (upd_hbias u) j
       = rsub (vget (hbias example_rbm) j)
              (rmul (vget (p_hbias (T_grad (cd_cost example_rbm example_batch
                                                    (v1_sample last))
                                           (rbm_params example_rbm))) j)
                    (rconst 0.1%Q))) /\
    (forall i, i < n_visible example_rbm ->
       vget (upd_vbias u) i
       = rsub (vget (vbias example_rbm) i)
              (rmul (vget (p_vbias (T_grad (cd_cost example_rbm example_batch
                                                    (v1_sample last))
                                           (rbm_params example_rbm))) i)
                    (rconst 0.1%Q))).
Proof.
  apply (@get_cost_updates_rule
           expr _ nat _ example_rbm example_batch 0.1%Q (Some example_chain)
           2 0 0 1).
  - exact example_rbm_wf.
  - unfold has_shape. vm_compute. auto.
  - intros p E. injection E as <-. unfold has_shape. vm_compute. auto.
  - lia.
Defined.

(** X17 at the new and the fitted example object. *)
Lemma train_rbm_reads_witness :
  train_rbm example_object three_rows 2
  = train_rbm fitted_example three_rows 2.
Proof.
  apply (@train_rbm_reads expr _ nat _ example_object fitted_example
                          three_rows 2); reflexivity.
Defined.

(** X18 at the first score, seen from the key of another object. *)
Lemma get_score_other_keys_witness :
  (forall v,
      cache_find (cache (snd (get_score fitted_example "u" "i" empty_world)))
                 (1, "u") = Some v ->
      cache_find (cache (empty_world (R := expr))) (1, "u") = Some v) /\
  (length (cache (empty_world (R := expr))) < maxsize ->
   cache_find (cache (snd (get_score fitted_example "u" "i" empty_world)))
              (1, "u")
   = cache_find (cache (empty_world (R := expr))) (1, "u")).
Proof.
  apply (@get_score_other_keys expr _ nat _ fitted_example "u" "i"
                               empty_world (1, "u")).
  simpl. discriminate.
Defined.

(** X19 at one step from the chain of one row. *)
Lemma gibbs_hvh_formula_witness :
  exists o g1 g2,
    gibbs_hvh example_rbm example_chain 0 = Ok (o, g2) /\
    pre_sigmoid_v1 o
    = tabulate 1 (n_visible example_rbm) (fun a c =>
        radd (rsum (map (fun k => rmul (get example_chain a k)
                                       (get (W example_rbm) c k))
                        (seq 0 (n_hidden example_rbm))))
             (vget (vbias example_rbm) c)) /\
    v1_mean o = mmap rsigmoid (pre_sigmoid_v1 o) /\
    binomial 0 (v1_mean o) = (v1_sample o, g1) /\
    pre_sigmoid_h1 o
    = tabulate 1 (n_hidden example_rbm) (fun a j =>
        radd (rsum (map (fun k => rmul (get (v1_sample o) a k)
                                       (get (W example_rbm) k j))
                        (seq 0 (n_visible example_rbm))))
             (vget (hbias example_rbm) j)) /\
    h1_mean o = mmap rsigmoid (pre_sigmoid_h1 o) /\
    binomial g1 (h1_mean o) = (h1_sample o, g2).
Proof.
  apply (@gibbs_hvh_formula expr _ nat _ example_rbm example_chain 0 1).
  - exact example_rbm_wf.
  - unfold has_shape. vm_compute. auto.
Defined.

(** X20 at a fit on twenty users. *)
Lemma fit_prints_witness :
  exists self' lines X st,
    fit example_object twenty_users
    = Ok (self', (lines ++ [TrainingTook])%list) /\
    _convert twenty_users
    = Ok (X, enumerate_map (unique (map user twenty_users)),
          enumerate_map (unique (map item twenty_users)),
          groupby_user twenty_users) /\
    epochs_run (learning_rate (base example_object))
               (Z.to_nat (training_epochs (base example_object))) X 20
               (length (unique (map user twenty_users)) / 20)
               (initial_train_state
                  (length (unique (map item twenty_users)))
                  (n_hidden (base example_object)) 20)
               (seq 0 (Z.to_nat (training_epochs (base example_object))))
               lines st /\
    rbm self' = Some (ts_rbm st) /\
    length lines = Z.to_nat (training_epochs (base example_object)) /\
    forall e, e < Z.to_nat (training_epochs (base example_object)) ->
      exists costs,
        nth_error lines e = Some (EpochCost e (mean costs)) /\
        length costs = length (unique (map user twenty_users)) / 20.
Proof.
  apply (@fit_prints expr _ nat _ example_object twenty_users).
  vm_compute. lia.
Defined.

(** X15 at the batch of one row with its persistent chain. *)
Lemma get_cost_updates_zero_steps_witness :
  get_cost_updates example_rbm example_batch 0.1%Q (Some example_chain)
                   0 0 0 = Raise NotImplementedError /\
  forall (obj : RBM_object expr nat) (training_data : list interaction),
    training_epochs (base obj) = 0%Z ->
    0 < n_hidden (base obj) + length (unique (map item training_data)) ->
    exists X,
      _convert training_data
      = Ok (X, enumerate_map (unique (map user training_data)),
            enumerate_map (unique (map item training_data)),
            groupby_user training_data) /\
      fit obj training_data
      = Ok (mkObject (obj_id obj) (base obj)
                     (Some (groupby_user training_data))
                     (Some (enumerate_map (unique (map user training_data))))
                     (Some (enumerate_map (unique (map item training_data))))
                     (Some X)
                     (Some (ts_rbm (initial_train_state
                                      (length (unique
                                                 (map item training_data)))
                                      (n_hidden (base obj)) 20))),
            [TrainingTook]).
Proof.
  apply (@get_cost_updates_zero_steps
           expr _ nat _ example_rbm example_batch 0.1%Q (Some example_chain)
           0 0 1).
  - exact example_rbm_wf.
  - unfold has_shape. vm_compute. auto.
  - intros p E. injection E as <-. unfold has_shape. vm_compute. auto.
Defined.

(** C1 at an update of two Gibbs steps on a batch of one row: with the
    persistent chain of that row, and without one. *)
Lemma get_cost_updates_chain_start_witness :
  (exists cost u chain g2 last,
      get_cost_updates example_rbm example_batch 0.1%Q (Some example_chain)
                       2 0 0 = Ok (cost, u) /\
      (is_chain example_rbm example_chain 0 chain g2 /\
       upd_persistent u = Some (h1_sample last)) /\
      length chain = 2 /\
      last_of chain = Ok last /\
      upd_rng u = g2 /\
      mmap2 rsub (W example_rbm)
            (mmap (fun x => rmul x (rconst 0.1%Q))
                  (p_W (T_grad (cd_cost example_rbm example_batch
                                        (v1_sample last))
                               (rbm_params example_rbm))))
      = Ok (upd_W u) /\
      vmap2 rsub (hbias example_rbm)
            (map (fun x => rmul x (rconst 0.1%Q))
                 (p_hbias (T_grad (cd_cost example_rbm example_batch
                                           (v1_sample last))
                                  (rbm_params example_rbm))))
      = Ok (upd_hbias u) /\
      vmap2 rsub (vbias example_rbm)
            (map (fun x => rmul x (rconst 0.1%Q))
                 (p_vbias (T_grad (cd_cost example_rbm example_batch
                                           (v1_sample last))
                                  (rbm_params example_rbm))))
      = Ok (upd_vbias u)) /\
  (exists cost u chain g2 last,
      get_cost_updates example_rbm example_batch 0.1%Q None 2 0 0
      = Ok (cost, u) /\
      (exists pre_ph ph_sample g1,
          sample_h_given_v example_rbm example_batch 0
          = Ok (pre_ph, mmap rsigmoid pre_ph, ph_sample, g1) /\
          is_chain example_rbm ph_sample g1 chain g2 /\
          get_reconstruction_cost example_batch (pre_sigmoid_v1 last)
          = Ok cost /\
          upd_persistent u = None) /\
      length chain = 2 /\
      last_of chain = Ok last /\
      upd_rng u = g2 /\
      mmap2 rsub (W example_rbm)
            (mmap (fun x => rmul x (rconst 0.1%Q))
                  (p_W (T_grad (cd_cost example_rbm example_batch
                                        (v1_sample last))
                               (rbm_params example_rbm))))
      = Ok (upd_W u) /\
      vmap2 rsub (hbias example_rbm)
            (map (fun x => rmul x (rconst 0.1%Q))
                 (p_hbias (T_grad (cd_cost example_rbm example_batch
                                           (v1_sample last))
                                  (rbm_params example_rbm))))
      = Ok (upd_hbias u) /\
      vmap2 rsub (vbias example_rbm)
            (map (fun x => rmul x (rconst 0.1%Q))
                 (p_vbias (T_grad (cd_cost example_rbm example_batch
                                           (v1_sample last))
                                  (rbm_params example_rbm))))
      = Ok (upd_vbias u)).
Proof.
  split.
  - apply (@get_cost_updates_chain_start
             expr _ nat _ example_rbm example_batch 0.1%Q
             (Some example_chain) 2 0 0 1).
    + exact example_rbm_wf.
    + unfold has_shape. vm_compute. auto.
    + intros p E. injection E as <-. unfold has_shape. vm_compute. auto.
    + lia.
  - apply (@get_cost_updates_chain_start
             expr _ nat _ example_rbm example_batch 0.1%Q None 2 0 0 1).
    + exact example_rbm_wf.
    + unfold has_shape. vm_compute. auto.
    + intros p E. discriminate E.
    + lia.
Defined.

(** The stream after these two updates: under PCD the chain of two steps
    draws twice one visible row of two units and one hidden unit;
    without a persistent chain one hidden unit is drawn before, for the
    positive phase. *)
Example chain_draws :
  option_map (fun r => upd_rng (snd r))
             (match get_cost_updates example_rbm example_batch 0.1%Q
                                     (Some example_chain) 2 0 0 with
              | Ok r => Some r
              | Raise _ => None
              end) = Some (2 * (2 + 1)) /\
  option_map (fun r => upd_rng (snd r))
             (match get_cost_updates example_rbm example_batch 0.1%Q
                                     None 2 0 0 with
              | Ok r => Some r
              | Raise _ => None
              end) = Some (1 + 2 * (2 + 1)).
Proof. split; vm_compute; reflexivity. Qed.

(** The second score is a hit: one run and one hit in the log, one
    vector in the cache, and the stream of the object where the first
    score left it. *)
Example second_score_is_hit :
  events second_world = [Hit (0, "u"); Run (0, "u")] /\
  length (cache second_world) = 1 /\
  get_score scored_example "u" "i" first_world
  = (Ok (first_score, scored_example), second_world).
Proof. vm_compute. auto. Qed.

Lemma many_users_object_consistent : consistent many_users_object.
Proof.
  exists (map (fun u => (u, ["i"])) many_users),
         (enumerate_map (unique (map item first_data))),
         (ts_rbm (initial_train_state 1 2 20)).
  split_all; try reflexivity.
  - unfold wf_rbm, has_shape. vm_compute. auto.
  - intros u items i Eu Hi.
    destruct (in_dec string_dec u many_users) as [Hin | Hnin].
    + rewrite (dict_find_map_in (fun _ => ["i"]) _ _ Hin) in Eu.
      injection Eu as <-. destruct Hi as [<- | []].
      exists 0. split; [reflexivity | simpl; lia].
    + rewrite (dict_find_map_notin (fun _ => ["i"]) _ _ Hnin) in Eu.
      discriminate.
Qed.

Lemma score_all_reachable (calls : list (string * string)) :
  forall start : RBM_object expr nat * world expr,
    consistent (fst start) -> reachable (snd start) ->
    consistent (fst (score_all calls start)) /\
    reachable (snd (score_all calls start)).
Proof.
  induction calls as [| [u i] calls IH]; intros [self w] Hc Hr;
    [split; assumption |].
  cbn [fst snd] in Hc, Hr.
  unfold score_all. cbn [fold_left fst snd].
  pose proof (@reach_get_score expr _ nat _ self u i w Hr Hc) as Hr'.
  destruct (get_score self u i w) as [[[s self'] | e] w'] eqn:E.
  - apply IH; [| exact Hr'].
    exact (@get_score_consistent expr _ nat _ self self' u i w w' s Hc E).
  - apply IH; assumption.
Qed.

Lemma late_run_reachable : reachable (snd late_run).
Proof.
  apply score_all_reachable; apply score_all_reachable.
  - exact many_users_object_consistent.
  - apply reach_empty.
  - exact many_users_object_consistent.
  - apply reach_empty.
Qed.

(** A full cache.  After one score for each of 1001 users the cache
    holds 1000 vectors: that of the first user, the least recently used
    one, was dropped when the last was stored, and that of the second
    is there.  Each of the 1001 scores took one Gibbs step of three
    draws.  The further score of the second user is a hit and draws
    nothing; a further score of the first user takes a new Gibbs
    step. *)
Example full_cache_drops_least_recent :
  length (cache (snd full_run)) = maxsize /\
  cache_find (cache (snd full_run)) (0, user_name 0) = None /\
  cache_find (cache (snd full_run)) (0, user_name 1) <> None /\
  option_map theano_rng (rbm (fst full_run)) = Some (3 * 1001) /\
  hd_error (events (snd late_run)) = Some (Hit (0, user_name 1)) /\
  option_map theano_rng (rbm (fst late_run)) = Some (3 * 1001) /\
  count_runs (0, user_name 1) (events (snd late_run)) = 1 /\
  option_map theano_rng
             (rbm (fst (score_all [(user_name 0, "i")] late_run)))
  = Some (3 * 1001 + 3) /\
  count_runs (0, user_name 0)
             (events (snd (score_all [(user_name 0, "i")] late_run))) = 2.
Proof. vm_compute. split_all; try reflexivity. discriminate. Qed.

(** C6 at the full cache after the scores of 1001 users and a second
    score of one of them. *)
Lemma one_gibbs_run_per_cached_user_witness :
  length (cache (snd late_run)) <= maxsize /\
  map fst (cache (snd late_run))
  = firstn maxsize (recency (events (snd late_run))) /\
  (length (cache (snd late_run)) < maxsize ->
   forall (self : RBM_object expr nat) (u : string),
     count_runs (obj_id self, u) (events (snd late_run)) <= 1) /\
  (forall (self self1 : RBM_object expr nat) u i s w1,
      get_score self u i (snd late_run) = (Ok (s, self1), w1) ->
      exists v c,
        (m <- attr (iid_map self) ;; dict_get m i) = Ok c /\
        get_entry v 0 c = Ok s /\
        cache_find (cache w1) (obj_id self, u) = Some v /\
        ((cache_find (cache (snd late_run)) (obj_id self, u) = Some v /\
          self1 = self /\
          w1 = World (lru_touch (obj_id self, u) v (cache (snd late_run)))
                     (Hit (obj_id self, u) :: events (snd late_run))) \/
         (cache_find (cache (snd late_run)) (obj_id self, u) = None /\
          (exists r test_x o g,
              rbm self = Some r /\
              test_user self u = Ok test_x /\
              gibbs_vhv r test_x (theano_rng r) = Ok (o, g) /\
              v = v1_mean o /\
              self1 = store_rng self r g /\
              w1 = World (lru_insert (obj_id self, u) (v1_mean o)
                                     (cache (snd late_run)))
                         (Run (obj_id self, u) :: events (snd late_run))) /\
          map fst (cache w1)
          = (obj_id self, u)
              :: (if (maxsize <=? length (cache (snd late_run)))%nat
                  then removelast (map fst (cache (snd late_run)))
                  else map fst (cache (snd late_run)))))) /\
  (forall w' key v,
      cache_find (cache (snd late_run)) key = Some v ->
      later (snd late_run) w' ->
      cache_find (cache w') key = Some v /\
      forall (self : RBM_object expr nat) u i c,
        key = (obj_id self, u) ->
        (m <- attr (iid_map self) ;; dict_get m i) = Ok c ->
        get_score self u i w'
        = (x <- get_entry v 0 c ;; Ok (x, self),
           World (lru_touch key v (cache w'))
                 (Hit key :: events w'))).
Proof.
  apply (@one_gibbs_run_per_cached_user expr _ nat _ (snd late_run)).
  exact late_run_reachable.
Defined.

(** C8, amended, at a refit of the scored object. *)
Lemma cache_survives_refit_witness :
  obj_id refitted_example = obj_id fitted_example /\
  exists v,
    cache_find (cache first_world) (obj_id fitted_example, "u") = Some v /\
    (forall w2 item2 c,
        cache_find (cache w2) (obj_id fitted_example, "u") = Some v ->
        dict_find (enumerate_map (unique (map item second_data))) item2
        = Some c ->
        get_score refitted_example "u" item2 w2
        = (x <- get_entry v 0 c ;; Ok (x, refitted_example),
           World (lru_touch (obj_id fitted_example, "u") v (cache w2))
                 (Hit (obj_id fitted_example, "u") :: events w2))) /\
    (forall w2, later first_world w2 ->
                cache_find (cache w2) (obj_id fitted_example, "u") = Some v) /\
    (forall key',
        key' <> (obj_id fitted_example, "u") ->
        length (cache (empty_world (R := expr))) < maxsize ->
        cache_find (cache first_world) key'
        = cache_find (cache (empty_world (R := expr))) key') /\
    (forall (m0 m : RBM_object expr nat) (data : list interaction)
            (out' : list (output expr)) (u' i : string) (c : nat)
            (w2 : world expr),
        fit m0 data = Ok (m, out') ->
        In u' (map user data) ->
        dict_find (enumerate_map (unique (map item data))) i = Some c ->
        cache_find (cache w2) (obj_id m, u') = None ->
        exists r test_x o g,
          rbm m = Some r /\
          test_user m u' = Ok test_x /\
          gibbs_vhv r test_x (theano_rng r) = Ok (o, g) /\
          get_score m u' i w2
          = (Ok (get (v1_mean o) 0 c, store_rng m r g),
             World (lru_insert (obj_id m, u') (v1_mean o) (cache w2))
                   (Run (obj_id m, u') :: events w2))).
Proof.
  apply (@cache_survives_refit
           expr _ nat _ fitted_example scored_example refitted_example
           "u" "i" empty_world first_world first_score second_data
           refitted_out).
  - exact first_score_get_score.
  - exact refitted_example_fit.
Defined.

Close Scope string_scope.
